(** * Distribution build: proxy routing, settings and feature visibility

    A shallow embedding of the distribution ("Vibeathon") layer of the
    application: environment detection, the telemetry wrappers, the
    Vibeathon API client, the settings handlers, the feature visibility
    gate, and the retry / fallback logic around [getModelClient].  The
    visibility gate is given a second time as the syntax tree of its
    source text, to state what it reads and writes.

    JavaScript values are modelled by [JS.value]; objects are
    insertion-ordered association lists, [undefined] is a value of its
    own, and a rejected promise or a thrown exception is the [Throw]
    case of [result]. *)

From Stdlib Require Import ZArith QArith Lia.
From stdpp Require Import base strings pretty list gmap.

Set Warnings "-register-all".
Open Scope string_scope.
Open Scope list_scope.
Open Scope Z_scope.

(** ** Outcome of a computation that may throw *)

Inductive result (E A : Type) : Type :=
| Ok (a : A)
| Throw (e : E).
Arguments Ok {E A} a.
Arguments Throw {E A} e.

Definition is_ok {E A} (r : result E A) : bool :=
  match r with Ok _ => true | Throw _ => false end.

(** ** JavaScript values *)

Module JS.

Inductive value : Type :=
| VUndefined
| VNull
| VBool (b : bool)
| VNum (q : Q)
| VNaN
| VStr (s : string)
| VArr (items : list value)
| VObj (fields : list (string * value)).

(** An object: its own enumerable properties in insertion order. *)
Definition object := list (string * value).

(** ToBoolean. *)
Definition truthy (v : value) : bool :=
  match v with
  | VUndefined | VNull | VNaN => false
  | VBool b => b
  | VNum q => negb (Qeq_bool q 0)
  | VStr s => negb (String.eqb s "")
  | VArr _ | VObj _ => true
  end.

(** [a || b] *)
Definition or (a b : value) : value := if truthy a then a else b.

(** [a ?? b] *)
Definition coalesce (a b : value) : value :=
  match a with
  | VUndefined | VNull => b
  | _ => a
  end.

(** [v !== undefined] *)
Definition defined (v : value) : bool :=
  match v with VUndefined => false | _ => true end.

(** [o[k]] on an object: the value of the property, [undefined] when the
    object has no such property. *)
Fixpoint get (o : object) (k : string) : value :=
  match o with
  | [] => VUndefined
  | (k', v) :: o' => if String.eqb k' k then v else get o' k
  end.

(** [k in o] for own properties. *)
Fixpoint has (o : object) (k : string) : bool :=
  match o with
  | [] => false
  | (k', _) :: o' => String.eqb k' k || has o' k
  end.

(** [o[k] = v]: an existing property keeps its position, a new one is
    appended. *)
Fixpoint set (o : object) (k : string) (v : value) : object :=
  match o with
  | [] => [(k, v)]
  | (k', v') :: o' =>
      if String.eqb k' k then (k', v) :: o' else (k', v') :: set o' k v
  end.

(** [Object.entries(o)] *)
Definition entries (o : object) : list (string * value) := o.

(** [Object.fromEntries(es)] *)
Definition fromEntries (es : list (string * value)) : object :=
  fold_left (fun o kv => set o kv.1 kv.2) es [].

(** [v.k] for an arbitrary value and a property name that is not a
    built-in of strings, numbers, booleans or arrays: reading from
    [undefined] or [null] throws a TypeError ([None]); primitives and
    arrays have no such property. *)
Definition prop (v : value) (k : string) : option value :=
  match v with
  | VUndefined | VNull => None
  | VObj o => Some (get o k)
  | _ => Some VUndefined
  end.

(** ToString as a template literal applies it to [${v}].  An object of
    the model is a plain object; [None] is the TypeError of one whose own
    [toString] property hides [Object.prototype.toString] (no value of
    the model is a function).
    An array is joined with commas, an [undefined] or [null] element giving
    the empty text.  [numberToString] is Number::toString, the decimal
    rendering of a number, which the rationals of the model do not fix. *)
Section ToString.
Variable numberToString : Q -> string.

Fixpoint toString (v : value) : option string :=
  match v with
  | VUndefined => Some "undefined"
  | VNull => Some "null"
  | VBool true => Some "true"
  | VBool false => Some "false"
  | VNum q => Some (numberToString q)
  | VNaN => Some "NaN"
  | VStr s => Some s
  | VArr items =>
      (fix join (items : list value) : option string :=
         match items with
         | [] => Some ""
         | item :: rest =>
             match match item with
                   | VUndefined | VNull => Some ""
                   | _ => toString item
                   end with
             | None => None
             | Some text =>
                 match rest with
                 | [] => Some text
                 | _ :: _ =>
                     match join rest with
                     | Some texts => Some (text +:+ "," +:+ texts)
                     | None => None
                     end
                 end
             end
         end) items
  | VObj o => if has o "toString" then None else Some "[object Object]"
  end.

End ToString.

End JS.

(** ** The process environment *)

Module Env.

(** [process.env]: a finite map from variable names to strings. *)
Definition t := gmap string string.

(** [process.env.K === s] *)
Definition equals (env : t) (k s : string) : bool :=
  match env !! k with
  | Some v => String.eqb v s
  | None => false
  end.

(** Truthiness of [process.env.K]: set and not the empty string. *)
Definition truthy (v : option string) : bool :=
  match v with
  | Some s => negb (String.eqb s "")
  | None => false
  end.

End Env.

(** ** src/lib/telemetry.ts *)

Module Telemetry.

(** A call that reached the PostHog client. *)
Inductive call : Type :=
| Capture (eventName : string) (properties : JS.value)
| CaptureException (error : string).

(** The state of the telemetry backend: the calls it has received. *)
Definition backend := list call.

Section WithEnv.
Variable env : Env.t.

Definition IS_DISTRIBUTION_BUILD : bool :=
  Env.equals env "DYAD_DISTRIBUTION_BUILD" "true".

Definition captureEvent (eventName : string) (properties : JS.value)
    (ph : backend) : backend :=
  if IS_DISTRIBUTION_BUILD then ph
  else ph ++ [Capture eventName properties].

Definition captureException (error : string) (ph : backend) : backend :=
  if IS_DISTRIBUTION_BUILD then ph
  else ph ++ [CaptureException error].

Definition isTelemetryEnabled : bool := negb IS_DISTRIBUTION_BUILD.

(** A use of the telemetry wrappers by the rest of the application. *)
Inductive use : Type :=
| UseEvent (eventName : string) (properties : JS.value)
| UseException (error : string).

Definition step (ph : backend) (u : use) : backend :=
  match u with
  | UseEvent n p => captureEvent n p ph
  | UseException e => captureException e ph
  end.

Definition run (us : list use) (ph : backend) : backend :=
  fold_left step us ph.

End WithEnv.

End Telemetry.

(** ** Resolution of the proxy base address *)

Module ProxyUrl.

(** Modelled from the spec: [getEnvVar] of [./read_env] is not part of the
    sources at hand; the override is environment-level configuration, so
    it is taken to read the variable from the process environment. *)
Definition getEnvVar (env : Env.t) (k : string) : option string := env !! k.

(** The constant [VIBEATHON_API_BASE] of the API client
    (src/ipc/utils/distribution_utils.ts), resolved when the module is
    loaded. *)
Definition VIBEATHON_API_BASE (env : Env.t) : string :=
  let override := getEnvVar env "DYAD_DISTRIBUTION_PROXY_URL" in
  if Env.truthy override then default "" override
  else if Env.equals env "NODE_ENV" "development"
       then "http://app.vibeathon.test/api/v1"
       else "https://app.vibeathon.us/api/v1".

(** [getVibeathonProxyUrl] of the API client: it returns the constant. *)
Definition getVibeathonProxyUrl_api (env : Env.t) : string :=
  VIBEATHON_API_BASE env.

(** [getVibeathonProxyUrl] of the settings side, the one
    [initializeDistributionSettings] calls.  Its comment in the source:
    always use HTTPS to avoid 301 redirects that can lose the request
    body. *)
Definition getVibeathonProxyUrl (env : Env.t) : string :=
  let envUrl := env !! "DYAD_DISTRIBUTION_PROXY_URL" in
  if Env.truthy envUrl then default "" envUrl
  else if Env.equals env "NODE_ENV" "development"
       then "https://app.vibeathon.test/api/v1"
       else "https://app.vibeathon.us/api/v1".

End ProxyUrl.

(** ** The Vibeathon API client (src/ipc/utils/distribution_utils.ts) *)

Module VibeathonApi.

(** What the client throws: an [Error] built by [new Error(message)]
    ([message] is the value handed to the constructor, which JavaScript
    stores as a string), the [SyntaxError] of [response.json()] on a body
    that is not JSON, or a [TypeError] (a property read from [null], a
    failed [fetch]). *)
Inductive JsError : Type :=
| Error (message : JS.value)
| SyntaxError
| TypeError.

Record Request : Type := {
  url : string;
  method : string;
  headers : list (string * string);
  body : option string;
}.

(** A [Response]: [json] is the outcome of [response.json()], [None] when
    the body is not valid JSON and the promise rejects. *)
Record Response : Type := {
  ok : bool;
  statusText : string;
  json : option JS.value;
}.

(** [fetch] either rejects (network failure) or resolves to a response. *)
Definition Fetch := Request -> result JsError Response.

Section WithNetwork.
Variable env : Env.t.
Variable fetch : Fetch.

(** The message of the error thrown for a response that is not ok: the
    [message] of the JSON error body when there is a truthy one, the
    default text otherwise (also when reading the body throws). *)
Definition errorMessageOf (defaultMessage : string) (response : Response)
    : JS.value :=
  match json response with
  | Some errorData =>
      match JS.prop errorData "message" with
      | Some m => if JS.truthy m then m else JS.VStr defaultMessage
      | None => JS.VStr defaultMessage
      end
  | None => JS.VStr defaultMessage
  end.

Definition fetchFallbackApiKeys (vibeathonApiKey : string)
    : result JsError JS.value :=
  match fetch {| url := ProxyUrl.VIBEATHON_API_BASE env +:+ "/user/ai-keys";
                 method := "GET";
                 headers := [("Authorization", "Bearer " +:+ vibeathonApiKey);
                             ("Content-Type", "application/json")];
                 body := None |} with
  | Throw e => Throw e
  | Ok response =>
      if negb (ok response) then
        Throw (Error (errorMessageOf
                 ("Failed to fetch API keys: " +:+ statusText response)
                 response))
      else
        match json response with
        | None => Throw SyntaxError
        | Some data =>
            match JS.prop data "expiration" with
            | None => Throw TypeError
            | Some expiration =>
                if negb (JS.truthy expiration) then
                  Throw (Error (JS.VStr
                           "Invalid response: missing expiration date"))
                else Ok data
            end
        end
  end.

Definition validateVibeathonApiKey (vibeathonApiKey : string)
    : result JsError bool :=
  match fetchFallbackApiKeys vibeathonApiKey with
  | Ok _ => Ok true
  | Throw _ => Ok false
  end.

End WithNetwork.

(** *** Request transformation *)

Definition startsWith (s p : string) : bool :=
  String.prefix p s.

Definition inferProviderFromModel (model : string) : string :=
  if startsWith model "gpt-" || startsWith model "o1-" then "openai"
  else if startsWith model "claude-" then "anthropic"
  else if startsWith model "gemini-" then "google"
  else if startsWith model "grok-" then "xai"
  else "unknown".

(** What [transformToOpenAIFormat] reads from outside its arguments: the
    identifier [generateRequestId()] would produce and the text of
    [new Date().toISOString()]. *)
Record Ambient : Type := {
  generatedRequestId : string;
  nowISOString : string;
}.

(** The object literal [request] of [transformToOpenAIFormat]. *)
Definition requestLiteral (amb : Ambient) (model : string)
    (messages : list JS.value) (options : JS.object) : JS.object :=
  [ ("model", JS.VStr model);
    ("messages", JS.VArr messages);
    ("stream", JS.coalesce (JS.get options "stream") (JS.VBool true));
    ("max_tokens",
      JS.or (JS.get options "maxTokens") (JS.get options "max_tokens"));
    ("temperature",
      JS.coalesce (JS.get options "temperature") (JS.VNum (7 # 10)));
    ("top_p", JS.get options "top_p");
    ("frequency_penalty", JS.get options "frequency_penalty");
    ("presence_penalty", JS.get options "presence_penalty");
    ("stop", JS.get options "stop");
    ("metadata", JS.VObj
      [ ("original_provider",
          JS.or (JS.get options "originalProvider")
                (JS.VStr (inferProviderFromModel model)));
        ("request_id",
          JS.or (JS.get options "requestId")
                (JS.VStr (generatedRequestId amb)));
        ("user_agent", JS.VStr "Dyad/Distribution");
        ("timestamp", JS.VStr (nowISOString amb)) ]) ].

Definition transformToOpenAIFormat (amb : Ambient) (model : string)
    (messages : list JS.value) (options : JS.object) : JS.object :=
  JS.fromEntries
    (filter (fun kv => JS.defined kv.2 = true)
            (JS.entries (requestLiteral amb model messages options))).

End VibeathonApi.

(** ** User settings (src/lib/schemas.ts) and the settings store *)

Module Settings.

(** A stored secret ([SecretSchema]). *)
Record Secret : Type := {
  value : string;
  encryptionType : option string;
}.

(** A fallback credential as [fetchVibeathonFallbackKeys] builds it: the
    value is whatever the response body held for the provider. *)
Record FallbackSecret : Type := {
  fallbackValue : JS.value;
  fallbackEncryptionType : string;
}.

(** [distributionMode.proxySettings].  A field is [None] when the object
    has no such key. *)
Record ProxySettings : Type := {
  enabled : option bool;
  baseUrl : option string;
  fallbackApiKeys : option (list (string * FallbackSecret));
  fallbackKeysExpiration : option JS.value;
  retryCount : option Z;
  lastFailure : option string;
  useFallback : option bool;
}.

(** [distributionMode]. *)
Record DistributionMode : Type := {
  hideCommercialFeatures : option bool;
  hideProButtons : option bool;
  hideExternalIntegrations : option bool;
  hideNavigation : option (list string);
  vibeathonApiKey : option Secret;
  proxySettings : option ProxySettings;
}.

(** [UserSettings]: the distribution section and the remaining sections
    (selected model, provider settings, telemetry consent, ...). *)
Record UserSettings : Type := {
  distributionMode : option DistributionMode;
  otherSections : JS.object;
}.

(** [Partial<UserSettings>] as the handlers pass it to [writeSettings]:
    [patchDistributionMode] is [None] when the key is not in the patch. *)
Record Patch : Type := {
  patchDistributionMode : option DistributionMode;
  patchOtherSections : JS.object;
}.

(** [settings.distributionMode?.proxySettings] *)
Definition proxySettingsOf (settings : UserSettings) : option ProxySettings :=
  distributionMode settings ≫= proxySettings.

(** [o[k]] on a record of secrets. *)
Fixpoint lookupKey {A} (o : list (string * A)) (k : string) : option A :=
  match o with
  | [] => None
  | (k', v) :: o' => if String.eqb k' k then Some v else lookupKey o' k
  end.

(** [settings.distributionMode?.proxySettings?.fallbackApiKeys?.[provider]] *)
Definition fallbackCredential (settings : UserSettings) (provider : string)
    : option FallbackSecret :=
  keys ← proxySettingsOf settings ≫= fallbackApiKeys;
  lookupKey keys provider.

(** Everything in the settings but [retryCount] and [lastFailure], the two
    fields the retry bookkeeping writes. *)
Definition outsideRetryBookkeeping (settings : UserSettings) :=
  let dm := distributionMode settings in
  let ps := proxySettingsOf settings in
  (dm ≫= hideCommercialFeatures, dm ≫= hideProButtons,
   dm ≫= hideExternalIntegrations, dm ≫= hideNavigation,
   dm ≫= vibeathonApiKey,
   (ps ≫= enabled, ps ≫= baseUrl, ps ≫= fallbackApiKeys,
    ps ≫= fallbackKeysExpiration, ps ≫= useFallback),
   otherSections settings).

(** Modelled from the spec: [readSettings] of [main/settings] is not part
    of the sources at hand.  The settings store contract is
    [read() -> RoutingConfig]: it returns the stored settings. *)
Definition readSettings (store : UserSettings) : UserSettings := store.

(** Modelled from the spec: [writeSettings] of [main/settings] is not part
    of the sources at hand.  The settings store contract is
    [update(partial)], a merge that is last-writer-wins per field: every
    top-level key of the patch replaces the stored one. *)
Definition writeSettings (patch : Patch) (store : UserSettings)
    : UserSettings :=
  {| distributionMode :=
       match patchDistributionMode patch with
       | Some dm => Some dm
       | None => distributionMode store
       end;
     otherSections :=
       fold_left (fun o kv => JS.set o kv.1 kv.2)
                 (patchOtherSections patch) (otherSections store) |}.

(** [{ k: base, ...o }] for one key: the spread object overrides the
    earlier value when it has the key. *)
Definition spread {A} (base : option A) (over : option A) : option A :=
  match over with
  | Some v => Some v
  | None => base
  end.

(** [x ?? d] for an optional field. *)
Definition orDefault {A} (x : option A) (d : A) : A := default d x.

End Settings.

(** ** Feature visibility (src/lib/schemas.ts) *)

Module FeatureGate.
Import Settings.

Definition DISTRIBUTION_FEATURE_KEYS : list string :=
  [ "pro-banner"; "pro-buttons"; "hub-nav"; "library-nav"; "import-app";
    "more-ideas"; "model-providers"; "model-picker"; "provider-setup" ].

(** An optional boolean field as a JavaScript value. *)
Definition ofField (f : option bool) : JS.value :=
  match f with
  | Some b => JS.VBool b
  | None => JS.VUndefined
  end.

(** [xs?.includes(x)] *)
Definition includes (xs : option (list string)) (x : string) : JS.value :=
  match xs with
  | Some l => JS.VBool (bool_decide (x ∈ l))
  | None => JS.VUndefined
  end.

Definition shouldHideFeature (settings : UserSettings) (featureKey : string)
    : JS.value :=
  match distributionMode settings with
  | None => JS.VBool false
  | Some config =>
      if String.eqb featureKey "pro-banner" then
        JS.or (ofField (hideCommercialFeatures config))
              (ofField (hideProButtons config))
      else if String.eqb featureKey "pro-buttons" then
        ofField (hideProButtons config)
      else if String.eqb featureKey "hub-nav" then
        includes (hideNavigation config) "hub"
      else if String.eqb featureKey "library-nav" then
        includes (hideNavigation config) "library"
      else if String.eqb featureKey "import-app" then
        ofField (hideExternalIntegrations config)
      else if String.eqb featureKey "more-ideas" then
        ofField (hideCommercialFeatures config)
      else if String.eqb featureKey "model-providers"
              || String.eqb featureKey "model-picker"
              || String.eqb featureKey "provider-setup" then
        JS.or (ofField (hideCommercialFeatures config))
              (ofField (proxySettings config ≫= enabled))
      else JS.VBool false
  end.

Definition isDistributionMode (env : Env.t) (settings : UserSettings)
    : bool :=
  Telemetry.IS_DISTRIBUTION_BUILD env
  || match distributionMode settings ≫= hideCommercialFeatures with
     | Some true => true
     | _ => false
     end.

End FeatureGate.

(** ** The visibility gate as source text

    [shouldHideFeature] and [isDistributionMode] are given a second time,
    as the syntax trees of their source text, with an evaluator that
    resolves every identifier, in the scope of the function first and
    outside it otherwise, and logs each access to a binding outside the
    function.  What a function reads and writes besides its arguments is
    then a property of its text. *)

Module Script.

(** The expressions the two functions are written with. *)
Inductive expr : Type :=
| Lit (v : JS.value)
| Ident (x : string)
| Member (e : expr) (k : string)
| OptMember (e : expr) (k : string)
| OptIncludes (e : expr) (needle : string)
| Not (e : expr)
| Or (a b : expr)
| StrictEqTrue (e : expr).

(** Their statements: [const x = e;], [if (test) return e;], a [switch]
    on strings each clause of which is a [return], and [return e;]; and
    the two assignments [x = e;] and [x.k = e;], which neither function
    uses. *)
Inductive stmt : Type :=
| Const (x : string) (e : expr)
| IfReturn (test e : expr)
| SwitchReturn (e : expr) (clauses : list (list string * expr))
    (otherwise : expr)
| Return (e : expr)
| Assign (x : string) (e : expr)
| AssignMember (x k : string) (e : expr).

Inductive Error : Type :=
| TypeError
| ReferenceError (x : string).

(** An access to a binding that is not a parameter or a constant of the
    function, or a write to a property of an object. *)
Inductive Effect : Type :=
| ReadOuter (x : string)
| WriteOuter (x : string)
| WriteProperty (x k : string).

(** A binding of the function: a parameter or a [const]. *)
Record Local : Type := {
  isConst : bool;
  held : JS.value;
}.

(** The bindings of the function, those outside it (module scope and
    globals), and the accesses logged so far. *)
Record State : Type := {
  locals : list (string * Local);
  outer : JS.object;
  effects : list Effect;
}.

(** [v?.includes(needle)] for a string [needle]: an array holds it, a
    string contains it; any other value that is not [undefined] or [null]
    has no such method. *)
Definition optIncludes (v : JS.value) (needle : string)
    : result Error JS.value :=
  match v with
  | JS.VUndefined | JS.VNull => Ok JS.VUndefined
  | JS.VArr items =>
      Ok (JS.VBool
            (existsb (fun item =>
                        match item with
                        | JS.VStr s => String.eqb s needle
                        | _ => false
                        end)
                     items))
  | JS.VStr s =>
      Ok (JS.VBool (match String.index 0 needle s with
                    | Some _ => true
                    | None => false
                    end))
  | _ => Throw TypeError
  end.

Fixpoint evalExpr (locals : list (string * Local)) (outer : JS.object)
    (e : expr) : result Error JS.value * list Effect :=
  match e with
  | Lit v => (Ok v, [])
  | Ident x =>
      match Settings.lookupKey locals x with
      | Some l => (Ok (held l), [])
      | None =>
          (if JS.has outer x then Ok (JS.get outer x)
           else Throw (ReferenceError x),
           [ReadOuter x])
      end
  | Member e k =>
      match evalExpr locals outer e with
      | (Ok v, fx) =>
          (match JS.prop v k with
           | Some u => Ok u
           | None => Throw TypeError
           end, fx)
      | (Throw err, fx) => (Throw err, fx)
      end
  | OptMember e k =>
      match evalExpr locals outer e with
      | (Ok v, fx) => (Ok (default JS.VUndefined (JS.prop v k)), fx)
      | (Throw err, fx) => (Throw err, fx)
      end
  | OptIncludes e needle =>
      match evalExpr locals outer e with
      | (Ok v, fx) => (optIncludes v needle, fx)
      | (Throw err, fx) => (Throw err, fx)
      end
  | Not e =>
      match evalExpr locals outer e with
      | (Ok v, fx) => (Ok (JS.VBool (negb (JS.truthy v))), fx)
      | (Throw err, fx) => (Throw err, fx)
      end
  | Or a b =>
      match evalExpr locals outer a with
      | (Ok v, fx) =>
          if JS.truthy v then (Ok v, fx)
          else let '(r, fx') := evalExpr locals outer b in (r, fx ++ fx')
      | (Throw err, fx) => (Throw err, fx)
      end
  | StrictEqTrue e =>
      match evalExpr locals outer e with
      | (Ok v, fx) =>
          (Ok (JS.VBool match v with JS.VBool true => true | _ => false end),
           fx)
      | (Throw err, fx) => (Throw err, fx)
      end
  end.

(** How a statement ends. *)
Inductive Completion : Type :=
| Normal
| Returned (v : JS.value)
| Threw (err : Error).

Definition logged (st : State) (fx : list Effect) : State :=
  {| locals := locals st; outer := outer st; effects := effects st ++ fx |}.

Definition returning (st : State) (r : result Error JS.value * list Effect)
    : Completion * State :=
  (match r.1 with Ok v => Returned v | Throw err => Threw err end,
   logged st r.2).

(** The first clause one of whose labels is strictly equal to [v]. *)
Fixpoint chosen (v : JS.value) (clauses : list (list string * expr))
    (otherwise : expr) : expr :=
  match clauses with
  | [] => otherwise
  | (labels, e) :: clauses' =>
      if existsb (fun label =>
                    match v with
                    | JS.VStr s => String.eqb s label
                    | _ => false
                    end)
                 labels
      then e
      else chosen v clauses' otherwise
  end.

(** [bindings] with the value of [x] replaced. *)
Fixpoint rebind (bindings : list (string * Local)) (x : string)
    (v : JS.value) : list (string * Local) :=
  match bindings with
  | [] => []
  | (x', l) :: rest =>
      if String.eqb x' x then (x', {| isConst := isConst l; held := v |}) :: rest
      else (x', l) :: rebind rest x v
  end.

(** One statement.  A [const] is added to the bindings of the function.
    An assignment to an identifier changes the binding of the function
    when there is one (a TypeError for a [const]) and the binding outside
    otherwise (a ReferenceError when there is none, as in strict mode).
    An assignment to a property is logged whatever the identifier is bound
    to; objects being values, it changes the object held under that
    identifier only, and leaves an array, whose named properties the model
    does not hold, as it is. *)
Definition execStmt (st : State) (s : stmt) : Completion * State :=
  match s with
  | Const x e =>
      match evalExpr (locals st) (outer st) e with
      | (Ok v, fx) =>
          (Normal,
           {| locals := (x, {| isConst := true; held := v |}) :: locals st;
              outer := outer st;
              effects := effects st ++ fx |})
      | (Throw err, fx) => (Threw err, logged st fx)
      end
  | IfReturn test e =>
      match evalExpr (locals st) (outer st) test with
      | (Ok v, fx) =>
          if JS.truthy v then
            returning (logged st fx) (evalExpr (locals st) (outer st) e)
          else (Normal, logged st fx)
      | (Throw err, fx) => (Threw err, logged st fx)
      end
  | SwitchReturn e clauses otherwise =>
      match evalExpr (locals st) (outer st) e with
      | (Ok v, fx) =>
          returning (logged st fx)
            (evalExpr (locals st) (outer st) (chosen v clauses otherwise))
      | (Throw err, fx) => (Threw err, logged st fx)
      end
  | Return e => returning st (evalExpr (locals st) (outer st) e)
  | Assign x e =>
      match evalExpr (locals st) (outer st) e with
      | (Ok v, fx) =>
          match Settings.lookupKey (locals st) x with
          | Some l =>
              if isConst l then (Threw TypeError, logged st fx)
              else (Normal,
                    {| locals := rebind (locals st) x v;
                       outer := outer st;
                       effects := effects st ++ fx |})
          | None =>
              if JS.has (outer st) x then
                (Normal,
                 {| locals := locals st;
                    outer := JS.set (outer st) x v;
                    effects := effects st ++ fx ++ [WriteOuter x] |})
              else (Threw (ReferenceError x), logged st fx)
          end
      | (Throw err, fx) => (Threw err, logged st fx)
      end
  | AssignMember x k e =>
      match evalExpr (locals st) (outer st) (Ident x) with
      | (Ok target, fx) =>
          match evalExpr (locals st) (outer st) e with
          | (Ok v, fx') =>
              match target with
              | JS.VObj o =>
                  (Normal,
                   {| locals := rebind (locals st) x (JS.VObj (JS.set o k v));
                      outer :=
                        match Settings.lookupKey (locals st) x with
                        | Some _ => outer st
                        | None => JS.set (outer st) x (JS.VObj (JS.set o k v))
                        end;
                      effects :=
                        effects st ++ fx ++ fx' ++ [WriteProperty x k] |})
              | JS.VArr _ =>
                  (Normal, logged st (fx ++ fx' ++ [WriteProperty x k]))
              | _ => (Threw TypeError, logged st (fx ++ fx'))
              end
          | (Throw err, fx') => (Threw err, logged st (fx ++ fx'))
          end
      | (Throw err, fx) => (Threw err, logged st fx)
      end
  end.

Fixpoint run (st : State) (body : list stmt) : Completion * State :=
  match body with
  | [] => (Normal, st)
  | s :: rest =>
      match execStmt st s with
      | (Normal, st') => run st' rest
      | ended => ended
      end
  end.

(** The parameters bound to the arguments, [undefined] for a parameter
    without one. *)
Fixpoint bind (params : list string) (args : list JS.value)
    : list (string * Local) :=
  match params with
  | [] => []
  | x :: params' =>
      (x, {| isConst := false; held := hd JS.VUndefined args |})
      :: bind params' (tl args)
  end.

(** A call: the value returned or the error thrown, the accesses logged,
    and the bindings outside the function after the call. *)
Definition call (params : list string) (body : list stmt)
    (args : list JS.value) (scope : JS.object)
    : result Error JS.value * list Effect * JS.object :=
  let '(completion, st) :=
    run {| locals := bind params args; outer := scope; effects := [] |}
        body in
  (match completion with
   | Normal => Ok JS.VUndefined
   | Returned v => Ok v
   | Threw err => Throw err
   end, effects st, outer st).

(** Every identifier of [e] is one of [declared]. *)
Fixpoint localOnly (declared : list string) (e : expr) : bool :=
  match e with
  | Lit _ => true
  | Ident x => bool_decide (x ∈ declared)
  | Member e _ | OptMember e _ | OptIncludes e _ | Not e | StrictEqTrue e =>
      localOnly declared e
  | Or a b => localOnly declared a && localOnly declared b
  end.

(** [s] is no assignment and names nothing but [declared]. *)
Definition localStmt (declared : list string) (s : stmt) : bool :=
  match s with
  | Const _ e | Return e => localOnly declared e
  | IfReturn test e => localOnly declared test && localOnly declared e
  | SwitchReturn e clauses otherwise =>
      localOnly declared e
      && forallb (fun clause => localOnly declared clause.2) clauses
      && localOnly declared otherwise
  | Assign _ _ | AssignMember _ _ _ => false
  end.

(** The names in scope after [s]. *)
Definition declaredAfter (s : stmt) (declared : list string) : list string :=
  match s with
  | Const x _ => x :: declared
  | _ => declared
  end.

(** The body assigns to nothing and names nothing but its parameters and
    the constants it has declared by then. *)
Fixpoint localBody (declared : list string) (body : list stmt) : bool :=
  match body with
  | [] => true
  | s :: rest =>
      localStmt declared s && localBody (declaredAfter s declared) rest
  end.

End Script.



(** [isDistributionMode] (lines 145-147). *)
Definition isDistributionModeParams : list string := ["settings"].

Definition isDistributionModeSource : list Script.stmt :=
  [ Script.Return
      (Script.Or (Script.Ident "IS_DISTRIBUTION_BUILD")
         (Script.StrictEqTrue
            (Script.OptMember
               (Script.OptMember (Script.Ident "settings") "distributionMode")
               "hideCommercialFeatures"))) ].

(** The settings record as the object the functions receive: a field that
    is [None] is a key the object does not have. *)
Definition optField (k : string) (v : option JS.value) : JS.object :=
  match v with
  | Some x => [(k, x)]
  | None => []
  end.

Definition secretToJS (s : Settings.Secret) : JS.value :=
  JS.VObj (("value", JS.VStr (Settings.value s))
           :: optField "encryptionType" (JS.VStr <$> Settings.encryptionType s)).

Definition fallbackSecretToJS (s : Settings.FallbackSecret) : JS.value :=
  JS.VObj [ ("value", Settings.fallbackValue s);
            ("encryptionType", JS.VStr (Settings.fallbackEncryptionType s)) ].

Definition proxySettingsToJS (ps : Settings.ProxySettings) : JS.value :=
  JS.VObj
    (optField "enabled" (JS.VBool <$> Settings.enabled ps)
     ++ optField "baseUrl" (JS.VStr <$> Settings.baseUrl ps)
     ++ optField "fallbackApiKeys"
          ((fun keys =>
              JS.VObj ((fun kv => (kv.1, fallbackSecretToJS kv.2)) <$> keys))
           <$> Settings.fallbackApiKeys ps)
     ++ optField "fallbackKeysExpiration" (Settings.fallbackKeysExpiration ps)
     ++ optField "retryCount"
          ((fun n => JS.VNum (inject_Z n)) <$> Settings.retryCount ps)
     ++ optField "lastFailure" (JS.VStr <$> Settings.lastFailure ps)
     ++ optField "useFallback" (JS.VBool <$> Settings.useFallback ps)).

Definition distributionModeToJS (dm : Settings.DistributionMode) : JS.value :=
  JS.VObj
    (optField "hideCommercialFeatures"
       (JS.VBool <$> Settings.hideCommercialFeatures dm)
     ++ optField "hideProButtons" (JS.VBool <$> Settings.hideProButtons dm)
     ++ optField "hideExternalIntegrations"
          (JS.VBool <$> Settings.hideExternalIntegrations dm)
     ++ optField "hideNavigation"
          ((fun keys => JS.VArr (JS.VStr <$> keys))
           <$> Settings.hideNavigation dm)
     ++ optField "vibeathonApiKey" (secretToJS <$> Settings.vibeathonApiKey dm)
     ++ optField "proxySettings"
          (proxySettingsToJS <$> Settings.proxySettings dm)).

Definition settingsToJS (settings : Settings.UserSettings) : JS.value :=
  JS.VObj
    (optField "distributionMode"
       (distributionModeToJS <$> Settings.distributionMode settings)
     ++ filter (fun kv => kv.1 ≠ "distributionMode")
          (Settings.otherSections settings)).


(** ** Settings handlers (src/ipc/handlers/settings_handlers.ts) *)

Module SettingsHandlers.
Import Settings.

(** [{ ...acc, [k]: v }] *)
Fixpoint withKey {A} (acc : list (string * A)) (k : string) (v : A)
    : list (string * A) :=
  match acc with
  | [] => [(k, v)]
  | (k', v') :: acc' =>
      if String.eqb k' k then (k', v) :: acc'
      else (k', v') :: withKey acc' k v
  end.

(** [Object.entries(apiKeys)] of the response body.  A body that passed
    the expiration check is an object. *)
Definition entriesOf (apiKeys : JS.value) : list (string * JS.value) :=
  match apiKeys with
  | JS.VObj o => JS.entries o
  | _ => []
  end.

(** The [filter]/[reduce] chain that converts the response into the
    [SecretSchema] format. *)
Definition toFallbackApiKeys (apiKeys : JS.value)
    : list (string * FallbackSecret) :=
  fold_left
    (fun acc kv =>
       withKey acc kv.1
         {| fallbackValue := kv.2;
            fallbackEncryptionType := "electron-safe-storage" |})
    (filter (fun kv => kv.1 ≠ "expiration") (entriesOf apiKeys))
    [].

(** The patch [fetchVibeathonFallbackKeys] writes, from the settings it
    read and the response. *)
Definition fallbackKeysPatch (settings : UserSettings) (apiKeys : JS.value)
    : Patch :=
  let dm := distributionMode settings in
  let ps := dm ≫= proxySettings in
  {| patchDistributionMode := Some
       {| hideCommercialFeatures :=
            spread (Some (orDefault (dm ≫= hideCommercialFeatures) false))
                   (dm ≫= hideCommercialFeatures);
          hideProButtons :=
            spread (Some (orDefault (dm ≫= hideProButtons) false))
                   (dm ≫= hideProButtons);
          hideExternalIntegrations :=
            spread (Some (orDefault (dm ≫= hideExternalIntegrations) false))
                   (dm ≫= hideExternalIntegrations);
          hideNavigation :=
            spread (Some (orDefault (dm ≫= hideNavigation) []))
                   (dm ≫= hideNavigation);
          vibeathonApiKey := dm ≫= vibeathonApiKey;
          proxySettings := Some
            {| enabled :=
                 spread (Some (orDefault (ps ≫= enabled) false))
                        (ps ≫= enabled);
               retryCount :=
                 spread (Some (orDefault (ps ≫= retryCount) 0))
                        (ps ≫= retryCount);
               useFallback :=
                 spread (Some (orDefault (ps ≫= useFallback) false))
                        (ps ≫= useFallback);
               baseUrl := ps ≫= baseUrl;
               lastFailure := ps ≫= lastFailure;
               fallbackApiKeys := Some (toFallbackApiKeys apiKeys);
               fallbackKeysExpiration :=
                 Some (default JS.VUndefined (JS.prop apiKeys "expiration"))
            |} |};
     patchOtherSections := [] |}.

Section WithNetwork.
Variable env : Env.t.
Variable fetch : VibeathonApi.Fetch.

(** [fetchVibeathonFallbackKeys].  The settings are read before the request
    is awaited and written after it; [meanwhile] is what other handlers
    did to the store while the request was in flight. *)
Definition fetchVibeathonFallbackKeys
    (meanwhile : UserSettings -> UserSettings) (store : UserSettings)
    : result VibeathonApi.JsError unit * UserSettings :=
  let settings := readSettings store in
  match distributionMode settings ≫= vibeathonApiKey with
  | Some {| value := vibeathonApiKey |} =>
      if String.eqb vibeathonApiKey "" then
        (Throw (VibeathonApi.Error
                  (JS.VStr "Vibeathon API key not configured")), store)
      else
        match VibeathonApi.fetchFallbackApiKeys env fetch vibeathonApiKey with
        | Throw e => (Throw e, meanwhile store)
        | Ok apiKeys =>
            (Ok (),
             writeSettings (fallbackKeysPatch settings apiKeys)
                           (meanwhile store))
        end
  | None =>
      (Throw (VibeathonApi.Error
                (JS.VStr "Vibeathon API key not configured")), store)
  end.

End WithNetwork.

(** [initializeDistributionSettings] *)
Definition initializeDistributionSettings (env : Env.t)
    (store : UserSettings) : UserSettings :=
  if Telemetry.IS_DISTRIBUTION_BUILD env then
    let currentSettings := readSettings store in
    match distributionMode currentSettings with
    | Some _ => store
    | None =>
        let proxyBaseUrl := ProxyUrl.getVibeathonProxyUrl env in
        writeSettings
          {| patchDistributionMode := Some
               {| hideCommercialFeatures := Some true;
                  hideProButtons := Some true;
                  hideExternalIntegrations := Some true;
                  hideNavigation := Some ["hub"; "library"];
                  vibeathonApiKey := None;
                  proxySettings := Some
                    {| enabled := Some true;
                       baseUrl := Some proxyBaseUrl;
                       fallbackApiKeys := None;
                       fallbackKeysExpiration := None;
                       retryCount := Some 0;
                       lastFailure := None;
                       useFallback := Some false |} |};
             patchOtherSections := [] |}
          store
    end
  else store.

(** [toggleFallbackMode] *)
Definition toggleFallbackMode (useFallback' : bool) (store : UserSettings)
    : UserSettings :=
  let settings := readSettings store in
  let dm := distributionMode settings in
  let ps := dm ≫= proxySettings in
  writeSettings
    {| patchDistributionMode := Some
         {| hideCommercialFeatures := dm ≫= hideCommercialFeatures;
            hideProButtons := dm ≫= hideProButtons;
            hideExternalIntegrations := dm ≫= hideExternalIntegrations;
            hideNavigation := dm ≫= hideNavigation;
            vibeathonApiKey := dm ≫= vibeathonApiKey;
            proxySettings := Some
              {| enabled := ps ≫= enabled;
                 baseUrl := ps ≫= baseUrl;
                 fallbackApiKeys := ps ≫= fallbackApiKeys;
                 fallbackKeysExpiration := ps ≫= fallbackKeysExpiration;
                 lastFailure := ps ≫= lastFailure;
                 useFallback := Some useFallback';
                 retryCount := Some 0 |} |};
       patchOtherSections := [] |}
    store.

End SettingsHandlers.

(** ** Retry logic (src/ipc/utils/retry_logic.ts) *)

Module RetryLogic.

(** [VibeathonProxyError]: its message and the value it wraps. *)
Record VibeathonProxyError : Type := {
  proxyMessage : string;
  originalError : JS.value;
}.

(** What [executeWithRetry] throws: the [VibeathonProxyError] after the
    loop; the TypeError of building that error's message, when [message]
    cannot be read from [lastError] or cannot be turned into text; or what
    the [onRetry] callback threw, a value of type [X], since the callback
    is called inside the [catch] block with no [try] around it. *)
Inductive Thrown (X : Type) : Type :=
| ProxyError (e : VibeathonProxyError)
| TypeError
| FromCallback (x : X).
Arguments ProxyError {X} e.
Arguments TypeError {X}.
Arguments FromCallback {X} x.

(** What a run of the retry manager does, in order: invocations of the
    operation (with the attempt number and the value it threw, [None] when
    it returned) and backoff sleeps (in ms). *)
Inductive Event : Type :=
| EvAttempt (attempt : nat) (thrown : option JS.value)
| EvSleep (ms : Z).

Definition MAX_RETRIES : nat := 10.
Definition BASE_DELAY : Z := 1000.

(** [BASE_DELAY * Math.pow(2, attempt - 1)] *)
Definition backoffDelay (attempt : nat) : Z :=
  BASE_DELAY * 2 ^ (Z.of_nat attempt - 1).

Section Retry.
(** [W] is the state the operation and the callback act on, [T] the type of
    the operation's result, [X] the type of what the callback throws.  The
    operation rejects with any value: [catch (error)] does not look at
    it. *)
Context {W T X : Type}.
Variable numberToString : Q -> string.
Variable operation : W -> result JS.value T * W.
Variable onRetry : option (nat -> JS.value -> W -> result X unit * W).

(** The [throw] after the loop.  The template literal reads
    [lastError.message] and turns it into text before the error is
    built. *)
Definition failedAfter (lastError : JS.value) : Thrown X :=
  match JS.prop lastError "message" ≫= JS.toString numberToString with
  | Some text =>
      ProxyError
        {| proxyMessage :=
             "Failed after " +:+ pretty MAX_RETRIES +:+ " attempts: " +:+ text;
           originalError := lastError |}
  | None => TypeError
  end.

(** [if (onRetry) { onRetry(attempt, lastError); }] *)
Definition notify (attempt : nat) (lastError : JS.value) (w : W)
    : result X unit * W :=
  match onRetry with
  | Some callback => callback attempt lastError w
  | None => (Ok (), w)
  end.

(** The [for] loop of [executeWithRetry], [remaining] iterations before
    [attempt] exceeds [MAX_RETRIES], and the [throw] that follows it. *)
Fixpoint retryLoop (remaining attempt : nat) (lastError : JS.value)
    (trace : list Event) (w : W)
    : result (Thrown X) T * (list Event * W) :=
  match remaining with
  | O => (Throw (failedAfter lastError), (trace, w))
  | S remaining' =>
      match operation w with
      | (Ok v, w1) => (Ok v, (trace ++ [EvAttempt attempt None], w1))
      | (Throw error, w1) =>
          match notify attempt error w1 with
          | (Throw x, w2) =>
              (Throw (FromCallback x),
               (trace ++ [EvAttempt attempt (Some error)], w2))
          | (Ok _, w2) =>
              if (attempt <? MAX_RETRIES)%nat then
                retryLoop remaining' (S attempt) error
                  (trace ++ [EvAttempt attempt (Some error);
                             EvSleep (backoffDelay attempt)])
                  w2
              else
                retryLoop remaining' (S attempt) error
                  (trace ++ [EvAttempt attempt (Some error)]) w2
          end
      end
  end.

(** [let lastError: Error;] holds [undefined] until the first [catch]. *)
Definition executeWithRetry (w : W)
    : result (Thrown X) T * (list Event * W) :=
  retryLoop MAX_RETRIES 1 JS.VUndefined [] w.

End Retry.

(** The trace of a run whose attempts [attempt], [attempt + 1], ... throw
    [errors] and are each followed by a backoff sleep, and whose next
    attempt ends the run with [final]. *)
Fixpoint backoffFrom (attempt : nat) (errors : list JS.value)
    (final : option JS.value) : list Event :=
  match errors with
  | [] => [EvAttempt attempt final]
  | e :: errors' =>
      EvAttempt attempt (Some e) :: EvSleep (backoffDelay attempt)
      :: backoffFrom (S attempt) errors' final
  end.

Definition backoffTrace (errors : list JS.value) (final : option JS.value)
    : list Event :=
  backoffFrom 1 errors final.

Definition attemptsOf (trace : list Event) : list nat :=
  flat_map (fun ev => match ev with EvAttempt a _ => [a] | EvSleep _ => [] end)
           trace.

Definition sleepsOf (trace : list Event) : list Z :=
  flat_map (fun ev => match ev with EvSleep ms => [ms] | EvAttempt _ _ => [] end)
           trace.


End RetryLogic.

(** ** The model client factory (src/ipc/utils/get_model_client.ts) *)

Module ModelClient.
Import Settings.

Record LargeLanguageModel : Type := {
  modelName : string;
  modelProvider : string;
}.

(** A row of the [failed_requests] table. *)
Record FailedRequestRow : Type := {
  rowId : string;
  rowUserId : string;
  rowRequestData : JS.object;
  rowTimestamp : string;
  rowRetryCount : Z;
  rowSynced : bool;
  rowError : string;
}.

(** What [getModelClient] throws: [ProxyFailureRequiresUserAction]; the
    TypeError of the retry manager, thrown on by [throw error]; or a value
    thrown by [createFallbackClient] or by the rest of the function. *)
Inductive GetModelClientError : Type :=
| ProxyFailureRequiresUserAction (message : string)
| TypeError
| Thrown (v : JS.value).

Section WithOutside.
(** [N] is the state of everything outside the application (the proxy, the
    clock, the source of identifiers), [Client] the type of model clients. *)
Context {N Client : Type}.

(** The application state [getModelClient] acts on: the settings store,
    the [failed_requests] table, whether an insert into it succeeds, and
    the outside. *)
Record World : Type := {
  store : UserSettings;
  failedRequests : list FailedRequestRow;
  dbWritable : bool;
  outside : N;
}.

(** Number::toString *)
Variable numberToString : Q -> string.
(** [createVibeathonProxyClient(model, settings)] followed by
    [testConnection(client)] or [testConnection(client, { timeout })]. *)
Variable connect :
  LargeLanguageModel -> UserSettings -> option Z -> N ->
  result JS.value Client * N.
(** [createFallbackClient]: the plan gives two cases of its [switch] and
    leaves out the others. *)
Variable createFallbackClient :
  LargeLanguageModel -> UserSettings -> result JS.value Client.
(** [clearProxyFailure] is called and defined nowhere in the sources. *)
Variable clearProxyFailure : World -> result JS.value unit * World.
(** [Date.now()] *)
Variable dateNow : N -> Z.
(** [new Date(text).getTime()], [None] for an invalid date (NaN). *)
Variable parseDate : string -> option Z.
(** [new Date().toISOString()] *)
Variable isoNow : N -> string.
Variable generateId : N -> string.
Variable extractUserIdFromSettings : UserSettings -> string.
Variable getCurrentMessageCount : N -> Z.
(** The rest of [getModelClient], taken when the proxy is not the route. *)
Variable standardClient :
  LargeLanguageModel -> UserSettings -> World -> result GetModelClientError Client * World.

Definition withStore (w : World) (s : UserSettings) : World :=
  {| store := s; failedRequests := failedRequests w;
     dbWritable := dbWritable w; outside := outside w |}.

Definition withOutside (w : World) (n : N) : World :=
  {| store := store w; failedRequests := failedRequests w;
     dbWritable := dbWritable w; outside := n |}.

(** The distribution section with [proxySettings] replaced, the other keys
    spread from [dm]. *)
Definition withProxySettings (dm : option DistributionMode)
    (ps : ProxySettings) : DistributionMode :=
  {| hideCommercialFeatures := dm ≫= hideCommercialFeatures;
     hideProButtons := dm ≫= hideProButtons;
     hideExternalIntegrations := dm ≫= hideExternalIntegrations;
     hideNavigation := dm ≫= hideNavigation;
     vibeathonApiKey := dm ≫= vibeathonApiKey;
     proxySettings := Some ps |}.

(** Modelled from the spec: [updateRetryCount] is called by the retry
    callback and is not defined in the sources at hand; its call site says
    it updates the retry count in the settings.  It is taken to write
    [retryCount] the way [markProxyFailed] and [toggleFallbackMode] write
    their fields. *)
Definition updateRetryCount (attempt : nat) (st : UserSettings)
    : UserSettings :=
  let settings := readSettings st in
  let dm := distributionMode settings in
  let ps := dm ≫= proxySettings in
  writeSettings
    {| patchDistributionMode := Some (withProxySettings dm
         {| enabled := ps ≫= enabled;
            baseUrl := ps ≫= baseUrl;
            fallbackApiKeys := ps ≫= fallbackApiKeys;
            fallbackKeysExpiration := ps ≫= fallbackKeysExpiration;
            lastFailure := ps ≫= lastFailure;
            useFallback := ps ≫= useFallback;
            retryCount := Some (Z.of_nat attempt) |});
       patchOtherSections := [] |}
    st.

(** [markProxyFailed] *)
Definition markProxyFailed (w : World) : World :=
  let settings := readSettings (store w) in
  let dm := distributionMode settings in
  let ps := dm ≫= proxySettings in
  withStore w
    (writeSettings
       {| patchDistributionMode := Some (withProxySettings dm
            {| enabled := ps ≫= enabled;
               baseUrl := ps ≫= baseUrl;
               fallbackApiKeys := ps ≫= fallbackApiKeys;
               fallbackKeysExpiration := ps ≫= fallbackKeysExpiration;
               useFallback := ps ≫= useFallback;
               lastFailure := Some (isoNow (outside w));
               retryCount := Some 0 |});
          patchOtherSections := [] |}
       (store w)).

(** [RequestLogger.logFailedRequest]: a failing insert is caught and
    logged, nothing is stored. *)
Definition logFailedRequest (requestData : JS.object) (userId : string)
    (error : string) (w : World) : World :=
  if dbWritable w then
    {| store := store w;
       failedRequests :=
         failedRequests w ++
         [ {| rowId := generateId (outside w);
              rowUserId := userId;
              rowRequestData := requestData;
              rowTimestamp := isoNow (outside w);
              rowRetryCount := 0;
              rowSynced := false;
              rowError := error |} ];
       dbWritable := dbWritable w;
       outside := outside w |}
  else w.

(** The operation [getModelClient] hands to the retry manager. *)
Definition proxyOperation (model : LargeLanguageModel)
    (settings : UserSettings) (w : World)
    : result JS.value Client * World :=
  let '(r, n) := connect model settings None (outside w) in
  (r, withOutside w n).

(** The retry callback of [getModelClient]; with [updateRetryCount] a
    write to the store it throws nothing. *)
Definition onProxyRetry (attempt : nat) (_ : JS.value) (w : World)
    : result Empty_set unit * World :=
  (Ok (), withStore w (updateRetryCount attempt (store w))).

(** [enabled && !useFallback] on the settings handed to [getModelClient]. *)
Definition proxyIsRoute (settings : UserSettings) : bool :=
  let ps := distributionMode settings ≫= proxySettings in
  match ps ≫= enabled with
  | Some true =>
      match ps ≫= useFallback with
      | Some true => false
      | _ => true
      end
  | _ => false
  end.

(** [lastFailure && new Date(lastFailure) > fiveMinutesAgo], with
    [fiveMinutesAgo = new Date(Date.now() - 5 * 60 * 1000)].  A comparison
    with an invalid date is false. *)
Definition failedRecently (settings : UserSettings) (n : N) : bool :=
  match proxySettingsOf settings ≫= lastFailure with
  | Some text =>
      negb (String.eqb text "")
      && match parseDate text with
         | Some time => dateNow n - 5 * 60 * 1000 <? time
         | None => false
         end
  | None => false
  end.

(** [return createFallbackClient(model, settings)] *)
Definition fallbackClient (model : LargeLanguageModel)
    (settings : UserSettings) : result GetModelClientError Client :=
  match createFallbackClient model settings with
  | Ok client => Ok client
  | Throw v => Throw (Thrown v)
  end.

(** The quick test of the silent fallback: one connection with a timeout
    of two seconds and no retry.  A failure of the connection or of
    [clearProxyFailure] ends in the [catch] block, which returns the
    fallback client. *)
Definition silentFallback (model : LargeLanguageModel)
    (settings : UserSettings) (w : World)
    : result GetModelClientError Client * World :=
  match connect model settings (Some 2000) (outside w) with
  | (Ok client, n1) =>
      match clearProxyFailure (withOutside w n1) with
      | (Ok _, w2) => (Ok client, w2)
      | (Throw _, w2) => (fallbackClient model settings, w2)
      end
  | (Throw _, n1) => (fallbackClient model settings, withOutside w n1)
  end.

(** The [catch] block around the retry manager, with the logging of the
    failed request: an error that is not a [VibeathonProxyError] is thrown
    on as it is. *)
Definition onRetryFailure (model : LargeLanguageModel)
    (settings : UserSettings) (error : RetryLogic.Thrown Empty_set)
    (w1 : World) : result GetModelClientError Client * World :=
  match error with
  | RetryLogic.ProxyError error =>
      let userId := extractUserIdFromSettings settings in
      let w2 :=
        logFailedRequest
          [ ("model", JS.VStr (modelName model));
            ("provider", JS.VStr (modelProvider model));
            ("timestamp", JS.VStr (isoNow (outside w1)));
            ("messageCount",
              JS.VNum (inject_Z (getCurrentMessageCount (outside w1)))) ]
          userId (RetryLogic.proxyMessage error) w1 in
      let w3 := markProxyFailed w2 in
      (Throw (ProxyFailureRequiresUserAction (RetryLogic.proxyMessage error)),
       w3)
  | RetryLogic.TypeError => (Throw TypeError, w1)
  | RetryLogic.FromCallback x => match x with end
  end.

(** [getModelClient] of Phase 4, with the silent fallback for a request
    that follows a recent failure and the logging of Phase 5 in the
    [catch] block.  The third component is the trace of the retry manager,
    empty when it is not run. *)
Definition getModelClient (model : LargeLanguageModel)
    (settings : UserSettings) (w : World)
    : result GetModelClientError Client * World * list RetryLogic.Event :=
  if proxyIsRoute settings then
    if failedRecently settings (outside w) then
      (silentFallback model settings w, [])
    else
      match RetryLogic.executeWithRetry numberToString
              (proxyOperation model settings) (Some onProxyRetry) w with
      | (Ok client, (trace, w1)) => (Ok client, w1, trace)
      | (Throw error, (trace, w1)) =>
          (onRetryFailure model settings error w1, trace)
      end
  else
    let '(r, w1) := standardClient model settings w in (r, w1, []).

(** The store after the retry callback has run for [failures] failed
    attempts, the first of them attempt [attempt]. *)
Fixpoint retriedStore (attempt failures : nat) (st : UserSettings)
    : UserSettings :=
  match failures with
  | O => st
  | S failures' =>
      retriedStore (S attempt) failures' (updateRetryCount attempt st)
  end.

(** The proxy rejects one connection after the other with [errors], which
    takes the outside from [n] to [n']. *)
Fixpoint failsWith (model : LargeLanguageModel) (settings : UserSettings)
    (errors : list JS.value) (n n' : N) : Prop :=
  match errors with
  | [] => n = n'
  | e :: errors' =>
      exists n1,
        connect model settings None n = (Throw e, n1)
        /\ failsWith model settings errors' n1 n'
  end.

End WithOutside.

Arguments World : clear implicits.

End ModelClient.

(** * Scenarios and auxiliary definitions *)

Definition distributionEnv : Env.t := {[ "DYAD_DISTRIBUTION_BUILD" := "true" ]}.

Definition developmentEnv : Env.t := {[ "NODE_ENV" := "development" ]}.

Definition standardSettings : Settings.UserSettings :=
  {| Settings.distributionMode := None; Settings.otherSections := [] |}.

Definition distributionOf (hideCommercial hidePro hideExternal : option bool)
    (nav : option (list string)) : Settings.UserSettings :=
  {| Settings.distributionMode := Some
       {| Settings.hideCommercialFeatures := hideCommercial;
          Settings.hideProButtons := hidePro;
          Settings.hideExternalIntegrations := hideExternal;
          Settings.hideNavigation := nav;
          Settings.vibeathonApiKey := None;
          Settings.proxySettings := None |};
     Settings.otherSections := [] |}.

(** The request [fetchFallbackApiKeys] sends. *)
Definition aiKeysRequest (env : Env.t) (vibeathonApiKey : string)
    : VibeathonApi.Request :=
  {| VibeathonApi.url := ProxyUrl.VIBEATHON_API_BASE env +:+ "/user/ai-keys";
     VibeathonApi.method := "GET";
     VibeathonApi.headers :=
       [("Authorization", "Bearer " +:+ vibeathonApiKey);
        ("Content-Type", "application/json")];
     VibeathonApi.body := None |}.

(** [data.expiration] of a parsed body, [undefined] where the read yields
    nothing. *)
Definition expirationOf (data : JS.value) : JS.value :=
  default JS.VUndefined (JS.prop data "expiration").

(** The body of a response holds an [expiration] field, in the words of the
    specification: it is an object with that key. *)
Definition spec_containsExpiration (data : JS.value) : bool :=
  match data with
  | JS.VObj o => JS.has o "expiration"
  | _ => false
  end.

(** A network that answers every request with the same response. *)
Definition respondWith (response : VibeathonApi.Response) : VibeathonApi.Fetch :=
  fun _ => Ok response.

Definition okResponse (data : JS.value) : VibeathonApi.Response :=
  {| VibeathonApi.ok := true;
     VibeathonApi.statusText := "OK";
     VibeathonApi.json := Some data |}.

Definition keysBody : JS.value :=
  JS.VObj [ ("openai", JS.VStr "sk-user-openai");
            ("anthropic", JS.VStr "sk-user-anthropic");
            ("expiration", JS.VStr "2025-12-31T00:00:00.000Z") ].

Definition emptyExpirationBody : JS.value :=
  JS.VObj [ ("openai", JS.VStr "sk-user-openai");
            ("expiration", JS.VStr "") ].

Definition vibeathonSecret : Settings.Secret :=
  {| Settings.value := "vb-key";
     Settings.encryptionType := Some "electron-safe-storage" |}.

(** The store after [initializeDistributionSettings] and the entry of the
    Vibeathon API key. *)
Definition configuredStore : Settings.UserSettings :=
  {| Settings.distributionMode := Some
       {| Settings.hideCommercialFeatures := Some true;
          Settings.hideProButtons := Some true;
          Settings.hideExternalIntegrations := Some true;
          Settings.hideNavigation := Some ["hub"; "library"];
          Settings.vibeathonApiKey := Some vibeathonSecret;
          Settings.proxySettings := Some
            {| Settings.enabled := Some true;
               Settings.baseUrl := Some "https://app.vibeathon.us/api/v1";
               Settings.fallbackApiKeys := None;
               Settings.fallbackKeysExpiration := None;
               Settings.retryCount := Some 0;
               Settings.lastFailure := None;
               Settings.useFallback := Some false |} |};
     Settings.otherSections := [("selectedChatMode", JS.VStr "build")] |}.

(** A store whose distribution section holds the flags and the API key and
    no [proxySettings]. *)
Definition keyOnlyStore : Settings.UserSettings :=
  {| Settings.distributionMode := Some
       {| Settings.hideCommercialFeatures := Some false;
          Settings.hideProButtons := Some false;
          Settings.hideExternalIntegrations := Some false;
          Settings.hideNavigation := Some [];
          Settings.vibeathonApiKey := Some vibeathonSecret;
          Settings.proxySettings := None |};
     Settings.otherSections := [("selectedChatMode", JS.VStr "build")] |}.

Definition configuredStoreAfterFetch : Settings.UserSettings :=
  Eval vm_compute in
    (SettingsHandlers.fetchVibeathonFallbackKeys ∅
       (respondWith (okResponse keysBody)) id configuredStore).2.

(** An [Error] object as a value: the properties the code reads. *)
Definition errorValue (name message : string) : JS.value :=
  JS.VObj [ ("name", JS.VStr name); ("message", JS.VStr message) ].

(** The failure of a request the proxy answered with 401. *)
Definition unauthorized : JS.value :=
  JS.VObj [ ("name", JS.VStr "Error");
            ("message", JS.VStr "Invalid API key");
            ("status", JS.VNum 401) ].

(** A rendering of numbers that is right on the integers. *)
Definition integerText (q : Q) : string :=
  pretty (Qnum q / Z.pos (Qden q)).

(** A proxy that answers every request with 401. *)
Definition alwaysUnauthorized (w : unit) : result JS.value string * unit :=
  (Throw unauthorized, w).

(** A retry callback that throws on the failure of attempt [n]. *)
Definition throwsAt (n : nat) (attempt : nat) (_ : JS.value) (w : unit)
    : result string unit * unit :=
  if (attempt =? n)%nat then (Throw "settings file locked", w) else (Ok (), w).

Definition networkDown : JS.value := errorValue "TypeError" "fetch failed".

(** An outside whose state is the number of connections attempted, and in
    which the proxy is unreachable. *)
Definition proxyDown (_ : ModelClient.LargeLanguageModel)
    (_ : Settings.UserSettings) (_ : option Z) (n : nat)
    : result JS.value string * nat :=
  (Throw networkDown, S n).

(** A proxy whose connections are rejected with no reason. *)
Definition proxyRejectsWithNull (_ : ModelClient.LargeLanguageModel)
    (_ : Settings.UserSettings) (_ : option Z) (n : nat)
    : result JS.value string * nat :=
  (Throw JS.VNull, S n).

(** A proxy that fails twice and answers from the third connection on. *)
Definition proxyUpAtThird (_ : ModelClient.LargeLanguageModel)
    (_ : Settings.UserSettings) (_ : option Z) (n : nat)
    : result JS.value string * nat :=
  if (n <? 2)%nat then (Throw networkDown, S n)
  else (Ok "vibeathon-proxy", S n).

(** The two cases the plan gives for [createFallbackClient], and its
    default. *)
Definition planFallbackClient (model : ModelClient.LargeLanguageModel)
    (_ : Settings.UserSettings) : result JS.value string :=
  if String.eqb (ModelClient.modelProvider model) "openai" then
    Ok "openai-direct"
  else if String.eqb (ModelClient.modelProvider model) "anthropic" then
    Ok "anthropic-direct"
  else
    Throw (errorValue "Error"
             ("Fallback not supported for provider: "
              +:+ ModelClient.modelProvider model)).

(** A [clearProxyFailure] that removes [lastFailure] from the store. *)
Definition clearLastFailure (w : ModelClient.World nat)
    : result JS.value unit * ModelClient.World nat :=
  let dm := Settings.distributionMode (ModelClient.store w) in
  let ps := dm ≫= Settings.proxySettings in
  (Ok (),
   ModelClient.withStore w
     (Settings.writeSettings
        {| Settings.patchDistributionMode := Some
             (ModelClient.withProxySettings dm
                {| Settings.enabled := ps ≫= Settings.enabled;
                   Settings.baseUrl := ps ≫= Settings.baseUrl;
                   Settings.fallbackApiKeys := ps ≫= Settings.fallbackApiKeys;
                   Settings.fallbackKeysExpiration :=
                     ps ≫= Settings.fallbackKeysExpiration;
                   Settings.retryCount := ps ≫= Settings.retryCount;
                   Settings.lastFailure := None;
                   Settings.useFallback := ps ≫= Settings.useFallback |});
           Settings.patchOtherSections := [] |}
        (ModelClient.store w))).

(** Noon of 23 September 2025, in ms since the epoch. *)
Definition noon : Z := 1758628800000.

(** [new Date(text).getTime()] on the dates of the scenarios. *)
Definition sampleParseDate (text : string) : option Z :=
  if String.eqb text "2025-09-23T12:00:00.000Z" then Some noon
  else if String.eqb text "2025-09-23T11:58:00.000Z" then Some (noon - 120000)
  else if String.eqb text "2025-09-23T11:00:00.000Z" then Some (noon - 3600000)
  else None.

Definition gpt4o : ModelClient.LargeLanguageModel :=
  {| ModelClient.modelName := "gpt-4o"; ModelClient.modelProvider := "openai" |}.

(** The application with the proxy as the route and fallback credentials
    for OpenAI and Anthropic in the store. *)
Definition fallbackReadyWorld : ModelClient.World nat :=
  {| ModelClient.store := configuredStoreAfterFetch;
     ModelClient.failedRequests := [];
     ModelClient.dbWritable := true;
     ModelClient.outside := 0%nat |}.

(** [getModelClient] at noon, on a proxy that behaves as [connect]. *)
Definition getModelClientAtNoon
    (connect : ModelClient.LargeLanguageModel -> Settings.UserSettings ->
               option Z -> nat -> result JS.value string * nat)
    (model : ModelClient.LargeLanguageModel)
    (settings : Settings.UserSettings) (w : ModelClient.World nat)
    : result ModelClient.GetModelClientError string * ModelClient.World nat
      * list RetryLogic.Event :=
  ModelClient.getModelClient integerText connect planFallbackClient
    clearLastFailure (fun _ => noon) sampleParseDate
    (fun _ => "2025-09-23T12:00:00.000Z") (fun _ => "req-1")
    (fun _ => "user-1") (fun _ => 3)
    (fun _ _ w => (Ok "standard", w))
    model settings w.

Definition getModelClientWhenDown
    : result ModelClient.GetModelClientError string * ModelClient.World nat
      * list RetryLogic.Event :=
  getModelClientAtNoon proxyDown gpt4o configuredStoreAfterFetch
    fallbackReadyWorld.

(** The stored settings with a proxy failure recorded at [text]. *)
Definition failedAt (text : string) (st : Settings.UserSettings)
    : Settings.UserSettings :=
  let dm := Settings.distributionMode st in
  let ps := dm ≫= Settings.proxySettings in
  {| Settings.distributionMode := Some
       (ModelClient.withProxySettings dm
          {| Settings.enabled := ps ≫= Settings.enabled;
             Settings.baseUrl := ps ≫= Settings.baseUrl;
             Settings.fallbackApiKeys := ps ≫= Settings.fallbackApiKeys;
             Settings.fallbackKeysExpiration :=
               ps ≫= Settings.fallbackKeysExpiration;
             Settings.retryCount := ps ≫= Settings.retryCount;
             Settings.lastFailure := Some text;
             Settings.useFallback := ps ≫= Settings.useFallback |});
     Settings.otherSections := Settings.otherSections st |}.

(** The application two minutes after a recorded proxy failure. *)
Definition recentlyFailedWorld : ModelClient.World nat :=
  {| ModelClient.store := failedAt "2025-09-23T11:58:00.000Z"
                            configuredStoreAfterFetch;
     ModelClient.failedRequests := [];
     ModelClient.dbWritable := true;
     ModelClient.outside := 0%nat |}.

(** ** Observing a run of the retry manager *)

(** The time a run spent asleep, in ms. *)
Definition totalSleep (trace : list RetryLogic.Event) : Z :=
  fold_right Z.add 0 (RetryLogic.sleepsOf trace).

(** The failed attempts of a run with the values thrown, in order. *)
Definition failuresOf (trace : list RetryLogic.Event)
    : list (nat * JS.value) :=
  flat_map (fun ev =>
              match ev with
              | RetryLogic.EvAttempt attempt (Some e) => [(attempt, e)]
              | _ => []
              end)
           trace.

(** An operation on a state [S], run beside a record of the calls the
    retry callback received. *)
Definition besideRecord {S T : Type}
    (op : S -> result JS.value T * S)
    (w : S * list (nat * JS.value))
    : result JS.value T * (S * list (nat * JS.value)) :=
  let '(r, s') := op w.1 in (r, (s', w.2)).

(** A retry callback that records its arguments and throws nothing. *)
Definition recordRetry {S : Type} (attempt : nat) (error : JS.value)
    (w : S * list (nat * JS.value))
    : result Empty_set unit * (S * list (nat * JS.value)) :=
  (Ok (), (w.1, w.2 ++ [(attempt, error)])).

(** ** The Vibeathon configuration panel
    (src/components/settings/VibeathonConfiguration.tsx) *)

Module VibeathonConfiguration.
Import Settings.

(** Modelled from the spec: [updateSettings] of the [useSettings] hook is
    not part of the sources at hand; it hands the patch to the
    [set-user-settings] handler, which calls [writeSettings], the store's
    [update(partial)]. *)
Definition updateSettings (patch : Patch) (store : UserSettings)
    : UserSettings :=
  writeSettings patch store.

(** [hasApiKey]: a key is set, and it is not the placeholder. *)
Definition hasApiKey (settings : UserSettings) : bool :=
  match distributionMode settings ≫= vibeathonApiKey with
  | Some secret =>
      negb (String.eqb (value secret) "")
      && negb (String.eqb (value secret) "Not Set")
  | None => false
  end.

(** [hasFallbackKeys] *)
Definition hasFallbackKeys (settings : UserSettings) : bool :=
  match proxySettingsOf settings ≫= fallbackApiKeys with
  | Some _ => true
  | None => false
  end.

(** The flags of the distribution section with their defaults, then the
    spread of the section: the part the three handlers share. *)
Definition flagsWithDefaults (dm : option DistributionMode)
    (key : option Secret) (ps : option ProxySettings) : DistributionMode :=
  {| hideCommercialFeatures :=
       spread (Some (orDefault (dm ≫= hideCommercialFeatures) false))
              (dm ≫= hideCommercialFeatures);
     hideProButtons :=
       spread (Some (orDefault (dm ≫= hideProButtons) false))
              (dm ≫= hideProButtons);
     hideExternalIntegrations :=
       spread (Some (orDefault (dm ≫= hideExternalIntegrations) false))
              (dm ≫= hideExternalIntegrations);
     hideNavigation :=
       spread (Some (orDefault (dm ≫= hideNavigation) []))
              (dm ≫= hideNavigation);
     vibeathonApiKey := key;
     proxySettings := ps |}.

(** [handleSaveApiKey], for the trimmed text of the input field; [settings]
    is the snapshot the component rendered with. *)
Definition handleSaveApiKey (trimmedInput : string) (settings : UserSettings)
    (store : UserSettings) : UserSettings :=
  if String.eqb trimmedInput "" then store
  else
    let dm := distributionMode settings in
    updateSettings
      {| patchDistributionMode := Some
           (flagsWithDefaults dm
              (Some {| value := trimmedInput;
                       encryptionType := Some "electron-safe-storage" |})
              (dm ≫= proxySettings));
         patchOtherSections := [] |}
      store.

(** [handleDeleteApiKey] *)
Definition handleDeleteApiKey (settings : UserSettings)
    (store : UserSettings) : UserSettings :=
  let dm := distributionMode settings in
  let ps := dm ≫= proxySettings in
  updateSettings
    {| patchDistributionMode := Some
         (flagsWithDefaults dm None
            (Some
               {| enabled :=
                    spread (Some (orDefault (ps ≫= enabled) false))
                           (ps ≫= enabled);
                  retryCount :=
                    spread (Some (orDefault (ps ≫= retryCount) 0))
                           (ps ≫= retryCount);
                  useFallback :=
                    spread (Some (orDefault (ps ≫= useFallback) false))
                           (ps ≫= useFallback);
                  baseUrl := ps ≫= baseUrl;
                  lastFailure := ps ≫= lastFailure;
                  fallbackApiKeys := None;
                  fallbackKeysExpiration := None |}));
       patchOtherSections := [] |}
    store.

End VibeathonConfiguration.

(** ** Request transformation and validation
    (src/ipc/utils/distribution_utils.ts) *)

Module Transforms.
Import VibeathonApi.

(** [{ ...o, [k]: v }] and [o.k = v] *)
Definition withProp (o : JS.object) (k : string) (v : JS.value) : JS.object :=
  JS.set o k v.

(** [v?.k] *)
Definition optProp (v : JS.value) (k : string) : JS.value :=
  default JS.VUndefined (JS.prop v k).

(** [transformToOpenAIFormat] on the values its callers hand it, whose
    [model] and [messages] are read from a request of type [any].
    [model.startsWith] is evaluated only when [options.originalProvider] is
    falsy, and throws a TypeError on a model that is not a string. *)
Definition transformToOpenAIFormatAny (amb : Ambient) (model : JS.value)
    (messages : JS.value) (options : JS.object)
    : result JsError JS.object :=
  let provided := JS.get options "originalProvider" in
  let original_provider :=
    if JS.truthy provided then Ok provided
    else match model with
         | JS.VStr m => Ok (JS.VStr (inferProviderFromModel m))
         | _ => Throw TypeError
         end in
  match original_provider with
  | Throw e => Throw e
  | Ok provider =>
      Ok (JS.fromEntries
            (filter (fun kv => JS.defined kv.2 = true)
               (JS.entries
                  [ ("model", model);
                    ("messages", messages);
                    ("stream",
                      JS.coalesce (JS.get options "stream") (JS.VBool true));
                    ("max_tokens",
                      JS.or (JS.get options "maxTokens")
                            (JS.get options "max_tokens"));
                    ("temperature",
                      JS.coalesce (JS.get options "temperature")
                                  (JS.VNum (7 # 10)));
                    ("top_p", JS.get options "top_p");
                    ("frequency_penalty", JS.get options "frequency_penalty");
                    ("presence_penalty", JS.get options "presence_penalty");
                    ("stop", JS.get options "stop");
                    ("metadata", JS.VObj
                      [ ("original_provider", provider);
                        ("request_id",
                          JS.or (JS.get options "requestId")
                                (JS.VStr (generatedRequestId amb)));
                        ("user_agent", JS.VStr "Dyad/Distribution");
                        ("timestamp", JS.VStr (nowISOString amb)) ]) ])))
  end.

(** A byte [10xxxxxx], which continues a code point in UTF-8. *)
Definition isContinuationByte (c : Ascii.ascii) : bool :=
  (128 <=? Ascii.nat_of_ascii c)%nat && (Ascii.nat_of_ascii c <? 192)%nat.

(** The code points of a string, which holds its text in UTF-8: each is a
    byte with the continuation bytes that follow it. *)
Fixpoint codePoints (s : string) : list string :=
  match s with
  | EmptyString => []
  | String c rest =>
      let points := codePoints rest in
      match rest with
      | String c' _ =>
          if isContinuationByte c' then
            match points with
            | point :: points' => String c point :: points'
            | [] => [String c EmptyString]
            end
          else String c EmptyString :: points
      | EmptyString => [String c EmptyString]
      end
  end.

(** [[first, ...rest]]: the spread needs an iterable; of the values a
    request can hold, arrays are, and strings, which are iterated code
    point by code point. *)
Definition consSpread (first : JS.value) (rest : JS.value)
    : result JsError JS.value :=
  match rest with
  | JS.VArr items => Ok (JS.VArr (first :: items))
  | JS.VStr s => Ok (JS.VArr (first :: map JS.VStr (codePoints s)))
  | _ => Throw TypeError
  end.

Definition transformAnthropicToOpenAI (amb : Ambient) (request : JS.object)
    : result JsError JS.object :=
  let transformed :=
    withProp (withProp request "max_tokens" (JS.get request "max_tokens"))
             "messages" (JS.get request "messages") in
  if JS.truthy (JS.get request "system") then
    match consSpread
            (JS.VObj [ ("role", JS.VStr "system");
                       ("content", JS.get request "system") ])
            (JS.get request "messages") with
    | Throw e => Throw e
    | Ok messages =>
        let transformed := withProp transformed "messages" messages in
        transformToOpenAIFormatAny amb (JS.get request "model")
          (JS.get transformed "messages") transformed
    end
  else
    transformToOpenAIFormatAny amb (JS.get request "model")
      (JS.get transformed "messages") transformed.

Definition transformGoogleToOpenAI (amb : Ambient) (request : JS.object)
    : result JsError JS.object :=
  transformToOpenAIFormatAny amb (JS.get request "model")
    (JS.get request "messages")
    (withProp
       (withProp request "max_tokens" (JS.get request "maxOutputTokens"))
       "temperature"
       (optProp (JS.get request "generationConfig") "temperature")).

(** [typeof v === 'number'] *)
Definition isNumber (v : JS.value) : bool :=
  match v with
  | JS.VNum _ | JS.VNaN => true
  | _ => false
  end.

(** [v < bound] and [v > bound] for a number [v]; comparisons with [NaN]
    are false. *)
Definition numLt (v : JS.value) (bound : Q) : bool :=
  match v with
  | JS.VNum q => negb (Qle_bool bound q)
  | _ => false
  end.

Definition numGt (v : JS.value) (bound : Q) : bool :=
  match v with
  | JS.VNum q => negb (Qle_bool q bound)
  | _ => false
  end.

(** [['system', 'user', 'assistant'].includes(role)] *)
Definition knownRole (role : JS.value) : bool :=
  match role with
  | JS.VStr s =>
      String.eqb s "system" || String.eqb s "user" || String.eqb s "assistant"
  | _ => false
  end.

(** The callback of [request.messages.forEach], from [index] on.  Reading
    [role] from a message that is [null] or [undefined] throws. *)
Fixpoint messageErrors (index : nat) (messages : list JS.value)
    (errors : list string) : result JsError (list string) :=
  match messages with
  | [] => Ok errors
  | message :: rest =>
      match JS.prop message "role", JS.prop message "content" with
      | Some role, Some content =>
          let errors :=
            if negb (JS.truthy role) || negb (knownRole role)
            then errors ++ ["Invalid message role at index " +:+ pretty index]
            else errors in
          let errors :=
            if negb (JS.truthy content)
            then errors
                 ++ ["Missing content for message at index " +:+ pretty index]
            else errors in
          messageErrors (S index) rest errors
      | _, _ => Throw TypeError
      end
  end.

Record Validation : Type := {
  valid : bool;
  errors : list string;
}.

Definition validateOpenAIRequest (request : JS.object)
    : result JsError Validation :=
  let errors :=
    if negb (JS.truthy (JS.get request "model"))
    then ["Missing required field: model"] else [] in
  let afterMessages :=
    match JS.get request "messages" with
    | JS.VArr messages => messageErrors 0 messages errors
    | _ => Ok (errors ++ ["Missing or invalid messages array"])
    end in
  match afterMessages with
  | Throw e => Throw e
  | Ok errors =>
      let max_tokens := JS.get request "max_tokens" in
      let errors :=
        if JS.truthy max_tokens
           && (negb (isNumber max_tokens) || numLt max_tokens 1)
        then errors ++ ["max_tokens must be a positive number"]
        else errors in
      let temperature := JS.get request "temperature" in
      let errors :=
        if JS.truthy temperature
           && (negb (isNumber temperature) || numLt temperature 0
               || numGt temperature 2)
        then errors ++ ["temperature must be a number between 0 and 2"]
        else errors in
      Ok {| valid := bool_decide (errors = []); errors := errors |}
  end.

(** A message the validation accepts: a known role and a truthy content. *)
Definition wellFormedMessage (message : JS.value) : bool :=
  knownRole (optProp message "role")
  && JS.truthy (optProp message "content").

End Transforms.

(** [v === null || v === undefined] *)
Definition nullish (v : JS.value) : bool :=
  match v with
  | JS.VUndefined | JS.VNull => true
  | _ => false
  end.

(** The message [transformAnthropicToOpenAI] builds from [request.system]. *)
Definition systemMessage (system : JS.value) : JS.value :=
  JS.VObj [ ("role", JS.VStr "system"); ("content", system) ].

(** ** The settings navigation (src/components/SettingsList.tsx) *)

Module SettingsList.

Record Section_ : Type := {
  id : string;
  label : string;
}.

(** [SETTINGS_SECTIONS], computed when the module is loaded. *)
Definition SETTINGS_SECTIONS (env : Env.t) : list Section_ :=
  (if Telemetry.IS_DISTRIBUTION_BUILD env
   then [ {| id := "vibeathon-api-key"; label := "Vibeathon API Key" |} ]
   else [])
  ++ [ {| id := "general-settings"; label := "General" |};
       {| id := "workflow-settings"; label := "Workflow" |};
       {| id := "ai-settings"; label := "AI" |};
       {| id := "provider-settings"; label := "Model Providers" |} ]
  ++ (if negb (Telemetry.IS_DISTRIBUTION_BUILD env)
      then [ {| id := "telemetry"; label := "Telemetry" |};
             {| id := "integrations"; label := "Integrations" |} ]
      else [])
  ++ [ {| id := "tools-mcp"; label := "Tools (MCP)" |} ]
  ++ (if negb (Telemetry.IS_DISTRIBUTION_BUILD env)
      then [ {| id := "experiments"; label := "Experiments" |} ]
      else [])
  ++ [ {| id := "danger-zone"; label := "Danger Zone" |} ].

(** [filteredSections]; [settings] is [None] while the settings are not
    loaded. *)
Definition filteredSections (env : Env.t)
    (settings : option Settings.UserSettings) : list Section_ :=
  filter
    (fun section =>
       negb (String.eqb (id section) "provider-settings")
       || match settings with
          | None => true
          | Some s =>
              negb (JS.truthy
                      (FeatureGate.shouldHideFeature s "model-providers"))
          end = true)
    (SETTINGS_SECTIONS env).

End SettingsList.

(** ** Chat mode toggle (src/hooks/useChatModeToggle.ts) *)

Module ChatModeToggle.

(** [HIDE_BUILD_MODE] of [distribution_utils.ts] *)
Definition HIDE_BUILD_MODE (env : Env.t) : bool :=
  Env.equals env "DYAD_HIDE_BUILD_MODE" "true".

Definition shouldHideBuildMode (env : Env.t) : bool :=
  Telemetry.IS_DISTRIBUTION_BUILD env || HIDE_BUILD_MODE env.

(** [ChatModeSchema.options]: the schema is [z.enum(["build", "ask",
    "agent"])]. *)
Definition ChatModeOptions : list string := ["build"; "ask"; "agent"].

(** [modes.indexOf(v)], [-1] when [v] is not one of the modes. *)
Fixpoint indexOf (modes : list string) (v : JS.value) : Z :=
  match modes with
  | [] => -1
  | m :: modes' =>
      match v with
      | JS.VStr s =>
          if String.eqb m s then 0
          else let i := indexOf modes' v in if i <? 0 then -1 else i + 1
      | _ => -1
      end
  end.

(** [newMode] of [toggleChatMode] for the current mode. *)
Definition nextMode (env : Env.t) (currentMode : JS.value) : string :=
  if shouldHideBuildMode env then
    match currentMode with
    | JS.VStr s => if String.eqb s "ask" then "agent" else "ask"
    | _ => "ask"
    end
  else
    let modes := ChatModeOptions in
    let currentIndex := indexOf modes currentMode in
    default ""
      (modes !! Z.to_nat ((currentIndex + 1) `mod` Z.of_nat (length modes))).

(** [toggleChatMode]: [settings] is the snapshot of the hook, [None] while
    the settings are not loaded; the state is the settings store and the
    telemetry backend. *)
Definition toggleChatMode (env : Env.t)
    (settings : option Settings.UserSettings)
    (st : Settings.UserSettings * Telemetry.backend)
    : Settings.UserSettings * Telemetry.backend :=
  match settings with
  | None => st
  | Some s =>
      let currentMode := JS.get (Settings.otherSections s) "selectedChatMode" in
      if negb (JS.truthy currentMode) then st
      else
        let newMode := nextMode env currentMode in
        (VibeathonConfiguration.updateSettings
           {| Settings.patchDistributionMode := None;
              Settings.patchOtherSections :=
                [("selectedChatMode", JS.VStr newMode)] |}
           st.1,
         Telemetry.captureEvent env "chat:mode_toggle"
           (JS.VObj [ ("from", currentMode);
                      ("to", JS.VStr newMode);
                      ("trigger", JS.VStr "keyboard_shortcut") ])
           st.2)
  end.

(** The shortcut pressed with the hook re-rendered on the current store. *)
Definition pressShortcut (env : Env.t)
    (st : Settings.UserSettings * Telemetry.backend)
    : Settings.UserSettings * Telemetry.backend :=
  toggleChatMode env (Some (Settings.readSettings st.1)) st.

End ChatModeToggle.

(** ** Validation of the Vibeathon key
    (src/hooks/useVibeathonKeyValidation.ts, src/pages/settings.tsx) *)

Module KeyValidation.

(** [validationCache] *)
Record ValidationCache : Type := {
  apiKey : option string;
  isValid : bool;
  timestamp : Z;
}.

Definition emptyCache : ValidationCache :=
  {| apiKey := None; isValid := false; timestamp := 0 |}.

Definition CACHE_DURATION_MS : Z := 5 * 60 * 1000.

(** [warmValidationCache(apiKey)] at the time [now] of [Date.now()]. *)
Definition warmValidationCache (key : string) (now : Z)
    (_ : ValidationCache) : ValidationCache :=
  {| apiKey := Some key; isValid := true; timestamp := now |}.

(** What the hook returns, and whether it sent the user to the settings
    page. *)
Record View : Type := {
  isValidating : bool;
  viewIsValid : option bool;
  navigatedToSettings : bool;
}.

(** The handler of [settings:validateVibeathonKey]. *)
Definition validateVibeathonKeyHandler (env : Env.t)
    (fetch : VibeathonApi.Fetch) (vibeathonApiKey : string)
    : result VibeathonApi.JsError bool :=
  if String.eqb vibeathonApiKey "" then Ok false
  else VibeathonApi.validateVibeathonApiKey env fetch vibeathonApiKey.

Section Effect.
Variable env : Env.t.
(** [IpcClient.getInstance().validateVibeathonKey] *)
Variable validateVibeathonKey : string -> result VibeathonApi.JsError bool.

(** The effect of [useVibeathonKeyValidation]: [now] is [Date.now()] at
    the cache check, [later] at the update of the cache. *)
Definition runEffect (loading : bool)
    (settings : option Settings.UserSettings) (now later : Z)
    (st : ValidationCache * View) : ValidationCache * View :=
  let '(cache, view) := st in
  if negb (Telemetry.IS_DISTRIBUTION_BUILD env) then
    (cache, {| isValidating := false; viewIsValid := Some true;
               navigatedToSettings := navigatedToSettings view |})
  else if loading then st
  else
    let vibeathonApiKey :=
      match settings with
      | Some s =>
          Settings.value <$>
            (Settings.distributionMode s ≫= Settings.vibeathonApiKey)
      | None => None
      end in
    match vibeathonApiKey with
    | Some key =>
        if String.eqb key "" then
          (cache, {| isValidating := false; viewIsValid := Some false;
                     navigatedToSettings := true |})
        else
          let isCacheValid :=
            bool_decide (apiKey cache = Some key)
            && isValid cache
            && (now - timestamp cache <? CACHE_DURATION_MS) in
          if isCacheValid then
            (cache, {| isValidating := false; viewIsValid := Some true;
                       navigatedToSettings := navigatedToSettings view |})
          else
            match validateVibeathonKey key with
            | Ok true =>
                ({| apiKey := Some key; isValid := true; timestamp := later |},
                 {| isValidating := false; viewIsValid := Some true;
                    navigatedToSettings := navigatedToSettings view |})
            | Ok false | Throw _ =>
                (emptyCache,
                 {| isValidating := false; viewIsValid := Some false;
                    navigatedToSettings := true |})
            end
    | None =>
        (cache, {| isValidating := false; viewIsValid := Some false;
                   navigatedToSettings := true |})
    end.

End Effect.

(** The outcome [handleSave] of the key section reports. *)
Inductive SaveMessage : Type :=
| SavedSuccessfully
| InvalidKey
| ValidationError.

(** [handleSave] of [VibeathonApiKeySection]: the key typed is validated
    through the handler, and on success the cache is warmed and the key
    stored. *)
Definition handleSave (env : Env.t) (fetch : VibeathonApi.Fetch)
    (key : string) (settings : option Settings.UserSettings) (now : Z)
    (st : ValidationCache * Settings.UserSettings)
    : ValidationCache * Settings.UserSettings * SaveMessage :=
  match validateVibeathonKeyHandler env fetch key with
  | Ok true =>
      let dm := settings ≫= Settings.distributionMode in
      (warmValidationCache key now st.1,
       VibeathonConfiguration.updateSettings
         {| Settings.patchDistributionMode := Some
              {| Settings.hideCommercialFeatures :=
                   dm ≫= Settings.hideCommercialFeatures;
                 Settings.hideProButtons := dm ≫= Settings.hideProButtons;
                 Settings.hideExternalIntegrations :=
                   dm ≫= Settings.hideExternalIntegrations;
                 Settings.hideNavigation := dm ≫= Settings.hideNavigation;
                 Settings.proxySettings := dm ≫= Settings.proxySettings;
                 Settings.vibeathonApiKey :=
                   Some {| Settings.value := key;
                           Settings.encryptionType := None |} |};
            Settings.patchOtherSections := [] |}
         st.2,
       SavedSuccessfully)
  | Ok false => (st.1, st.2, InvalidKey)
  | Throw _ => (st.1, st.2, ValidationError)
  end.

End KeyValidation.

(** What happens to the validation cache over time: the settings page
    warms it, the hook runs its effect. *)
Inductive CacheEvent : Type :=
| Warmed (key : string) (now : Z)
| EffectRan (loading : bool) (settings : option Settings.UserSettings)
    (now later : Z).

Definition cacheStep (env : Env.t)
    (validateVibeathonKey : string -> result VibeathonApi.JsError bool)
    (st : KeyValidation.ValidationCache * KeyValidation.View)
    (ev : CacheEvent) : KeyValidation.ValidationCache * KeyValidation.View :=
  match ev with
  | Warmed key now => (KeyValidation.warmValidationCache key now st.1, st.2)
  | EffectRan loading settings now later =>
      KeyValidation.runEffect env validateVibeathonKey loading settings
        now later st
  end.

(** The mode stored in the settings. *)
Definition selectedChatMode (store : Settings.UserSettings) : JS.value :=
  JS.get (Settings.otherSections store) "selectedChatMode".

(** The settings with a Vibeathon key and nothing else. *)
Definition settingsWithKey (key : string) : Settings.UserSettings :=
  {| Settings.distributionMode := Some
       {| Settings.hideCommercialFeatures := None;
          Settings.hideProButtons := None;
          Settings.hideExternalIntegrations := None;
          Settings.hideNavigation := None;
          Settings.vibeathonApiKey :=
            Some {| Settings.value := key; Settings.encryptionType := None |};
          Settings.proxySettings := None |};
     Settings.otherSections := [] |}.

(** ** Seeding of the default prompts (src/db/seed_prompts.ts) *)

Module SeedPrompts.

(** A row of the [prompts] table (its identifier left out). *)
Record PromptRow : Type := {
  title : string;
  description : option string;
  content : string;
  isReadOnly : bool;
}.

Record PromptFrontmatter : Type := {
  fmTitle : string;
  fmDescription : option string;
}.

(** An error with the [code] of a [NodeJS.ErrnoException], if it has one. *)
Record ErrnoException : Type := {
  code : option string;
  errMessage : string;
}.

(** [s.endsWith(suffix)] *)
Definition endsWith (s suffix : string) : bool :=
  let n := String.length s in
  let m := String.length suffix in
  (m <=? n)%nat && String.eqb (String.substring (n - m) m s) suffix.

Section WithFileSystem.
(** [path.join], the file system, [gray-matter] (which can throw on a
    malformed header) and [String.prototype.trim]. *)
Variable join : string -> string -> string.
Variable readdir : string -> result ErrnoException (list string).
Variable readFile : string -> result ErrnoException string.
Variable matter : string -> result ErrnoException (PromptFrontmatter * string).
Variable trim : string -> string.

(** [db.select().from(prompts).where(eq(prompts.title, title)).get()] *)
Definition findByTitle (db : list PromptRow) (t : string) : option PromptRow :=
  list_find (fun row => title row = t) db ≫= (fun ir => Some ir.2).

(** The body of the [for] loop, over the remaining files. *)
Fixpoint seedFiles (promptsDir : string) (mdFiles : list string)
    (db : list PromptRow) : result ErrnoException unit * list PromptRow :=
  match mdFiles with
  | [] => (Ok (), db)
  | file :: rest =>
      let filePath := join promptsDir file in
      match readFile filePath with
      | Throw e => (Throw e, db)
      | Ok fileContent =>
          match matter fileContent with
          | Throw e => (Throw e, db)
          | Ok (frontmatter, body) =>
              match findByTitle db (fmTitle frontmatter) with
              | Some _ => seedFiles promptsDir rest db
              | None =>
                  seedFiles promptsDir rest
                    (db ++ [ {| title := fmTitle frontmatter;
                                description :=
                                  match fmDescription frontmatter with
                                  | Some d =>
                                      if String.eqb d "" then None else Some d
                                  | None => None
                                  end;
                                content := trim body;
                                isReadOnly := true |} ])
              end
          end
      end
  end.

(** The [catch] block: a missing directory is not an error. *)
Definition swallowENOENT (r : result ErrnoException unit)
    : result ErrnoException unit :=
  match r with
  | Ok u => Ok u
  | Throw e =>
      match code e with
      | Some c => if String.eqb c "ENOENT" then Ok () else Throw e
      | None => Throw e
      end
  end.

Definition seedDefaultPrompts (resourcesPath : string) (db : list PromptRow)
    : result ErrnoException unit * list PromptRow :=
  let promptsDir := join resourcesPath "default-prompts" in
  match readdir promptsDir with
  | Throw e => (swallowENOENT (Throw e), db)
  | Ok files =>
      let mdFiles := filter (fun f => endsWith f ".md" = true) files in
      let '(r, db') := seedFiles promptsDir mdFiles db in
      (swallowENOENT r, db')
  end.

End WithFileSystem.

End SeedPrompts.

(** ** Failed-request sync (src/ipc/utils/distribution_utils.ts,
    src/ipc/utils/request_logger.ts, src/ipc/utils/sync_service.ts) *)

Module RequestSync.
Import VibeathonApi.

(** The [RequestInit] the callers of [fetchVibeathonApi] pass. *)
Record RequestInit : Type := {
  initMethod : string;
  initHeaders : list (string * string);
  initBody : option string;
}.

Section WithNetwork.
Variable env : Env.t.
Variable fetch : Fetch.
(** [JSON.stringify] *)
Variable stringify : JS.value -> string.

(** [fetchVibeathonApi]: the headers of the caller are spread over the
    default content type. *)
Definition fetchVibeathonApi (endpoint : string) (options : RequestInit)
    : result JsError Response :=
  fetch {| url := ProxyUrl.VIBEATHON_API_BASE env +:+ endpoint;
           method := initMethod options;
           headers :=
             fold_left (fun acc kv => SettingsHandlers.withKey acc kv.1 kv.2)
                       (initHeaders options)
                       [("Content-Type", "application/json")];
           body := initBody options |}.

(** [syncFailedRequest] *)
Definition syncFailedRequest (apiKey : string) (syncData : JS.value)
    : result JsError unit :=
  match fetchVibeathonApi "/sync/failed-request"
          {| initMethod := "POST";
             initHeaders := [("Authorization", "Bearer " +:+ apiKey)];
             initBody := Some (stringify syncData) |} with
  | Throw e => Throw e
  | Ok response =>
      if negb (ok response) then
        Throw (Error (errorMessageOf
                 ("Failed to sync request: " +:+ statusText response)
                 response))
      else Ok ()
  end.

(** [RequestLogger.getUnsyncedRequests]: the query calls [.where] twice
    on the same builder, and the second call replaces the condition of the
    first.  The rows selected are the rows that are not synced, of every
    user: [userId] is not part of the condition. *)
Definition getUnsyncedRequests (userId : string)
    (table : list ModelClient.FailedRequestRow)
    : list ModelClient.FailedRequestRow :=
  filter (fun row => ModelClient.rowSynced row = false) table.

Definition setSynced (row : ModelClient.FailedRequestRow)
    : ModelClient.FailedRequestRow :=
  {| ModelClient.rowId := ModelClient.rowId row;
     ModelClient.rowUserId := ModelClient.rowUserId row;
     ModelClient.rowRequestData := ModelClient.rowRequestData row;
     ModelClient.rowTimestamp := ModelClient.rowTimestamp row;
     ModelClient.rowRetryCount := ModelClient.rowRetryCount row;
     ModelClient.rowSynced := true;
     ModelClient.rowError := ModelClient.rowError row |}.

(** [RequestLogger.markRequestSynced] *)
Definition markRequestSynced (requestId : string)
    (table : list ModelClient.FailedRequestRow)
    : list ModelClient.FailedRequestRow :=
  map (fun row => if String.eqb (ModelClient.rowId row) requestId
                  then setSynced row else row) table.

(** The call of [fetchVibeathonApi] in the loop of
    [SyncService.syncFailedRequests].  The stored request data is the
    text of the object logged, which [JSON.parse] gives back. *)
Definition postFailedRequest (apiKey : string)
    (request : ModelClient.FailedRequestRow) : result JsError Response :=
  fetchVibeathonApi "/sync/failed-request"
    {| initMethod := "POST";
       initHeaders := [("Authorization", "Bearer " +:+ apiKey);
                       ("Content-Type", "application/json")];
       initBody := Some (stringify (JS.VObj
         [ ("requestId", JS.VStr (ModelClient.rowId request));
           ("originalTimestamp", JS.VStr (ModelClient.rowTimestamp request));
           ("requestData", JS.VObj (ModelClient.rowRequestData request));
           ("error", JS.VStr (ModelClient.rowError request)) ])) |}.

(** [SyncService.syncFailedRequests]: a request whose call throws is
    skipped, the loop goes on with the next. *)
Definition syncFailedRequests (userId apiKey : string)
    (table : list ModelClient.FailedRequestRow)
    : list ModelClient.FailedRequestRow :=
  let unsyncedRequests := getUnsyncedRequests userId table in
  fold_left
    (fun table request =>
       match postFailedRequest apiKey request with
       | Ok _ => markRequestSynced (ModelClient.rowId request) table
       | Throw _ => table
       end)
    unsyncedRequests table.

End WithNetwork.

End RequestSync.

(** The rows whose identifier is in [ids] marked as synced. *)
Definition markAll (ids : list string)
    (table : list ModelClient.FailedRequestRow)
    : list ModelClient.FailedRequestRow :=
  map (fun row => if bool_decide (ModelClient.rowId row ∈ ids)
                  then RequestSync.setSynced row else row) table.

(** The identifiers of the requests whose call to the sync endpoint
    resolved. *)
Definition resolvedIds (env : Env.t) (fetch : VibeathonApi.Fetch)
    (stringify : JS.value -> string) (apiKey : string)
    (requests : list ModelClient.FailedRequestRow) : list string :=
  ModelClient.rowId <$>
    filter (fun request =>
              is_ok (RequestSync.postFailedRequest env fetch stringify apiKey
                       request) = true)
           requests.

(** A proxy that answers at once. *)
Definition proxyUp (_ : ModelClient.LargeLanguageModel)
    (_ : Settings.UserSettings) (_ : option Z) (n : nat)
    : result JS.value string * nat :=
  (Ok "vibeathon-proxy", S n).

Definition sampleAmbient : VibeathonApi.Ambient :=
  {| VibeathonApi.generatedRequestId := "req-1-abc";
     VibeathonApi.nowISOString := "2025-09-23T00:00:00.000Z" |}.

Definition userMessage : JS.value :=
  JS.VObj [ ("role", JS.VStr "user"); ("content", JS.VStr "Hello") ].

Definition anthropicRequest : JS.object :=
  [ ("model", JS.VStr "claude-3-5-sonnet");
    ("system", JS.VStr "Be brief.");
    ("max_tokens", JS.VNum 1024);
    ("messages", JS.VArr [userMessage]) ].

Definition googleRequest : JS.object :=
  [ ("model", JS.VStr "gemini-1.5-pro");
    ("temperature", JS.VNum 2);
    ("maxOutputTokens", JS.VNum 256);
    ("generationConfig", JS.VObj [ ("temperature", JS.VNum (1 # 5)) ]);
    ("messages", JS.VArr [userMessage]) ].

Definition storeInMode (mode : string) : Settings.UserSettings :=
  {| Settings.distributionMode := None;
     Settings.otherSections := [("selectedChatMode", JS.VStr mode)] |}.

Definition hideBuildEnv : Env.t := {[ "DYAD_HIDE_BUILD_MODE" := "true" ]}.

(** A resources directory with one prompt file and one other file. *)
Definition sampleReaddir (_ : string)
    : result SeedPrompts.ErrnoException (list string) :=
  Ok ["debug-helper.md"; "README.txt"].

Definition sampleMatter (fileContent : string)
    : result SeedPrompts.ErrnoException
        (SeedPrompts.PromptFrontmatter * string) :=
  Ok ({| SeedPrompts.fmTitle := "Debug Helper";
         SeedPrompts.fmDescription := None |}, fileContent).

Definition failedRow (rowId userId : string) (synced : bool)
    : ModelClient.FailedRequestRow :=
  {| ModelClient.rowId := rowId;
     ModelClient.rowUserId := userId;
     ModelClient.rowRequestData := [("model", JS.VStr "gpt-4o")];
     ModelClient.rowTimestamp := "2025-09-23T12:00:00.000Z";
     ModelClient.rowRetryCount := 0;
     ModelClient.rowSynced := synced;
     ModelClient.rowError := "Failed after 10 attempts: fetch failed" |}.

(** A sync endpoint that answers 500. *)
Definition serverError : VibeathonApi.Fetch :=
  respondWith {| VibeathonApi.ok := false;
                 VibeathonApi.statusText := "Internal Server Error";
                 VibeathonApi.json := None |}.

(** The resources directory of the repository: its two prompt files. *)
Definition promptsReaddir (_ : string)
    : result SeedPrompts.ErrnoException (list string) :=
  Ok ["debug-helper.md"; "preflight-checklist.md"].

(** The front matter of the two files, found by the path that stands for
    the content of each. *)
Definition promptsMatter (fileContent : string)
    : result SeedPrompts.ErrnoException
        (SeedPrompts.PromptFrontmatter * string) :=
  if SeedPrompts.endsWith fileContent "debug-helper.md" then
    Ok ({| SeedPrompts.fmTitle := "Debug Helper";
           SeedPrompts.fmDescription :=
             Some "Helps you troubleshoot when something isn't working" |},
        "It's not working.")
  else
    Ok ({| SeedPrompts.fmTitle := "Pre-flight Checklist";
           SeedPrompts.fmDescription :=
             Some "Creates a comprehensive checklist before starting a feature" |},
        "Before we start building this feature").

(** A table with a prompt of the user and a prompt the user has written
    under the title of a default one. *)
Definition userPrompts : list SeedPrompts.PromptRow :=
  [ {| SeedPrompts.title := "Release notes";
       SeedPrompts.description := None;
       SeedPrompts.content := "Summarise the changes since the last tag.";
       SeedPrompts.isReadOnly := false |};
    {| SeedPrompts.title := "Debug Helper";
       SeedPrompts.description := Some "My own version";
       SeedPrompts.content := "Ask me for the logs first.";
       SeedPrompts.isReadOnly := false |} ].

(** * Properties *)

(** ** Telemetry *)

Lemma run_distribution_build (env : Env.t) (us : list Telemetry.use)
    (ph : Telemetry.backend) :
  Telemetry.IS_DISTRIBUTION_BUILD env = true ->
  Telemetry.run env us ph = ph.
Proof.
  intros Hdist. unfold Telemetry.run.
  induction us as [|u us IH]; simpl; [reflexivity|].
  destruct u; simpl;
    unfold Telemetry.captureEvent, Telemetry.captureException;
    rewrite Hdist; exact IH.
Qed.

(** C9: in a distribution build ([IS_DISTRIBUTION_BUILD] is true)
    [captureEvent] and [captureException] leave the telemetry backend as it
    was for every event name, property record and error,
    [isTelemetryEnabled()] is false, and no sequence of uses of the
    wrappers makes a call reach the backend. *)
Theorem distribution_build_emits_no_telemetry (env : Env.t) :
  Telemetry.IS_DISTRIBUTION_BUILD env = true ->
  (forall eventName properties ph,
      Telemetry.captureEvent env eventName properties ph = ph) /\
  (forall error ph, Telemetry.captureException env error ph = ph) /\
  Telemetry.isTelemetryEnabled env = false /\
  (forall us ph, Telemetry.run env us ph = ph).
Proof.
  intros Hdist. repeat split.
  - intros. unfold Telemetry.captureEvent. now rewrite Hdist.
  - intros. unfold Telemetry.captureException. now rewrite Hdist.
  - unfold Telemetry.isTelemetryEnabled. now rewrite Hdist.
  - intros. now apply run_distribution_build.
Qed.

Lemma distribution_build_emits_no_telemetry_witness :
  Telemetry.IS_DISTRIBUTION_BUILD distributionEnv = true /\
  Telemetry.run distributionEnv
    [Telemetry.UseEvent "app:opened" JS.VUndefined;
     Telemetry.UseException "boom"] [] = [] /\
  Telemetry.isTelemetryEnabled distributionEnv = false.
Proof.
  assert (H : Telemetry.IS_DISTRIBUTION_BUILD distributionEnv = true)
    by (vm_compute; reflexivity).
  pose proof (distribution_build_emits_no_telemetry distributionEnv H)
    as (_ & _ & Hen & Hrun).
  split; [exact H|]. split; [apply Hrun | exact Hen].
Defined.

(** Outside a distribution build the wrappers do reach the backend. *)
Lemma standard_build_emits_telemetry :
  Telemetry.captureEvent ∅ "app:opened" JS.VUndefined []
  = [Telemetry.Capture "app:opened" JS.VUndefined].
Proof. vm_compute. reflexivity. Qed.

(** ** Proxy base address *)

(** With an override set (and not empty) both resolutions return it. *)
Lemma proxy_url_override (env : Env.t) (url : string) :
  env !! "DYAD_DISTRIBUTION_PROXY_URL" = Some url -> url ≠ "" ->
  ProxyUrl.getVibeathonProxyUrl_api env = url /\
  ProxyUrl.getVibeathonProxyUrl env = url.
Proof.
  intros Hurl Hne.
  unfold ProxyUrl.getVibeathonProxyUrl_api, ProxyUrl.VIBEATHON_API_BASE,
    ProxyUrl.getVibeathonProxyUrl, ProxyUrl.getEnvVar.
  rewrite Hurl. simpl.
  destruct (String.eqb_spec url ""); [contradiction|]. simpl. auto.
Qed.

(** Without an override and outside development both resolutions return
    the production address. *)
Lemma proxy_url_production (env : Env.t) :
  Env.truthy (env !! "DYAD_DISTRIBUTION_PROXY_URL") = false ->
  Env.equals env "NODE_ENV" "development" = false ->
  ProxyUrl.getVibeathonProxyUrl_api env = "https://app.vibeathon.us/api/v1" /\
  ProxyUrl.getVibeathonProxyUrl env = "https://app.vibeathon.us/api/v1".
Proof.
  intros Hov Hdev.
  unfold ProxyUrl.getVibeathonProxyUrl_api, ProxyUrl.VIBEATHON_API_BASE,
    ProxyUrl.getVibeathonProxyUrl, ProxyUrl.getEnvVar.
  rewrite Hov, Hdev. auto.
Qed.

(** C7: the two resolutions of the proxy base address disagree in
    development when no override is set: the constant [VIBEATHON_API_BASE]
    is the plain-HTTP address, [getVibeathonProxyUrl] of the settings side
    the HTTPS one. *)
Theorem proxy_url_resolutions_differ_in_development :
  ProxyUrl.getVibeathonProxyUrl_api developmentEnv
    = "http://app.vibeathon.test/api/v1" /\
  ProxyUrl.getVibeathonProxyUrl developmentEnv
    = "https://app.vibeathon.test/api/v1" /\
  ProxyUrl.getVibeathonProxyUrl_api developmentEnv
    ≠ ProxyUrl.getVibeathonProxyUrl developmentEnv.
Proof.
  split; [vm_compute; reflexivity|].
  split; [vm_compute; reflexivity|].
  vm_compute. discriminate.
Qed.

(** ** Feature visibility *)








(** *** The source text and the function agree *)










(** [isDistributionMode], by contrast, reads a binding outside it: the
    same settings give two answers, and the read is logged. *)
Lemma isDistributionMode_reads_outer :
  Script.localBody isDistributionModeParams isDistributionModeSource = false /\
  Script.call isDistributionModeParams isDistributionModeSource
    [settingsToJS standardSettings]
    [("IS_DISTRIBUTION_BUILD", JS.VBool false)]
  = (Ok (JS.VBool false), [Script.ReadOuter "IS_DISTRIBUTION_BUILD"],
     [("IS_DISTRIBUTION_BUILD", JS.VBool false)]) /\
  Script.call isDistributionModeParams isDistributionModeSource
    [settingsToJS standardSettings]
    [("IS_DISTRIBUTION_BUILD", JS.VBool true)]
  = (Ok (JS.VBool true), [Script.ReadOuter "IS_DISTRIBUTION_BUILD"],
     [("IS_DISTRIBUTION_BUILD", JS.VBool true)]).
Proof. repeat split; vm_compute; reflexivity. Qed.

(** The value depends on the settings through the distribution section
    only. *)
Lemma shouldHideFeature_reads_distributionMode
    (s1 s2 : Settings.UserSettings) (featureKey : string) :
  Settings.distributionMode s1 = Settings.distributionMode s2 ->
  FeatureGate.shouldHideFeature s1 featureKey
  = FeatureGate.shouldHideFeature s2 featureKey.
Proof.
  intros Heq. unfold FeatureGate.shouldHideFeature. now rewrite Heq.
Qed.

(** [isDistributionMode], by contrast, is sensitive to the environment. *)
Lemma isDistributionMode_reads_environment :
  let settings :=
    {| Settings.distributionMode := None; Settings.otherSections := [] |} in
  FeatureGate.isDistributionMode ∅ settings = false /\
  FeatureGate.isDistributionMode {[ "DYAD_DISTRIBUTION_BUILD" := "true" ]}
    settings = true.
Proof. split; vm_compute; reflexivity. Qed.

Lemma eqb_outside_keys (featureKey k : string) :
  featureKey ∉ FeatureGate.DISTRIBUTION_FEATURE_KEYS ->
  k ∈ FeatureGate.DISTRIBUTION_FEATURE_KEYS ->
  String.eqb featureKey k = false.
Proof.
  intros Hout Hin. destruct (String.eqb_spec featureKey k); [|reflexivity].
  subst. contradiction.
Qed.

(** C10: [shouldHideFeature] returns [false] for every feature key when
    [settings.distributionMode] is undefined, and for every key outside
    the enumerated feature keys whatever the configuration. *)
Theorem shouldHideFeature_false_by_default (settings : Settings.UserSettings)
    (featureKey : string) :
  Settings.distributionMode settings = None
  \/ featureKey ∉ FeatureGate.DISTRIBUTION_FEATURE_KEYS ->
  FeatureGate.shouldHideFeature settings featureKey = JS.VBool false.
Proof.
  intros [Hnone | Hout]; unfold FeatureGate.shouldHideFeature.
  - now rewrite Hnone.
  - destruct (Settings.distributionMode settings) as [config|]; [|reflexivity].
    rewrite !(eqb_outside_keys featureKey) by
      (first [exact Hout
             | unfold FeatureGate.DISTRIBUTION_FEATURE_KEYS; set_solver]).
    reflexivity.
Qed.

Lemma shouldHideFeature_false_by_default_witness :
  FeatureGate.shouldHideFeature standardSettings "pro-banner"
    = JS.VBool false /\
  FeatureGate.shouldHideFeature
    (distributionOf (Some true) None None None) "unknown-feature"
    = JS.VBool false.
Proof.
  split; apply shouldHideFeature_false_by_default.
  - left. reflexivity.
  - right. unfold FeatureGate.DISTRIBUTION_FEATURE_KEYS.
    rewrite list_elem_of_In. simpl. intuition discriminate.
Defined.

(** The expectations of the unit tests of the gate. *)
Lemma shouldHideFeature_tests :
  FeatureGate.shouldHideFeature
    (distributionOf (Some true) None None None) "pro-banner" = JS.VBool true /\
  FeatureGate.shouldHideFeature
    (distributionOf None (Some true) None None) "pro-banner" = JS.VBool true /\
  FeatureGate.shouldHideFeature
    (distributionOf None None None (Some ["hub"; "library"])) "hub-nav"
    = JS.VBool true /\
  FeatureGate.shouldHideFeature
    (distributionOf None None None (Some ["hub"; "library"])) "library-nav"
    = JS.VBool true /\
  FeatureGate.shouldHideFeature
    (distributionOf None None (Some true) None) "import-app" = JS.VBool true /\
  FeatureGate.shouldHideFeature
    (distributionOf (Some true) None None None) "more-ideas" = JS.VBool true /\
  FeatureGate.shouldHideFeature standardSettings "hub-nav" = JS.VBool false.
Proof. repeat split; vm_compute; reflexivity. Qed.

(** ** The Vibeathon API client *)

(** C4 (amended): for every response of the fallback-credentials endpoint,
    [fetchFallbackApiKeys] returns the parsed body exactly when the
    response is ok, its body parses, and the [expiration] of the body is
    truthy (present and not empty, null, zero or false); in every other
    case it throws: when the response is not ok, and when an ok response
    has no truthy [expiration]. *)
Theorem fetchFallbackApiKeys_result (env : Env.t) (fetch : VibeathonApi.Fetch)
    (vibeathonApiKey : string) (response : VibeathonApi.Response) :
  fetch (aiKeysRequest env vibeathonApiKey) = Ok response ->
  (forall data,
     VibeathonApi.fetchFallbackApiKeys env fetch vibeathonApiKey = Ok data
     <-> VibeathonApi.ok response = true
         /\ VibeathonApi.json response = Some data
         /\ JS.truthy (expirationOf data) = true) /\
  (VibeathonApi.ok response = false ->
   is_ok (VibeathonApi.fetchFallbackApiKeys env fetch vibeathonApiKey)
   = false) /\
  ((forall data, VibeathonApi.json response = Some data ->
                 JS.truthy (expirationOf data) = false) ->
   is_ok (VibeathonApi.fetchFallbackApiKeys env fetch vibeathonApiKey)
   = false).
Proof.
  intros Hfetch. unfold VibeathonApi.fetchFallbackApiKeys.
  fold (aiKeysRequest env vibeathonApiKey). rewrite Hfetch.
  unfold expirationOf.
  destruct (VibeathonApi.ok response); simpl.
  - destruct (VibeathonApi.json response) as [data|]; simpl.
    + destruct (JS.prop data "expiration") as [e|] eqn:He; simpl.
      * destruct (JS.truthy e) eqn:Ht; simpl.
        -- split; [intros d; split|split].
           ++ intros [= <-]. rewrite He. auto.
           ++ intros (_ & [= <-] & _). reflexivity.
           ++ discriminate.
           ++ intros Hall. specialize (Hall data eq_refl).
              rewrite He in Hall. simpl in Hall. congruence.
        -- split; [intros d; split|split]; try discriminate; auto.
           intros (_ & [= <-] & Habs). rewrite He in Habs. simpl in Habs.
           congruence.
      * split; [intros d; split|split]; try discriminate; auto.
        intros (_ & [= <-] & Habs). rewrite He in Habs. discriminate.
    + split; [intros d; split|split]; try discriminate; auto.
      intros (_ & Habs & _). discriminate.
  - split; [intros d; split|split]; try discriminate; auto.
    intros (Habs & _). discriminate.
Qed.

Lemma fetchFallbackApiKeys_result_witness :
  VibeathonApi.fetchFallbackApiKeys ∅ (respondWith (okResponse keysBody))
    "vb-key" = Ok keysBody.
Proof.
  apply (proj1 (fetchFallbackApiKeys_result ∅ (respondWith (okResponse keysBody))
                  "vb-key" (okResponse keysBody) eq_refl)).
  repeat split; reflexivity.
Defined.

(** C4 as stated fails on an ok response whose body has an [expiration]
    field holding the empty string: the field is there, and the function
    throws. *)
Lemma fetchFallbackApiKeys_empty_expiration_throws :
  VibeathonApi.ok (okResponse emptyExpirationBody) = true /\
  spec_containsExpiration emptyExpirationBody = true /\
  VibeathonApi.fetchFallbackApiKeys ∅
    (respondWith (okResponse emptyExpirationBody)) "vb-key"
  = Throw (VibeathonApi.Error
             (JS.VStr "Invalid response: missing expiration date")).
Proof. repeat split; vm_compute; reflexivity. Qed.

(** C8: [validateVibeathonApiKey] never throws; it returns [true] exactly
    when [fetchFallbackApiKeys] completes for the key, and [false] whenever
    that call throws, for whatever reason. *)
Theorem validateVibeathonApiKey_total (env : Env.t)
    (fetch : VibeathonApi.Fetch) (vibeathonApiKey : string) :
  VibeathonApi.validateVibeathonApiKey env fetch vibeathonApiKey
  = Ok (is_ok (VibeathonApi.fetchFallbackApiKeys env fetch vibeathonApiKey)).
Proof.
  unfold VibeathonApi.validateVibeathonApiKey.
  destruct (VibeathonApi.fetchFallbackApiKeys env fetch vibeathonApiKey);
    reflexivity.
Qed.

(** The three ways [fetchFallbackApiKeys] throws all make the validation
    answer [false]: a failed [fetch], a response that is not ok, and an ok
    response without a usable expiration. *)
Lemma validateVibeathonApiKey_examples :
  VibeathonApi.validateVibeathonApiKey ∅
    (fun _ => Throw VibeathonApi.TypeError) "vb-key" = Ok false /\
  VibeathonApi.validateVibeathonApiKey ∅
    (respondWith {| VibeathonApi.ok := false;
                    VibeathonApi.statusText := "Unauthorized";
                    VibeathonApi.json := None |}) "vb-key" = Ok false /\
  VibeathonApi.validateVibeathonApiKey ∅
    (respondWith (okResponse emptyExpirationBody)) "vb-key" = Ok false /\
  VibeathonApi.validateVibeathonApiKey ∅
    (respondWith (okResponse keysBody)) "vb-key" = Ok true.
Proof. repeat split; vm_compute; reflexivity. Qed.

(** ** Objects: reading what [Object.fromEntries] and [filter] built *)

Lemma has_set (o : JS.object) (k k' : string) (v : JS.value) :
  JS.has (JS.set o k v) k' = String.eqb k k' || JS.has o k'.
Proof.
  induction o as [|[k0 v0] o IH]; simpl.
  - now rewrite orb_false_r.
  - destruct (String.eqb_spec k0 k) as [->|Hne]; simpl.
    + now destruct (String.eqb k k').
    + rewrite IH. destruct (String.eqb k0 k'), (String.eqb k k'); reflexivity.
Qed.

Lemma get_set (o : JS.object) (k k' : string) (v : JS.value) :
  JS.get (JS.set o k v) k'
  = if String.eqb k k' then v else JS.get o k'.
Proof.
  induction o as [|[k0 v0] o IH]; simpl.
  - reflexivity.
  - destruct (String.eqb_spec k0 k) as [->|Hne]; simpl.
    + now destruct (String.eqb k k').
    + rewrite IH. destruct (String.eqb_spec k0 k') as [->|Hne']; [|reflexivity].
      destruct (String.eqb_spec k k'); [congruence|reflexivity].
Qed.

Lemma has_false_get (o : JS.object) (k : string) :
  JS.has o k = false -> JS.get o k = JS.VUndefined.
Proof.
  induction o as [|[k0 v0] o IH]; simpl; [reflexivity|].
  destruct (String.eqb k0 k); simpl; [discriminate|exact IH].
Qed.

Lemma has_false_not_key (o : JS.object) (k : string) :
  k ∉ o.*1 -> JS.has o k = false.
Proof.
  induction o as [|[k0 v0] o IH]; simpl; [reflexivity|].
  intros Hnin. apply not_elem_of_cons in Hnin as [Hne Hnin].
  destruct (String.eqb_spec k0 k); [congruence|]. simpl. auto.
Qed.

Lemma fold_set_has (es : list (string * JS.value)) (acc : JS.object)
    (k : string) :
  JS.has (fold_left (fun o kv => JS.set o kv.1 kv.2) es acc) k
  = JS.has es k || JS.has acc k.
Proof.
  revert acc. induction es as [|[k0 v0] es IH]; intros acc; simpl.
  - reflexivity.
  - rewrite IH, has_set.
    destruct (String.eqb k0 k), (JS.has es k); reflexivity.
Qed.

Lemma fold_set_get (es : list (string * JS.value)) (acc : JS.object)
    (k : string) :
  NoDup es.*1 ->
  JS.get (fold_left (fun o kv => JS.set o kv.1 kv.2) es acc) k
  = if JS.has es k then JS.get es k else JS.get acc k.
Proof.
  revert acc. induction es as [|[k0 v0] es IH]; intros acc Hnd; simpl.
  - reflexivity.
  - apply NoDup_cons in Hnd as [Hnin Hnd]. rewrite IH by exact Hnd.
    rewrite get_set. destruct (String.eqb_spec k0 k) as [->|Hne]; simpl.
    + now rewrite (has_false_not_key es k Hnin).
    + reflexivity.
Qed.

Lemma filter_defined_has (es : list (string * JS.value)) (k : string) :
  NoDup es.*1 ->
  JS.has (filter (fun kv => JS.defined kv.2 = true) es) k
  = JS.has es k && JS.defined (JS.get es k).
Proof.
  induction es as [|[k0 v0] es IH]; intros Hnd; simpl; [reflexivity|].
  apply NoDup_cons in Hnd as [Hnin Hnd].
  rewrite filter_cons. simpl.
  destruct (decide (JS.defined v0 = true)) as [Hd|Hd]; simpl.
  - rewrite IH by exact Hnd.
    destruct (String.eqb_spec k0 k) as [->|Hne]; simpl; [now rewrite Hd|].
    reflexivity.
  - rewrite IH by exact Hnd.
    destruct (String.eqb_spec k0 k) as [->|Hne]; simpl; [|reflexivity].
    rewrite (has_false_not_key es k Hnin). simpl.
    now destruct (JS.defined v0).
Qed.

Lemma filter_defined_get (es : list (string * JS.value)) (k : string) :
  NoDup es.*1 ->
  JS.get (filter (fun kv => JS.defined kv.2 = true) es) k = JS.get es k.
Proof.
  induction es as [|[k0 v0] es IH]; intros Hnd; simpl; [reflexivity|].
  apply NoDup_cons in Hnd as [Hnin Hnd].
  rewrite filter_cons. simpl.
  destruct (decide (JS.defined v0 = true)) as [Hd|Hd]; simpl.
  - rewrite IH by exact Hnd. reflexivity.
  - rewrite IH by exact Hnd.
    destruct (String.eqb_spec k0 k) as [->|Hne]; [|reflexivity].
    rewrite (has_false_get es k (has_false_not_key es k Hnin)).
    destruct v0; simpl in Hd; congruence.
Qed.

Lemma filter_keys_NoDup (es : list (string * JS.value)) :
  NoDup es.*1 ->
  NoDup (filter (fun kv => JS.defined kv.2 = true) es).*1.
Proof.
  induction es as [|[k0 v0] es IH]; intros Hnd; simpl; [constructor|].
  apply NoDup_cons in Hnd as [Hnin Hnd]. rewrite filter_cons. simpl.
  destruct (decide (JS.defined v0 = true)); simpl; [|auto].
  apply NoDup_cons. split; [|auto].
  intros Hin. apply Hnin.
  apply list_elem_of_fmap in Hin as ([k1 v1] & -> & Hin).
  apply list_elem_of_filter in Hin as [_ Hin].
  apply list_elem_of_fmap. exists (k1, v1). auto.
Qed.

(** [Object.fromEntries(Object.entries(o).filter(defined))] keeps exactly
    the properties of [o] whose value is not [undefined], with their
    values. *)
Lemma fromEntries_filter_defined (o : JS.object) (k : string) :
  NoDup o.*1 ->
  let r := JS.fromEntries
             (filter (fun kv => JS.defined kv.2 = true) (JS.entries o)) in
  JS.has r k = JS.has o k && JS.defined (JS.get o k) /\
  JS.get r k = JS.get o k.
Proof.
  intros Hnd. unfold JS.fromEntries, JS.entries. simpl.
  rewrite fold_set_has, fold_set_get by (now apply filter_keys_NoDup).
  rewrite filter_defined_has, filter_defined_get by exact Hnd.
  simpl. rewrite orb_false_r. split; [reflexivity|].
  destruct (JS.has o k) eqn:Hh; simpl.
  - destruct (JS.defined (JS.get o k)) eqn:Hd; [reflexivity|].
    destruct (JS.get o k); simpl in Hd; congruence.
  - now rewrite (has_false_get o k Hh).
Qed.

Lemma requestLiteral_keys (amb : VibeathonApi.Ambient) (model : string)
    (messages : list JS.value) (options : JS.object) :
  NoDup (VibeathonApi.requestLiteral amb model messages options).*1.
Proof.
  unfold VibeathonApi.requestLiteral. simpl.
  apply (bool_decide_unpack _). vm_compute. reflexivity.
Qed.

Lemma coalesce_defined (a b : JS.value) :
  JS.defined b = true -> JS.defined (JS.coalesce a b) = true.
Proof. intros Hb. destruct a; simpl; auto. Qed.

(** C5: for every model name, message list and options object the request
    built by [transformToOpenAIFormat] always has the fields [model],
    [messages], [stream] and [metadata]; a key is in the returned object
    exactly when it is a key of the request literal whose computed value
    is not [undefined], so every field computed as [undefined] is absent,
    and the fields that remain keep their computed values. *)
Theorem transformToOpenAIFormat_shape (amb : VibeathonApi.Ambient)
    (model : string) (messages : list JS.value) (options : JS.object) :
  let request := VibeathonApi.requestLiteral amb model messages options in
  let r := VibeathonApi.transformToOpenAIFormat amb model messages options in
  (JS.has r "model" = true /\ JS.get r "model" = JS.VStr model) /\
  (JS.has r "messages" = true /\ JS.get r "messages" = JS.VArr messages) /\
  (JS.has r "stream" = true /\
   JS.get r "stream"
   = JS.coalesce (JS.get options "stream") (JS.VBool true)) /\
  (JS.has r "metadata" = true /\ JS.truthy (JS.get r "metadata") = true) /\
  (forall k, JS.has r k = JS.has request k && JS.defined (JS.get request k)) /\
  (forall k, JS.get r k = JS.get request k).
Proof.
  intros request r.
  assert (Hr : forall k,
             JS.has r k = JS.has request k && JS.defined (JS.get request k)
             /\ JS.get r k = JS.get request k).
  { intros k. apply fromEntries_filter_defined. apply requestLiteral_keys. }
  repeat split; try (intros k; apply Hr).
  - rewrite (proj1 (Hr _)). reflexivity.
  - rewrite (proj2 (Hr _)). reflexivity.
  - rewrite (proj1 (Hr _)). reflexivity.
  - rewrite (proj2 (Hr _)). reflexivity.
  - rewrite (proj1 (Hr _)). simpl. now apply coalesce_defined.
  - rewrite (proj2 (Hr _)). reflexivity.
  - rewrite (proj1 (Hr _)). reflexivity.
  - rewrite (proj2 (Hr _)). reflexivity.
Qed.

(** A field whose computed value is [undefined] is not in the result. *)
Corollary transformToOpenAIFormat_drops_undefined
    (amb : VibeathonApi.Ambient) (model : string)
    (messages : list JS.value) (options : JS.object) (k : string) :
  JS.get (VibeathonApi.requestLiteral amb model messages options) k
    = JS.VUndefined ->
  JS.has (VibeathonApi.transformToOpenAIFormat amb model messages options) k
    = false.
Proof.
  intros Hundef.
  pose proof (fromEntries_filter_defined
                (VibeathonApi.requestLiteral amb model messages options) k
                (requestLiteral_keys amb model messages options))
    as [Hhas _].
  cbv zeta in Hhas. rewrite Hundef in Hhas.
  rewrite andb_false_r in Hhas. exact Hhas.
Qed.

(** With no options the request holds the defaults and nothing else. *)
Lemma transformToOpenAIFormat_defaults :
  VibeathonApi.transformToOpenAIFormat
    {| VibeathonApi.generatedRequestId := "req-1-abc";
       VibeathonApi.nowISOString := "2025-09-23T00:00:00.000Z" |}
    "gpt-4o" [] []
  = [ ("model", JS.VStr "gpt-4o");
      ("messages", JS.VArr []);
      ("stream", JS.VBool true);
      ("temperature", JS.VNum (7 # 10));
      ("metadata", JS.VObj
        [ ("original_provider", JS.VStr "openai");
          ("request_id", JS.VStr "req-1-abc");
          ("user_agent", JS.VStr "Dyad/Distribution");
          ("timestamp", JS.VStr "2025-09-23T00:00:00.000Z") ]) ].
Proof. vm_compute. reflexivity. Qed.

(** ** Settings handlers *)

Lemma spread_orDefault {A} (x : option A) (d : A) :
  Settings.spread (Some (Settings.orDefault x d)) x
  = Some (Settings.orDefault x d).
Proof. destruct x; reflexivity. Qed.

(** C6 (amended): when [fetchVibeathonFallbackKeys] completes, the
    distribution section it wrote has, besides the new [fallbackApiKeys]
    and [fallbackKeysExpiration], the values of the settings that were
    read: [vibeathonApiKey], [baseUrl] and [lastFailure] as they were, and
    [hideCommercialFeatures], [hideProButtons], [hideExternalIntegrations],
    [hideNavigation], [enabled], [retryCount] and [useFallback] as they
    were when defined, and their defaults ([false], [[]], [0]) when they
    were undefined.  The other sections are those of the store at the time
    of the write. *)
Theorem fetchVibeathonFallbackKeys_frame (env : Env.t)
    (fetch : VibeathonApi.Fetch)
    (meanwhile : Settings.UserSettings -> Settings.UserSettings)
    (store store' : Settings.UserSettings) :
  SettingsHandlers.fetchVibeathonFallbackKeys env fetch meanwhile store
  = (Ok (), store') ->
  let read := Settings.distributionMode store in
  let ps := read ≫= Settings.proxySettings in
  exists dm' ps',
    Settings.distributionMode store' = Some dm' /\
    Settings.proxySettings dm' = Some ps' /\
    Settings.hideCommercialFeatures dm'
    = Some (Settings.orDefault (read ≫= Settings.hideCommercialFeatures) false) /\
    Settings.hideProButtons dm'
    = Some (Settings.orDefault (read ≫= Settings.hideProButtons) false) /\
    Settings.hideExternalIntegrations dm'
    = Some (Settings.orDefault (read ≫= Settings.hideExternalIntegrations) false) /\
    Settings.hideNavigation dm'
    = Some (Settings.orDefault (read ≫= Settings.hideNavigation) []) /\
    Settings.vibeathonApiKey dm' = read ≫= Settings.vibeathonApiKey /\
    Settings.enabled ps'
    = Some (Settings.orDefault (ps ≫= Settings.enabled) false) /\
    Settings.retryCount ps'
    = Some (Settings.orDefault (ps ≫= Settings.retryCount) 0) /\
    Settings.useFallback ps'
    = Some (Settings.orDefault (ps ≫= Settings.useFallback) false) /\
    Settings.baseUrl ps' = ps ≫= Settings.baseUrl /\
    Settings.lastFailure ps' = ps ≫= Settings.lastFailure /\
    Settings.otherSections store' = Settings.otherSections (meanwhile store).
Proof.
  intros Hrun read ps. subst read ps.
  unfold SettingsHandlers.fetchVibeathonFallbackKeys, Settings.readSettings
    in Hrun.
  destruct (Settings.distributionMode store ≫= Settings.vibeathonApiKey)
    as [[key enc]|] eqn:Hkey; [|discriminate].
  destruct (String.eqb key ""); [discriminate|].
  destruct (VibeathonApi.fetchFallbackApiKeys env fetch key) as [apiKeys|];
    [|discriminate].
  injection Hrun as <-.
  unfold Settings.writeSettings, SettingsHandlers.fallbackKeysPatch.
  cbn [Settings.patchDistributionMode Settings.distributionMode
       Settings.otherSections Settings.patchOtherSections fold_left].
  eexists _, _. split; [reflexivity|].
  cbn [Settings.proxySettings Settings.hideCommercialFeatures
       Settings.hideProButtons Settings.hideExternalIntegrations
       Settings.hideNavigation Settings.vibeathonApiKey Settings.enabled
       Settings.retryCount Settings.useFallback Settings.baseUrl
       Settings.lastFailure].
  split; [reflexivity|].
  rewrite !spread_orDefault, ?Hkey. repeat split; reflexivity.
Qed.

Lemma fetchVibeathonFallbackKeys_frame_witness :
  exists dm' ps',
    Settings.distributionMode configuredStoreAfterFetch = Some dm' /\
    Settings.proxySettings dm' = Some ps' /\
    Settings.hideNavigation dm' = Some ["hub"; "library"] /\
    Settings.vibeathonApiKey dm' = Some vibeathonSecret /\
    Settings.enabled ps' = Some true /\
    Settings.baseUrl ps' = Some "https://app.vibeathon.us/api/v1" /\
    Settings.useFallback ps' = Some false.
Proof.
  destruct (fetchVibeathonFallbackKeys_frame ∅
              (respondWith (okResponse keysBody)) id configuredStore
              configuredStoreAfterFetch)
    as (dm' & ps' & Hdm & Hps & _ & _ & _ & Hnav & Hkey & Hen & _ & Huf
        & Hurl & _ & _).
  - vm_compute. reflexivity.
  - exists dm', ps'. repeat split; assumption.
Defined.

(** C6 as stated fails on a store without [proxySettings]: the fields
    [enabled], [retryCount] and [useFallback] were undefined in the
    settings that were read and are [false], [0] and [false] after the
    write. *)
Lemma fetchVibeathonFallbackKeys_fills_defaults :
  (SettingsHandlers.fetchVibeathonFallbackKeys ∅
     (respondWith (okResponse keysBody)) id keyOnlyStore).1 = Ok () /\
  Settings.proxySettingsOf keyOnlyStore ≫= Settings.enabled = None /\
  Settings.proxySettingsOf
    (SettingsHandlers.fetchVibeathonFallbackKeys ∅
       (respondWith (okResponse keysBody)) id keyOnlyStore).2
    ≫= Settings.enabled = Some false /\
  Settings.proxySettingsOf
    (SettingsHandlers.fetchVibeathonFallbackKeys ∅
       (respondWith (okResponse keysBody)) id keyOnlyStore).2
    ≫= Settings.retryCount = Some 0 /\
  Settings.proxySettingsOf
    (SettingsHandlers.fetchVibeathonFallbackKeys ∅
       (respondWith (okResponse keysBody)) id keyOnlyStore).2
    ≫= Settings.useFallback = Some false.
Proof. repeat split; vm_compute; reflexivity. Qed.

(** The credentials are converted provider by provider, the expiration is
    not one of them. *)
Lemma toFallbackApiKeys_example :
  SettingsHandlers.toFallbackApiKeys keysBody
  = [ ("openai",
        {| Settings.fallbackValue := JS.VStr "sk-user-openai";
           Settings.fallbackEncryptionType := "electron-safe-storage" |});
      ("anthropic",
        {| Settings.fallbackValue := JS.VStr "sk-user-anthropic";
           Settings.fallbackEncryptionType := "electron-safe-storage" |}) ].
Proof. vm_compute. reflexivity. Qed.

(** ** Retry logic *)

Section RetryFacts.
Context {W T X : Type}.
Variable numberToString : Q -> string.
Variable operation : W -> result JS.value T * W.
Variable onRetry : option (nat -> JS.value -> W -> result X unit * W).

(** The loop entered at [attempt] with [remaining] iterations to go: it
    stops at the first success or at the first failure on which the
    callback throws, and otherwise throws after the operation has failed
    in every remaining iteration; each failure but the one that ends the
    run is followed by its backoff sleep. *)
Lemma retryLoop_trace (remaining attempt : nat) (lastError : JS.value)
    (trace : list RetryLogic.Event) (w : W) :
  (attempt + remaining = S RetryLogic.MAX_RETRIES)%nat ->
  (1 <= remaining)%nat ->
  let run := RetryLogic.retryLoop numberToString operation onRetry remaining
               attempt lastError trace w in
  match run.1 with
  | Ok _ =>
      exists errors,
        (length errors < remaining)%nat /\
        run.2.1 = trace ++ RetryLogic.backoffFrom attempt errors None
  | Throw (RetryLogic.FromCallback x) =>
      exists errors last callback w1,
        (length errors < remaining)%nat /\
        run.2.1 = trace ++ RetryLogic.backoffFrom attempt errors (Some last) /\
        onRetry = Some callback /\
        (callback (attempt + length errors)%nat last w1).1 = Throw x
  | Throw thrown =>
      exists errors last,
        S (length errors) = remaining /\
        run.2.1 = trace ++ RetryLogic.backoffFrom attempt errors (Some last) /\
        thrown = RetryLogic.failedAfter numberToString last
  end.
Proof.
  revert attempt lastError trace w.
  induction remaining as [|remaining IH]; intros attempt lastError trace w
    Hsum Hpos; [lia|].
  cbn [RetryLogic.retryLoop].
  destruct (operation w) as [[v|error] w1].
  - cbn. exists []. split; [simpl; lia|reflexivity].
  - destruct (RetryLogic.notify onRetry attempt error w1) as [[[]|x] w2] eqn:Hcb.
    + destruct (Nat.ltb_spec attempt RetryLogic.MAX_RETRIES) as [Hlt|Hge].
      * specialize (IH (S attempt) error
                       (trace ++ [RetryLogic.EvAttempt attempt (Some error);
                                  RetryLogic.EvSleep
                                    (RetryLogic.backoffDelay attempt)])
                       w2 ltac:(lia) ltac:(lia)).
        cbv zeta in IH.
        destruct (RetryLogic.retryLoop numberToString operation onRetry
                    remaining (S attempt) _ _ _)
          as [[v|[e| |x]] [trace' w']]; cbn in IH |- *.
        -- destruct IH as (errors & Hlen & ->).
           exists (error :: errors). split; [simpl; lia|].
           rewrite <- app_assoc. reflexivity.
        -- destruct IH as (errors & last & Hlen & -> & Hthrown).
           exists (error :: errors), last. split; [simpl; lia|].
           split; [|exact Hthrown]. rewrite <- app_assoc. reflexivity.
        -- destruct IH as (errors & last & Hlen & -> & Hthrown).
           exists (error :: errors), last. split; [simpl; lia|].
           split; [|exact Hthrown]. rewrite <- app_assoc. reflexivity.
        -- destruct IH as (errors & last & callback & w0 & Hlen & -> & Hon & Hx).
           exists (error :: errors), last, callback, w0.
           split; [simpl; lia|].
           split; [rewrite <- app_assoc; reflexivity|].
           split; [exact Hon|].
           cbn [length]. now replace (attempt + S (length errors))%nat
             with (S attempt + length errors)%nat by lia.
      * assert (remaining = 0)%nat as -> by lia.
        cbn [RetryLogic.retryLoop fst snd].
        destruct (RetryLogic.failedAfter numberToString error) as [e| |x] eqn:Hfa.
        -- exists [], error. repeat split. now rewrite Hfa.
        -- exists [], error. repeat split. now rewrite Hfa.
        -- unfold RetryLogic.failedAfter in Hfa.
           destruct (JS.prop error "message" ≫= JS.toString numberToString);
             discriminate.
    + cbn [fst snd]. unfold RetryLogic.notify in Hcb.
      destruct onRetry as [callback|]; [|discriminate].
      exists [], error, callback, w1. split; [simpl; lia|].
      split; [reflexivity|]. split; [reflexivity|].
      cbn [length]. rewrite Nat.add_0_r, Hcb. reflexivity.
Qed.

End RetryFacts.

Lemma sleepsOf_backoffFrom (attempt : nat)
    (errors : list JS.value) (final : option JS.value) :
  RetryLogic.sleepsOf (RetryLogic.backoffFrom attempt errors final)
  = map RetryLogic.backoffDelay (seq attempt (length errors)).
Proof.
  revert attempt. induction errors as [|e errors IH]; intros attempt; simpl.
  - reflexivity.
  - f_equal. apply IH.
Qed.

Lemma attemptsOf_backoffFrom (attempt : nat)
    (errors : list JS.value) (final : option JS.value) :
  RetryLogic.attemptsOf (RetryLogic.backoffFrom attempt errors final)
  = seq attempt (S (length errors)).
Proof.
  revert attempt. induction errors as [|e errors IH]; intros attempt; simpl.
  - reflexivity.
  - f_equal. apply IH.
Qed.

(** The delays are not capped: the ninth is 256 seconds. *)
Lemma backoffDelay_values :
  map RetryLogic.backoffDelay (seq 1 9)
  = [1000; 2000; 4000; 8000; 16000; 32000; 64000; 128000; 256000].
Proof. vm_compute. reflexivity. Qed.

(** The error thrown after the loop is a [VibeathonProxyError] when the
    message of the last value thrown can be read and turned into text, and
    a TypeError when it cannot. *)
Lemma failedAfter_cases {X : Type} (numberToString : Q -> string)
    (last : JS.value) :
  RetryLogic.failedAfter (X:=X) numberToString last
  = match JS.prop last "message" ≫= JS.toString numberToString with
    | Some text =>
        RetryLogic.ProxyError
          {| RetryLogic.proxyMessage := "Failed after 10 attempts: " +:+ text;
             RetryLogic.originalError := last |}
    | None => RetryLogic.TypeError
    end.
Proof. reflexivity. Qed.



(** A callback that throws on the third failure ends the run there: three
    attempts, two sleeps, and the value the callback threw. *)
Lemma executeWithRetry_callback_throws :
  RetryLogic.executeWithRetry integerText alwaysUnauthorized
    (Some (throwsAt 3)) ()
  = (Throw (RetryLogic.FromCallback "settings file locked"),
     (RetryLogic.backoffTrace [unauthorized; unauthorized] (Some unauthorized),
      ())).
Proof. vm_compute. reflexivity. Qed.

(** A run whose tenth failure is a rejection with [null] throws a
    TypeError: there is no message to read. *)
Lemma executeWithRetry_null_rejection :
  (RetryLogic.executeWithRetry (X:=Empty_set) (T:=string) integerText
     (fun w : unit => (Throw JS.VNull, w)) None ()).1
  = Throw RetryLogic.TypeError.
Proof. vm_compute. reflexivity. Qed.

(** ** The model client factory *)

Section ModelClientFacts.
Context {N Client : Type}.
Variable numberToString : Q -> string.
Variable connect :
  ModelClient.LargeLanguageModel -> Settings.UserSettings -> option Z -> N ->
  result JS.value Client * N.
Variable createFallbackClient :
  ModelClient.LargeLanguageModel -> Settings.UserSettings ->
  result JS.value Client.
Variable clearProxyFailure :
  ModelClient.World N -> result JS.value unit * ModelClient.World N.
Variable dateNow : N -> Z.
Variable parseDate : string -> option Z.
Variable isoNow : N -> string.
Variable generateId : N -> string.
Variable extractUserIdFromSettings : Settings.UserSettings -> string.
Variable getCurrentMessageCount : N -> Z.
Variable standardClient :
  ModelClient.LargeLanguageModel -> Settings.UserSettings ->
  ModelClient.World N ->
  result ModelClient.GetModelClientError Client * ModelClient.World N.

Lemma useFallback_outside_bookkeeping (s1 s2 : Settings.UserSettings) :
  Settings.outsideRetryBookkeeping s1 = Settings.outsideRetryBookkeeping s2 ->
  Settings.proxySettingsOf s1 ≫= Settings.useFallback
  = Settings.proxySettingsOf s2 ≫= Settings.useFallback.
Proof.
  unfold Settings.outsideRetryBookkeeping. intros Heq.
  injection Heq as _ _ _ _ _ _ _ _ _ Huf _. exact Huf.
Qed.

Lemma fallbackApiKeys_outside_bookkeeping (s1 s2 : Settings.UserSettings) :
  Settings.outsideRetryBookkeeping s1 = Settings.outsideRetryBookkeeping s2 ->
  Settings.proxySettingsOf s1 ≫= Settings.fallbackApiKeys
  = Settings.proxySettingsOf s2 ≫= Settings.fallbackApiKeys.
Proof.
  unfold Settings.outsideRetryBookkeeping. intros Heq.
  injection Heq as _ _ _ _ _ _ _ Hkeys _ _ _. exact Hkeys.
Qed.

Lemma proxyIsRoute_outside_bookkeeping (s1 s2 : Settings.UserSettings) :
  Settings.outsideRetryBookkeeping s1 = Settings.outsideRetryBookkeeping s2 ->
  ModelClient.proxyIsRoute s1 = ModelClient.proxyIsRoute s2.
Proof.
  unfold Settings.outsideRetryBookkeeping, ModelClient.proxyIsRoute,
    Settings.proxySettingsOf. intros Heq.
  injection Heq as _ _ _ _ _ Hen _ _ _ Huf _. now rewrite Hen, Huf.
Qed.

Lemma updateRetryCount_frame (attempt : nat) (st : Settings.UserSettings) :
  Settings.outsideRetryBookkeeping (ModelClient.updateRetryCount attempt st)
  = Settings.outsideRetryBookkeeping st.
Proof.
  unfold ModelClient.updateRetryCount, Settings.outsideRetryBookkeeping,
    Settings.proxySettingsOf, Settings.writeSettings, Settings.readSettings.
  destruct st as [[dm|] other]; simpl; reflexivity.
Qed.

Lemma updateRetryCount_lastFailure (attempt : nat)
    (st : Settings.UserSettings) :
  Settings.proxySettingsOf (ModelClient.updateRetryCount attempt st)
    ≫= Settings.lastFailure
  = Settings.proxySettingsOf st ≫= Settings.lastFailure.
Proof.
  unfold ModelClient.updateRetryCount, Settings.proxySettingsOf,
    Settings.writeSettings, Settings.readSettings.
  destruct st as [[dm|] other]; simpl; reflexivity.
Qed.

Lemma retriedStore_frame (failures attempt : nat)
    (st : Settings.UserSettings) :
  Settings.outsideRetryBookkeeping
    (ModelClient.retriedStore attempt failures st)
  = Settings.outsideRetryBookkeeping st /\
  Settings.proxySettingsOf (ModelClient.retriedStore attempt failures st)
    ≫= Settings.lastFailure
  = Settings.proxySettingsOf st ≫= Settings.lastFailure.
Proof.
  revert attempt st. induction failures as [|failures IH]; intros attempt st;
    cbn [ModelClient.retriedStore]; [auto|].
  destruct (IH (S attempt) (ModelClient.updateRetryCount attempt st))
    as (Hframe & Hlast).
  rewrite Hframe, Hlast, updateRetryCount_frame, updateRetryCount_lastFailure.
  auto.
Qed.

Lemma markProxyFailed_store (w : ModelClient.World N) :
  let w' := ModelClient.markProxyFailed isoNow w in
  Settings.outsideRetryBookkeeping (ModelClient.store w')
  = Settings.outsideRetryBookkeeping (ModelClient.store w) /\
  Settings.proxySettingsOf (ModelClient.store w') ≫= Settings.retryCount
  = Some 0 /\
  Settings.proxySettingsOf (ModelClient.store w') ≫= Settings.lastFailure
  = Some (isoNow (ModelClient.outside w)) /\
  ModelClient.failedRequests w' = ModelClient.failedRequests w /\
  ModelClient.outside w' = ModelClient.outside w.
Proof.
  unfold ModelClient.markProxyFailed, Settings.outsideRetryBookkeeping,
    Settings.proxySettingsOf, Settings.writeSettings, Settings.readSettings.
  destruct w as [[[dm|] other] rows writable n]; simpl; repeat split.
Qed.

(** The retry loop on a proxy that rejects [errors] and then answers:
    the client is returned after a backoff sleep for each rejection. *)
Lemma retryLoop_succeeds (model : ModelClient.LargeLanguageModel)
    (settings : Settings.UserSettings) (errors : list JS.value) :
  forall (remaining attempt : nat) (lastError : JS.value)
         (trace : list RetryLogic.Event) (w : ModelClient.World N)
         (n1 n2 : N) (client : Client),
  ModelClient.failsWith connect model settings errors
    (ModelClient.outside w) n1 ->
  connect model settings None n1 = (Ok client, n2) ->
  (length errors < remaining)%nat ->
  (attempt + remaining = S RetryLogic.MAX_RETRIES)%nat ->
  RetryLogic.retryLoop numberToString
    (ModelClient.proxyOperation connect model settings)
    (Some ModelClient.onProxyRetry) remaining attempt lastError trace w
  = (Ok client,
     (trace ++ RetryLogic.backoffFrom attempt errors None,
      {| ModelClient.store :=
           ModelClient.retriedStore attempt (length errors)
             (ModelClient.store w);
         ModelClient.failedRequests := ModelClient.failedRequests w;
         ModelClient.dbWritable := ModelClient.dbWritable w;
         ModelClient.outside := n2 |})).
Proof.
  induction errors as [|e errors IH];
    intros remaining attempt lastError trace w n1 n2 client Hfails Hok Hlen
      Hsum;
    (destruct remaining as [|remaining]; [simpl in Hlen; lia|]);
    cbn [RetryLogic.retryLoop]; unfold ModelClient.proxyOperation.
  - cbn in Hfails. subst n1. rewrite Hok. reflexivity.
  - cbn [ModelClient.failsWith] in Hfails.
    destruct Hfails as (n' & Hconnect & Hfails). rewrite Hconnect.
    cbn [RetryLogic.notify ModelClient.onProxyRetry].
    cbn [length] in Hlen.
    destruct (Nat.ltb_spec attempt RetryLogic.MAX_RETRIES) as [_|Hge]; [|lia].
    rewrite (IH remaining (S attempt) e _ _ n1 n2 client); cbn; try lia;
      try assumption.
    rewrite <- app_assoc. reflexivity.
Qed.

(** The retry loop on a proxy that rejects every remaining attempt. *)
Lemma retryLoop_exhausts (model : ModelClient.LargeLanguageModel)
    (settings : Settings.UserSettings) (errors : list JS.value) :
  forall (remaining attempt : nat) (lastError : JS.value)
         (trace : list RetryLogic.Event) (w : ModelClient.World N)
         (n' : N) (last : JS.value),
  ModelClient.failsWith connect model settings (errors ++ [last])
    (ModelClient.outside w) n' ->
  S (length errors) = remaining ->
  (attempt + remaining = S RetryLogic.MAX_RETRIES)%nat ->
  RetryLogic.retryLoop numberToString
    (ModelClient.proxyOperation connect model settings)
    (Some ModelClient.onProxyRetry) remaining attempt lastError trace w
  = (Throw (RetryLogic.failedAfter numberToString last),
     (trace ++ RetryLogic.backoffFrom attempt errors (Some last),
      {| ModelClient.store :=
           ModelClient.retriedStore attempt (S (length errors))
             (ModelClient.store w);
         ModelClient.failedRequests := ModelClient.failedRequests w;
         ModelClient.dbWritable := ModelClient.dbWritable w;
         ModelClient.outside := n' |})).
Proof.
  induction errors as [|e errors IH];
    intros remaining attempt lastError trace w n' last Hfails Hlen Hsum;
    subst remaining; cbn [length] in Hsum;
    cbn [RetryLogic.retryLoop]; unfold ModelClient.proxyOperation;
    cbn [app ModelClient.failsWith] in Hfails;
    destruct Hfails as (n1 & Hconnect & Hfails); rewrite Hconnect;
    cbn [RetryLogic.notify ModelClient.onProxyRetry].
  - cbn in Hfails. subst n1.
    destruct (Nat.ltb_spec attempt RetryLogic.MAX_RETRIES) as [Hlt|_];
      [unfold RetryLogic.MAX_RETRIES in *; lia|].
    reflexivity.
  - destruct (Nat.ltb_spec attempt RetryLogic.MAX_RETRIES) as [_|Hge];
      [|unfold RetryLogic.MAX_RETRIES in *; lia].
    rewrite (IH (S (length errors)) (S attempt) e _ _ n' last); cbn;
      try lia; try assumption; try reflexivity.
    rewrite <- app_assoc. reflexivity.
Qed.

(** A request whose ten connections are all rejected ends in the [catch]
    block of [getModelClient], with the error the retry manager threw. *)
Lemma getModelClient_exhausted_eq (model : ModelClient.LargeLanguageModel)
    (settings : Settings.UserSettings) (w : ModelClient.World N)
    (errors : list JS.value) (last : JS.value) (n' : N) :
  ModelClient.proxyIsRoute settings = true ->
  ModelClient.failedRecently dateNow parseDate settings (ModelClient.outside w)
  = false ->
  ModelClient.failsWith connect model settings (errors ++ [last])
    (ModelClient.outside w) n' ->
  S (length errors) = RetryLogic.MAX_RETRIES ->
  ModelClient.getModelClient numberToString connect createFallbackClient
    clearProxyFailure dateNow parseDate isoNow generateId
    extractUserIdFromSettings getCurrentMessageCount standardClient
    model settings w
  = (ModelClient.onRetryFailure isoNow generateId extractUserIdFromSettings
       getCurrentMessageCount model settings
       (RetryLogic.failedAfter numberToString last)
       {| ModelClient.store :=
            ModelClient.retriedStore 1 (S (length errors))
              (ModelClient.store w);
          ModelClient.failedRequests := ModelClient.failedRequests w;
          ModelClient.dbWritable := ModelClient.dbWritable w;
          ModelClient.outside := n' |},
     RetryLogic.backoffTrace errors (Some last)).
Proof.
  intros Hroute Hrecent Hfails Hlen.
  unfold ModelClient.getModelClient. rewrite Hroute, Hrecent.
  unfold RetryLogic.executeWithRetry.
  rewrite (retryLoop_exhausts model settings errors RetryLogic.MAX_RETRIES 1
             JS.VUndefined [] w n' last Hfails Hlen eq_refl).
  reflexivity.
Qed.

(** C2 (amended): on a request with no proxy failure recorded in the last
    five minutes, whose ten connections are all rejected, the last one
    with a value whose message can be read, [getModelClient] throws
    [ProxyFailureRequiresUserAction] after the ten attempts, whether or not
    a fallback credential is stored.  It has then written one row of
    metadata to the table of failed requests (none when the insert fails),
    set [lastFailure] to the current time and [retryCount] to 0, and left
    everything else in the settings, [useFallback] and the fallback
    credentials among it, as it was. *)
Theorem getModelClient_on_exhaustion (model : ModelClient.LargeLanguageModel)
    (settings : Settings.UserSettings) (w : ModelClient.World N)
    (errors : list JS.value) (last : JS.value) (n' : N) (text : string) :
  ModelClient.proxyIsRoute settings = true ->
  ModelClient.failedRecently dateNow parseDate settings (ModelClient.outside w)
  = false ->
  ModelClient.failsWith connect model settings (errors ++ [last])
    (ModelClient.outside w) n' ->
  S (length errors) = RetryLogic.MAX_RETRIES ->
  JS.prop last "message" ≫= JS.toString numberToString = Some text ->
  let out :=
    ModelClient.getModelClient numberToString connect createFallbackClient
      clearProxyFailure dateNow parseDate isoNow generateId
      extractUserIdFromSettings getCurrentMessageCount standardClient
      model settings w in
  let w' := out.1.2 in
  let message := "Failed after 10 attempts: " +:+ text in
  out.1.1 = Throw (ModelClient.ProxyFailureRequiresUserAction message) /\
  out.2 = RetryLogic.backoffTrace errors (Some last) /\
  Settings.outsideRetryBookkeeping (ModelClient.store w')
  = Settings.outsideRetryBookkeeping (ModelClient.store w) /\
  Settings.proxySettingsOf (ModelClient.store w') ≫= Settings.useFallback
  = Settings.proxySettingsOf (ModelClient.store w) ≫= Settings.useFallback /\
  Settings.proxySettingsOf (ModelClient.store w') ≫= Settings.fallbackApiKeys
  = Settings.proxySettingsOf (ModelClient.store w)
      ≫= Settings.fallbackApiKeys /\
  Settings.proxySettingsOf (ModelClient.store w') ≫= Settings.retryCount
  = Some 0 /\
  Settings.proxySettingsOf (ModelClient.store w') ≫= Settings.lastFailure
  = Some (isoNow n') /\
  ModelClient.outside w' = n' /\
  ModelClient.failedRequests w'
  = ModelClient.failedRequests w
    ++ (if ModelClient.dbWritable w then
          [ {| ModelClient.rowId := generateId n';
               ModelClient.rowUserId := extractUserIdFromSettings settings;
               ModelClient.rowRequestData :=
                 [ ("model", JS.VStr (ModelClient.modelName model));
                   ("provider", JS.VStr (ModelClient.modelProvider model));
                   ("timestamp", JS.VStr (isoNow n'));
                   ("messageCount",
                     JS.VNum (inject_Z (getCurrentMessageCount n'))) ];
               ModelClient.rowTimestamp := isoNow n';
               ModelClient.rowRetryCount := 0;
               ModelClient.rowSynced := false;
               ModelClient.rowError := message |} ]
        else []).
Proof.
  intros Hroute Hrecent Hfails Hlen Htext out w' message. subst w' out message.
  rewrite (getModelClient_exhausted_eq model settings w errors last n'
             Hroute Hrecent Hfails Hlen).
  rewrite failedAfter_cases, Htext.
  cbn [ModelClient.onRetryFailure RetryLogic.proxyMessage fst snd app].
  match goal with
  | |- context [ModelClient.markProxyFailed isoNow ?w2] =>
      pose proof (markProxyFailed_store w2) as Hmark; cbv zeta in Hmark;
      destruct Hmark as (Hmst & Hmretry & Hmlast & Hmrows & Hmout)
  end.
  destruct (retriedStore_frame (S (length errors)) 1 (ModelClient.store w))
    as (Hframe & _).
  unfold ModelClient.logFailedRequest in *.
  cbn [ModelClient.dbWritable ModelClient.outside ModelClient.store
       ModelClient.failedRequests] in *.
  destruct (ModelClient.dbWritable w);
    cbn [ModelClient.dbWritable ModelClient.outside ModelClient.store
         ModelClient.failedRequests] in *;
    rewrite Hframe in Hmst;
    rewrite Hmretry, Hmlast, Hmrows, Hmout;
    (split; [reflexivity|]); (split; [reflexivity|]);
    (split; [exact Hmst|]);
    (split; [now apply useFallback_outside_bookkeeping|]);
    (split; [now apply fallbackApiKeys_outside_bookkeeping|]);
    repeat split; now rewrite ?app_nil_r.
Qed.

End ModelClientFacts.

Lemma getModelClient_on_exhaustion_witness :
  getModelClientWhenDown.1.1
  = Throw (ModelClient.ProxyFailureRequiresUserAction
             "Failed after 10 attempts: fetch failed") /\
  Settings.proxySettingsOf (ModelClient.store getModelClientWhenDown.1.2)
    ≫= Settings.retryCount = Some 0 /\
  Settings.proxySettingsOf (ModelClient.store getModelClientWhenDown.1.2)
    ≫= Settings.lastFailure = Some "2025-09-23T12:00:00.000Z".
Proof.
  pose proof (getModelClient_on_exhaustion integerText proxyDown
                planFallbackClient clearLastFailure (fun _ => noon)
                sampleParseDate
                (fun _ => "2025-09-23T12:00:00.000Z") (fun _ => "req-1")
                (fun _ => "user-1") (fun _ => 3)
                (fun _ _ w => (Ok "standard", w))
                gpt4o configuredStoreAfterFetch fallbackReadyWorld
                (replicate 9 networkDown) networkDown 10%nat "fetch failed"
                eq_refl eq_refl) as H.
  assert (Hfails : ModelClient.failsWith proxyDown gpt4o
                     configuredStoreAfterFetch
                     (replicate 9 networkDown ++ [networkDown])
                     (ModelClient.outside fallbackReadyWorld) 10%nat).
  { cbn. repeat (eexists; split; [reflexivity|]). reflexivity. }
  specialize (H Hfails eq_refl eq_refl).
  cbv zeta in H.
  destruct H as (Hthrow & _ & _ & _ & _ & Hretry & Hlast & _).
  split; [exact Hthrow|]. split; [exact Hretry | exact Hlast].
Defined.

(** C2 as stated fails with a fallback credential for the provider of the
    model in the store: after ten failed attempts the call throws instead
    of returning a client, [useFallback] is still [false] and the retry
    count is 0. *)
Lemma getModelClient_exhausted_with_fallback_credential :
  is_Some (Settings.fallbackCredential configuredStoreAfterFetch "openai") /\
  length (RetryLogic.attemptsOf getModelClientWhenDown.2) = 10%nat /\
  getModelClientWhenDown.1.1
  = Throw (ModelClient.ProxyFailureRequiresUserAction
             "Failed after 10 attempts: fetch failed") /\
  Settings.proxySettingsOf (ModelClient.store getModelClientWhenDown.1.2)
    ≫= Settings.useFallback = Some false /\
  Settings.proxySettingsOf (ModelClient.store getModelClientWhenDown.1.2)
    ≫= Settings.retryCount = Some 0 /\
  length (ModelClient.failedRequests getModelClientWhenDown.1.2) = 1%nat.
Proof.
  split; [eexists; vm_compute; reflexivity|].
  repeat split; vm_compute; reflexivity.
Qed.

(** Fallback mode is entered by the explicit toggle, which also resets the
    retry count. *)
Lemma toggleFallbackMode_sets (useFallback : bool)
    (store : Settings.UserSettings) :
  let store' := SettingsHandlers.toggleFallbackMode useFallback store in
  Settings.proxySettingsOf store' ≫= Settings.useFallback = Some useFallback /\
  Settings.proxySettingsOf store' ≫= Settings.retryCount = Some 0.
Proof.
  unfold SettingsHandlers.toggleFallbackMode, Settings.proxySettingsOf,
    Settings.writeSettings. simpl. auto.
Qed.

(** ** Further properties of the retry manager *)

Lemma backoffDelay_doubles (attempt : nat) :
  (1 <= attempt)%nat ->
  RetryLogic.backoffDelay (S attempt) = 2 * RetryLogic.backoffDelay attempt.
Proof.
  intros Hpos. unfold RetryLogic.backoffDelay.
  replace (Z.of_nat (S attempt) - 1) with (Z.succ (Z.of_nat attempt - 1)) by lia.
  rewrite Z.pow_succ_r by lia. lia.
Qed.

Lemma sum_backoffDelay (attempt failures : nat) :
  (1 <= attempt)%nat ->
  fold_right Z.add 0 (map RetryLogic.backoffDelay (seq attempt failures))
  = RetryLogic.backoffDelay attempt * (2 ^ Z.of_nat failures - 1).
Proof.
  revert attempt. induction failures as [|failures IH]; intros attempt Hpos.
  - simpl. lia.
  - cbn [seq map fold_right]. rewrite IH by lia.
    rewrite backoffDelay_doubles by exact Hpos.
    replace (Z.of_nat (S failures)) with (Z.succ (Z.of_nat failures)) by lia.
    rewrite Z.pow_succ_r by lia. lia.
Qed.

Lemma totalSleep_backoffTrace (errors : list JS.value)
    (final : option JS.value) :
  (length errors < RetryLogic.MAX_RETRIES)%nat ->
  length (RetryLogic.sleepsOf (RetryLogic.backoffTrace errors final))
  = length errors /\
  totalSleep (RetryLogic.backoffTrace errors final)
  = 1000 * (2 ^ Z.of_nat (length errors) - 1) /\
  totalSleep (RetryLogic.backoffTrace errors final) <= 511000.
Proof.
  intros Hlen. unfold totalSleep, RetryLogic.backoffTrace.
  rewrite sleepsOf_backoffFrom, sum_backoffDelay, length_map, length_seq
    by lia.
  change (RetryLogic.backoffDelay 1) with 1000.
  unfold RetryLogic.MAX_RETRIES in *. repeat split; try lia.
  assert (2 ^ Z.of_nat (length errors) <= 2 ^ 9)
    by (apply Z.pow_le_mono_r; lia). lia.
Qed.

(** X1: whatever the operation and the callback do, a run of
    [executeWithRetry] sleeps after at most nine failures, for
    [1000 * (2^k - 1)] ms in total after [k] of them, hence never more
    than 511 seconds. *)
Theorem executeWithRetry_total_sleep {W T X : Type}
    (numberToString : Q -> string)
    (operation : W -> result JS.value T * W)
    (onRetry : option (nat -> JS.value -> W -> result X unit * W)) (w : W) :
  let trace :=
    (RetryLogic.executeWithRetry numberToString operation onRetry w).2.1 in
  exists k : nat,
    (k < RetryLogic.MAX_RETRIES)%nat /\
    length (RetryLogic.sleepsOf trace) = k /\
    totalSleep trace = 1000 * (2 ^ Z.of_nat k - 1) /\
    totalSleep trace <= 511000.
Proof.
  intros trace. subst trace. unfold RetryLogic.executeWithRetry.
  pose proof (retryLoop_trace numberToString operation onRetry
                RetryLogic.MAX_RETRIES 1 JS.VUndefined [] w eq_refl
                ltac:(unfold RetryLogic.MAX_RETRIES; lia)) as Hloop.
  cbv zeta in Hloop.
  destruct (RetryLogic.retryLoop numberToString operation onRetry
              RetryLogic.MAX_RETRIES 1 JS.VUndefined [] w)
    as [[v|[e| |x]] [trace w']]; cbn in Hloop |- *.
  - destruct Hloop as (errors & Hlen & ->). exists (length errors).
    split; [exact Hlen|]. now apply totalSleep_backoffTrace.
  - destruct Hloop as (errors & last & Hlen & -> & _). exists (length errors).
    split; [unfold RetryLogic.MAX_RETRIES in *; lia|].
    apply totalSleep_backoffTrace. unfold RetryLogic.MAX_RETRIES in *; lia.
  - destruct Hloop as (errors & last & Hlen & -> & _). exists (length errors).
    split; [unfold RetryLogic.MAX_RETRIES in *; lia|].
    apply totalSleep_backoffTrace. unfold RetryLogic.MAX_RETRIES in *; lia.
  - destruct Hloop as (errors & last & callback & w1 & Hlen & -> & _).
    exists (length errors). split; [exact Hlen|].
    now apply totalSleep_backoffTrace.
Qed.

Lemma failuresOf_app (t1 t2 : list RetryLogic.Event) :
  failuresOf (t1 ++ t2) = failuresOf t1 ++ failuresOf t2.
Proof. unfold failuresOf. apply flat_map_app. Qed.

Lemma retryLoop_records {St T : Type} (numberToString : Q -> string)
    (op : St -> result JS.value T * St)
    (remaining attempt : nat) (lastError : JS.value)
    (trace : list RetryLogic.Event)
    (w : St * list (nat * JS.value))
    (before : list (nat * JS.value)) :
  w.2 = before ++ failuresOf trace ->
  let run := RetryLogic.retryLoop numberToString (besideRecord op)
               (Some recordRetry) remaining attempt lastError trace w in
  run.2.2.2 = before ++ failuresOf run.2.1.
Proof.
  revert attempt lastError trace w.
  induction remaining as [|remaining IH]; intros attempt lastError trace w Hw;
    cbn [RetryLogic.retryLoop]; cbv zeta.
  - exact Hw.
  - assert (Hb : (besideRecord op w).2.2 = w.2)
      by (unfold besideRecord; destruct (op w.1); reflexivity).
    destruct (besideRecord op w) as [[v|error] w1]; cbn [fst snd] in Hb |- *.
    + rewrite failuresOf_app, Hb, Hw. cbn. now rewrite app_nil_r.
    + cbn [RetryLogic.notify recordRetry].
      destruct (attempt <? RetryLogic.MAX_RETRIES)%nat; apply IH;
        cbn [fst snd];
        rewrite failuresOf_app, Hb, Hw, <- app_assoc; reflexivity.
Qed.

Lemma length_failuresOf_backoffFrom (attempt : nat)
    (errors : list JS.value) (final : option JS.value) :
  length (failuresOf (RetryLogic.backoffFrom attempt errors final))
  = (length errors + match final with Some _ => 1 | None => 0 end)%nat.
Proof.
  revert attempt. induction errors as [|e errors IH]; intros attempt.
  - destruct final; reflexivity.
  - cbn [RetryLogic.backoffFrom]. unfold failuresOf in *.
    cbn [flat_map app length]. now rewrite IH.
Qed.

(** X2: the retry callback is called once for every failed attempt, the
    last one included, with the attempt number and the value thrown by
    that attempt, in order; it is not called for a successful attempt. *)
Theorem executeWithRetry_callback_per_failure {St T : Type}
    (numberToString : Q -> string)
    (op : St -> result JS.value T * St) (s : St) :
  let run := RetryLogic.executeWithRetry numberToString (besideRecord op)
               (Some recordRetry) (s, []) in
  run.2.2.2 = failuresOf run.2.1 /\
  length run.2.2.2
  = (if is_ok run.1 then length (RetryLogic.sleepsOf run.2.1)
     else S (length (RetryLogic.sleepsOf run.2.1))).
Proof.
  intros run. subst run. unfold RetryLogic.executeWithRetry.
  pose proof (retryLoop_records numberToString op RetryLogic.MAX_RETRIES 1
                JS.VUndefined [] (s, []) [] eq_refl) as Hrec.
  pose proof (retryLoop_trace numberToString (besideRecord op)
                (Some recordRetry)
                RetryLogic.MAX_RETRIES 1 JS.VUndefined [] (s, []) eq_refl
                ltac:(unfold RetryLogic.MAX_RETRIES; lia)) as Hloop.
  cbv zeta in Hrec, Hloop.
  destruct (RetryLogic.retryLoop numberToString (besideRecord op)
              (Some recordRetry)
              RetryLogic.MAX_RETRIES 1 JS.VUndefined [] (s, []))
    as [[v|[e| |[]]] [trace w']]; cbn in Hrec, Hloop |- *; rewrite Hrec;
    (split; [reflexivity|]).
  - destruct Hloop as (errors & _ & ->). cbn [app].
    rewrite sleepsOf_backoffFrom, length_map, length_seq.
    rewrite length_failuresOf_backoffFrom. lia.
  - destruct Hloop as (errors & last & _ & -> & _). cbn [app].
    rewrite sleepsOf_backoffFrom, length_map, length_seq.
    rewrite length_failuresOf_backoffFrom. lia.
  - destruct Hloop as (errors & last & _ & -> & _). cbn [app].
    rewrite sleepsOf_backoffFrom, length_map, length_seq.
    rewrite length_failuresOf_backoffFrom. lia.
Qed.

(** ** Further properties of the model client factory *)

Section ModelClientRouting.
Context {N Client : Type}.
Variable numberToString : Q -> string.
Variable connect :
  ModelClient.LargeLanguageModel -> Settings.UserSettings -> option Z -> N ->
  result JS.value Client * N.
Variable createFallbackClient :
  ModelClient.LargeLanguageModel -> Settings.UserSettings ->
  result JS.value Client.
Variable clearProxyFailure :
  ModelClient.World N -> result JS.value unit * ModelClient.World N.
Variable dateNow : N -> Z.
Variable parseDate : string -> option Z.
Variable isoNow : N -> string.
Variable generateId : N -> string.
Variable extractUserIdFromSettings : Settings.UserSettings -> string.
Variable getCurrentMessageCount : N -> Z.
Variable standardClient :
  ModelClient.LargeLanguageModel -> Settings.UserSettings ->
  ModelClient.World N ->
  result ModelClient.GetModelClientError Client * ModelClient.World N.

(** X3: on a request with no proxy failure recorded in the last five
    minutes, when the proxy rejects fewer than ten connections and then
    answers, [getModelClient] returns the client of that connection after
    one backoff sleep for each rejection and writes no failed-request
    record; the settings outside the retry bookkeeping, [useFallback]
    among them, and the time of the last failure are as before. *)
Theorem getModelClient_success_keeps_ledger
    (model : ModelClient.LargeLanguageModel)
    (settings : Settings.UserSettings) (w : ModelClient.World N)
    (errors : list JS.value) (n1 n2 : N) (client : Client) :
  ModelClient.proxyIsRoute settings = true ->
  ModelClient.failedRecently dateNow parseDate settings (ModelClient.outside w)
  = false ->
  ModelClient.failsWith connect model settings errors
    (ModelClient.outside w) n1 ->
  (length errors < RetryLogic.MAX_RETRIES)%nat ->
  connect model settings None n1 = (Ok client, n2) ->
  let out :=
    ModelClient.getModelClient numberToString connect createFallbackClient
      clearProxyFailure dateNow parseDate isoNow generateId
      extractUserIdFromSettings getCurrentMessageCount standardClient
      model settings w in
  out.1.1 = Ok client /\
  out.2 = RetryLogic.backoffTrace errors None /\
  ModelClient.failedRequests out.1.2 = ModelClient.failedRequests w /\
  Settings.outsideRetryBookkeeping (ModelClient.store out.1.2)
  = Settings.outsideRetryBookkeeping (ModelClient.store w) /\
  Settings.proxySettingsOf (ModelClient.store out.1.2) ≫= Settings.lastFailure
  = Settings.proxySettingsOf (ModelClient.store w) ≫= Settings.lastFailure /\
  ModelClient.outside out.1.2 = n2.
Proof.
  intros Hroute Hrecent Hfails Hlen Hok out. subst out.
  unfold ModelClient.getModelClient. rewrite Hroute, Hrecent.
  unfold RetryLogic.executeWithRetry.
  rewrite (retryLoop_succeeds numberToString connect model settings errors
             RetryLogic.MAX_RETRIES 1 JS.VUndefined [] w n1 n2 client
             Hfails Hok Hlen eq_refl).
  cbn [fst snd app ModelClient.failedRequests ModelClient.store
       ModelClient.outside].
  destruct (retriedStore_frame (length errors) 1 (ModelClient.store w))
    as (Hframe & Hlast).
  repeat split; assumption.
Qed.

(** X4: once fallback mode has been switched on, [getModelClient] called
    with the stored settings makes no attempt on the proxy and leaves the
    request to the rest of the factory. *)
Theorem getModelClient_after_toggle_skips_proxy
    (model : ModelClient.LargeLanguageModel)
    (store : Settings.UserSettings) (w : ModelClient.World N) :
  let settings :=
    Settings.readSettings (SettingsHandlers.toggleFallbackMode true store) in
  ModelClient.getModelClient numberToString connect createFallbackClient
    clearProxyFailure dateNow parseDate isoNow generateId
    extractUserIdFromSettings getCurrentMessageCount standardClient
    model settings w
  = (standardClient model settings w, []).
Proof.
  intros settings. unfold ModelClient.getModelClient.
  assert (Hroute : ModelClient.proxyIsRoute settings = false).
  { subst settings. unfold ModelClient.proxyIsRoute, Settings.readSettings,
      SettingsHandlers.toggleFallbackMode, Settings.writeSettings.
    destruct store as [[dm|] other]; simpl;
      [destruct (Settings.proxySettings dm) as [ps|]; simpl;
       [destruct (Settings.enabled ps) as [[]|]|]|]; reflexivity. }
  rewrite Hroute. destruct (standardClient model settings w); reflexivity.
Qed.

(** X27: a request made within five minutes of an exhausted one does not
    run the retry manager again.  It makes one connection with a timeout
    of two seconds and, when that one is rejected too, returns what
    [createFallbackClient] gives for the stored settings: no backoff, no
    failed-request record, no error for the user, and the store as the
    exhausted request left it. *)
Theorem getModelClient_silent_after_exhaustion
    (model : ModelClient.LargeLanguageModel) (w : ModelClient.World N)
    (errors : list JS.value) (last : JS.value) (n' : N) (text : string)
    (n2 n3 : N) (e : JS.value) :
  let settings := Settings.readSettings (ModelClient.store w) in
  ModelClient.proxyIsRoute settings = true ->
  ModelClient.failedRecently dateNow parseDate settings (ModelClient.outside w)
  = false ->
  ModelClient.failsWith connect model settings (errors ++ [last])
    (ModelClient.outside w) n' ->
  S (length errors) = RetryLogic.MAX_RETRIES ->
  JS.prop last "message" ≫= JS.toString numberToString = Some text ->
  let w1 :=
    (ModelClient.getModelClient numberToString connect createFallbackClient
       clearProxyFailure dateNow parseDate isoNow generateId
       extractUserIdFromSettings getCurrentMessageCount standardClient
       model settings w).1.2 in
  let settings' := Settings.readSettings (ModelClient.store w1) in
  isoNow n' <> "" ->
  parseDate (isoNow n') = Some (dateNow n') ->
  dateNow n2 - 5 * 60 * 1000 < dateNow n' ->
  connect model settings' (Some 2000) n2 = (Throw e, n3) ->
  ModelClient.getModelClient numberToString connect createFallbackClient
    clearProxyFailure dateNow parseDate isoNow generateId
    extractUserIdFromSettings getCurrentMessageCount standardClient
    model settings' (ModelClient.withOutside w1 n2)
  = (ModelClient.fallbackClient createFallbackClient model settings',
     ModelClient.withOutside w1 n3, []).
Proof.
  intros settings Hroute Hrecent Hfails Hlen Htext w1 settings' Hiso Hparse
    Hwithin Hquick.
  subst settings' w1.
  rewrite (getModelClient_exhausted_eq numberToString connect
             createFallbackClient clearProxyFailure dateNow parseDate isoNow
             generateId extractUserIdFromSettings getCurrentMessageCount
             standardClient model settings w errors last n'
             Hroute Hrecent Hfails Hlen) in *.
  rewrite failedAfter_cases, Htext in *.
  cbn [ModelClient.onRetryFailure RetryLogic.proxyMessage fst snd] in *.
  match goal with
  | |- context [ModelClient.markProxyFailed isoNow ?w2] =>
      pose proof (markProxyFailed_store isoNow w2) as Hmark;
      cbv zeta in Hmark;
      destruct Hmark as (Hmst & _ & Hmlast & _ & Hmout);
      set (w3 := ModelClient.markProxyFailed isoNow w2) in *
  end.
  assert (Hstore : Settings.outsideRetryBookkeeping (ModelClient.store w3)
                   = Settings.outsideRetryBookkeeping (ModelClient.store w)).
  { rewrite Hmst. unfold ModelClient.logFailedRequest.
    cbn [ModelClient.dbWritable ModelClient.store].
    destruct (ModelClient.dbWritable w); cbn [ModelClient.store];
      apply retriedStore_frame. }
  assert (Hlast : Settings.proxySettingsOf (ModelClient.store w3)
                    ≫= Settings.lastFailure = Some (isoNow n')).
  { rewrite Hmlast. unfold ModelClient.logFailedRequest.
    cbn [ModelClient.dbWritable ModelClient.outside].
    destruct (ModelClient.dbWritable w); reflexivity. }
  unfold Settings.readSettings in *.
  unfold ModelClient.getModelClient.
  rewrite (proxyIsRoute_outside_bookkeeping _ _ Hstore). fold settings.
  rewrite Hroute.
  unfold ModelClient.failedRecently. rewrite Hlast, Hparse.
  cbn [ModelClient.withOutside ModelClient.outside].
  destruct (String.eqb_spec (isoNow n') "") as [Hempty|_]; [contradiction|].
  destruct (Z.ltb_spec (dateNow n2 - 5 * 60 * 1000) (dateNow n')) as [_|Hge];
    [|lia].
  cbn [negb andb]. unfold ModelClient.silentFallback.
  cbn [ModelClient.withOutside ModelClient.outside ModelClient.store
       ModelClient.failedRequests ModelClient.dbWritable].
  rewrite Hquick. reflexivity.
Qed.

(** X28: when the tenth connection is rejected with a value from which no
    message can be read ([null], [undefined]), the error of the retry
    manager is a TypeError and not a [VibeathonProxyError]:
    [getModelClient] throws it on, writes no failed-request record and
    does not record the time of the failure. *)
Theorem getModelClient_unreadable_rejection
    (model : ModelClient.LargeLanguageModel)
    (settings : Settings.UserSettings) (w : ModelClient.World N)
    (errors : list JS.value) (last : JS.value) (n' : N) :
  ModelClient.proxyIsRoute settings = true ->
  ModelClient.failedRecently dateNow parseDate settings (ModelClient.outside w)
  = false ->
  ModelClient.failsWith connect model settings (errors ++ [last])
    (ModelClient.outside w) n' ->
  S (length errors) = RetryLogic.MAX_RETRIES ->
  JS.prop last "message" ≫= JS.toString numberToString = None ->
  let out :=
    ModelClient.getModelClient numberToString connect createFallbackClient
      clearProxyFailure dateNow parseDate isoNow generateId
      extractUserIdFromSettings getCurrentMessageCount standardClient
      model settings w in
  out.1.1 = Throw ModelClient.TypeError /\
  out.2 = RetryLogic.backoffTrace errors (Some last) /\
  ModelClient.failedRequests out.1.2 = ModelClient.failedRequests w /\
  Settings.proxySettingsOf (ModelClient.store out.1.2) ≫= Settings.lastFailure
  = Settings.proxySettingsOf (ModelClient.store w) ≫= Settings.lastFailure /\
  Settings.outsideRetryBookkeeping (ModelClient.store out.1.2)
  = Settings.outsideRetryBookkeeping (ModelClient.store w).
Proof.
  intros Hroute Hrecent Hfails Hlen Htext out. subst out.
  rewrite (getModelClient_exhausted_eq numberToString connect
             createFallbackClient clearProxyFailure dateNow parseDate isoNow
             generateId extractUserIdFromSettings getCurrentMessageCount
             standardClient model settings w errors last n'
             Hroute Hrecent Hfails Hlen).
  rewrite failedAfter_cases, Htext.
  cbn [ModelClient.onRetryFailure fst snd ModelClient.failedRequests
       ModelClient.store].
  destruct (retriedStore_frame (S (length errors)) 1 (ModelClient.store w))
    as (Hframe & Hlast).
  repeat split; assumption.
Qed.

End ModelClientRouting.

(** ** Further properties of the settings handlers *)

(** X5: [initializeDistributionSettings] can be run at every start: a
    second run changes nothing, the other sections are never touched, and
    the distribution section changes only when there was none and the
    build is a distribution build. *)
Theorem initializeDistributionSettings_idempotent (env : Env.t)
    (store : Settings.UserSettings) :
  let store' := SettingsHandlers.initializeDistributionSettings env store in
  SettingsHandlers.initializeDistributionSettings env store' = store' /\
  Settings.otherSections store' = Settings.otherSections store /\
  (store' = store
   \/ (Settings.distributionMode store = None
       /\ Telemetry.IS_DISTRIBUTION_BUILD env = true)).
Proof.
  unfold SettingsHandlers.initializeDistributionSettings,
    Settings.readSettings, Settings.writeSettings.
  destruct (Telemetry.IS_DISTRIBUTION_BUILD env) eqn:Hbuild; cbn zeta.
  - destruct store as [[dm|] other]; cbn; auto.
  - auto.
Qed.

(** X6: in a distribution build, initialising a store that has no
    distribution section hides every enumerated feature and makes the
    proxy the route of [getModelClient]. *)
Theorem initializeDistributionSettings_hides_all (env : Env.t)
    (store : Settings.UserSettings) (featureKey : string) :
  Telemetry.IS_DISTRIBUTION_BUILD env = true ->
  Settings.distributionMode store = None ->
  featureKey ∈ FeatureGate.DISTRIBUTION_FEATURE_KEYS ->
  let store' := SettingsHandlers.initializeDistributionSettings env store in
  FeatureGate.shouldHideFeature (Settings.readSettings store') featureKey
  = JS.VBool true /\
  ModelClient.proxyIsRoute (Settings.readSettings store') = true.
Proof.
  intros Hbuild Hnone Hkey.
  unfold SettingsHandlers.initializeDistributionSettings,
    Settings.readSettings, Settings.writeSettings.
  rewrite Hbuild, Hnone. cbn zeta.
  split; [|reflexivity].
  unfold FeatureGate.DISTRIBUTION_FEATURE_KEYS in Hkey.
  repeat (apply elem_of_cons in Hkey as [-> | Hkey]; [reflexivity|]).
  apply elem_of_nil in Hkey. contradiction.
Qed.

Lemma initializeDistributionSettings_hides_all_witness :
  FeatureGate.shouldHideFeature
    (SettingsHandlers.initializeDistributionSettings distributionEnv
       standardSettings) "model-picker" = JS.VBool true.
Proof.
  apply (initializeDistributionSettings_hides_all distributionEnv
           standardSettings "model-picker").
  - vm_compute. reflexivity.
  - reflexivity.
  - unfold FeatureGate.DISTRIBUTION_FEATURE_KEYS. set_solver.
Defined.

(** X7: when [fetchVibeathonFallbackKeys] throws it has written nothing:
    the store is as it was, or as the other handlers left it while the
    request was in flight. *)
Theorem fetchVibeathonFallbackKeys_throw_writes_nothing (env : Env.t)
    (fetch : VibeathonApi.Fetch)
    (meanwhile : Settings.UserSettings -> Settings.UserSettings)
    (store : Settings.UserSettings) :
  let run :=
    SettingsHandlers.fetchVibeathonFallbackKeys env fetch meanwhile store in
  is_ok run.1 = false ->
  (run.2 = store
   /\ run.1 = Throw (VibeathonApi.Error
                       (JS.VStr "Vibeathon API key not configured")))
  \/ (run.2 = meanwhile store
      /\ exists secret e,
           Settings.distributionMode store ≫= Settings.vibeathonApiKey
           = Some secret /\
           VibeathonApi.fetchFallbackApiKeys env fetch (Settings.value secret)
           = Throw e /\
           run.1 = Throw e).
Proof.
  intros run. subst run.
  unfold SettingsHandlers.fetchVibeathonFallbackKeys, Settings.readSettings.
  destruct (Settings.distributionMode store ≫= Settings.vibeathonApiKey)
    as [[key enc]|]; [|auto].
  destruct (String.eqb key ""); [auto|].
  destruct (VibeathonApi.fetchFallbackApiKeys env fetch key) as [apiKeys|e]
    eqn:Hfetch; cbn; [discriminate|].
  intros _. right. split; [reflexivity|].
  exists {| Settings.value := key; Settings.encryptionType := enc |}, e.
  auto.
Qed.

Lemma fetchVibeathonFallbackKeys_throw_writes_nothing_witness :
  (SettingsHandlers.fetchVibeathonFallbackKeys ∅
     (fun _ => Throw VibeathonApi.TypeError) id keyOnlyStore).2 = keyOnlyStore.
Proof.
  destruct (fetchVibeathonFallbackKeys_throw_writes_nothing ∅
              (fun _ => Throw VibeathonApi.TypeError) id keyOnlyStore eq_refl)
    as [[Hstore _] | [Hstore _]]; exact Hstore.
Defined.

Lemma lookupKey_withKey {A} (acc : list (string * A)) (k k' : string) (v : A) :
  Settings.lookupKey (SettingsHandlers.withKey acc k v) k'
  = if String.eqb k k' then Some v else Settings.lookupKey acc k'.
Proof.
  induction acc as [|[k0 v0] acc IH]; simpl.
  - reflexivity.
  - destruct (String.eqb_spec k0 k) as [->|Hne]; simpl.
    + now destruct (String.eqb k k').
    + rewrite IH. destruct (String.eqb_spec k0 k') as [->|Hne']; [|reflexivity].
      destruct (String.eqb_spec k k'); [congruence|reflexivity].
Qed.

Lemma lookupKey_fold_withKey (es : list (string * JS.value))
    (acc : list (string * Settings.FallbackSecret)) (k : string) :
  NoDup es.*1 ->
  Settings.lookupKey
    (fold_left
       (fun acc kv =>
          SettingsHandlers.withKey acc kv.1
            {| Settings.fallbackValue := kv.2;
               Settings.fallbackEncryptionType := "electron-safe-storage" |})
       es acc) k
  = if JS.has es k
    then Some {| Settings.fallbackValue := JS.get es k;
                 Settings.fallbackEncryptionType := "electron-safe-storage" |}
    else Settings.lookupKey acc k.
Proof.
  revert acc. induction es as [|[k0 v0] es IH]; intros acc Hnd; simpl.
  - reflexivity.
  - apply NoDup_cons in Hnd as [Hnin Hnd]. rewrite IH by exact Hnd.
    rewrite lookupKey_withKey.
    destruct (String.eqb_spec k0 k) as [->|Hne]; simpl.
    + now rewrite (has_false_not_key es k Hnin).
    + reflexivity.
Qed.

Lemma filter_not_expiration (es : list (string * JS.value)) (k : string) :
  NoDup es.*1 ->
  let es' := filter (fun kv : string * JS.value => kv.1 ≠ "expiration") es in
  NoDup es'.*1 /\
  JS.has es' k = JS.has es k && negb (String.eqb k "expiration") /\
  (k ≠ "expiration" -> JS.get es' k = JS.get es k).
Proof.
  induction es as [|[k0 v0] es IH]; intros Hnd; cbn zeta.
  - repeat split. constructor.
  - apply NoDup_cons in Hnd as [Hnin Hnd].
    specialize (IH Hnd). cbn zeta in IH. destruct IH as (IHnd & IHhas & IHget).
    rewrite filter_cons. cbn [fst].
    destruct (decide (k0 ≠ "expiration")) as [Hk0|Hk0].
    + cbn [fmap list_fmap JS.has JS.get]. repeat split.
      * apply NoDup_cons. split; [|exact IHnd].
        intros Hin. apply Hnin.
        apply list_elem_of_fmap in Hin as ([k1 v1] & -> & Hin).
        apply list_elem_of_filter in Hin as [_ Hin].
        apply list_elem_of_fmap. exists (k1, v1). auto.
      * rewrite IHhas.
        destruct (String.eqb_spec k0 k) as [->|Hne]; simpl; [|reflexivity].
        destruct (String.eqb_spec k "expiration"); [contradiction|].
        reflexivity.
      * intros Hk. rewrite (IHget Hk). reflexivity.
    + assert (k0 = "expiration") as -> by (destruct (decide (k0 = "expiration")); [auto|contradiction]).
      cbn [JS.has JS.get]. repeat split.
      * exact IHnd.
      * rewrite IHhas.
        destruct (String.eqb_spec "expiration" k) as [<-|Hne]; simpl.
        -- now rewrite andb_false_r.
        -- reflexivity.
      * intros Hk. rewrite (IHget Hk).
        destruct (String.eqb_spec "expiration" k); [congruence|reflexivity].
Qed.

(** X8: after a successful [fetchVibeathonFallbackKeys] the store holds,
    for every provider named in the response, the credential the response
    gave for it, marked for safe storage; it holds no credential under
    [expiration] or for a provider the response did not name, and the
    expiration stored is the one of the response. *)
Theorem fetchVibeathonFallbackKeys_stores_credentials (env : Env.t)
    (fetch : VibeathonApi.Fetch)
    (meanwhile : Settings.UserSettings -> Settings.UserSettings)
    (store : Settings.UserSettings) (secret : Settings.Secret)
    (body : JS.object) (provider : string) :
  Settings.distributionMode store ≫= Settings.vibeathonApiKey = Some secret ->
  Settings.value secret ≠ "" ->
  VibeathonApi.fetchFallbackApiKeys env fetch (Settings.value secret)
  = Ok (JS.VObj body) ->
  NoDup body.*1 ->
  let store' :=
    (SettingsHandlers.fetchVibeathonFallbackKeys env fetch meanwhile store).2 in
  Settings.fallbackCredential store' provider
  = (if JS.has body provider && negb (String.eqb provider "expiration")
     then Some {| Settings.fallbackValue := JS.get body provider;
                  Settings.fallbackEncryptionType := "electron-safe-storage" |}
     else None) /\
  Settings.proxySettingsOf store' ≫= Settings.fallbackKeysExpiration
  = Some (JS.get body "expiration").
Proof.
  intros Hkey Hne Hfetch Hnd store'. subst store'.
  unfold SettingsHandlers.fetchVibeathonFallbackKeys, Settings.readSettings.
  rewrite Hkey. destruct secret as [key enc]. cbn [Settings.value] in *.
  destruct (String.eqb_spec key "") as [->|_]; [contradiction|].
  - rewrite Hfetch. cbn [snd].
    unfold Settings.fallbackCredential, Settings.proxySettingsOf,
      Settings.writeSettings, SettingsHandlers.fallbackKeysPatch,
      SettingsHandlers.toFallbackApiKeys, SettingsHandlers.entriesOf,
      JS.entries.
    cbn [Settings.patchDistributionMode Settings.distributionMode
         Settings.proxySettings Settings.fallbackApiKeys
         Settings.fallbackKeysExpiration mbind option_bind JS.prop default].
    pose proof (filter_not_expiration body provider Hnd) as Hf.
    cbv zeta in Hf. destruct Hf as (Hnd' & Hhas & Hget).
    split; [|reflexivity].
    rewrite lookupKey_fold_withKey by exact Hnd'. rewrite Hhas.
    destruct (JS.has body provider); simpl; [|reflexivity].
    destruct (String.eqb_spec provider "expiration"); simpl; [reflexivity|].
    now rewrite Hget.
Qed.

Lemma fetchVibeathonFallbackKeys_stores_credentials_witness :
  Settings.fallbackCredential configuredStoreAfterFetch "anthropic"
  = Some {| Settings.fallbackValue := JS.VStr "sk-user-anthropic";
            Settings.fallbackEncryptionType := "electron-safe-storage" |}.
Proof.
  refine (proj1 (fetchVibeathonFallbackKeys_stores_credentials ∅
                   (respondWith (okResponse keysBody)) id configuredStore
                   vibeathonSecret
                   [ ("openai", JS.VStr "sk-user-openai");
                     ("anthropic", JS.VStr "sk-user-anthropic");
                     ("expiration", JS.VStr "2025-12-31T00:00:00.000Z") ]
                   "anthropic" eq_refl _ eq_refl _)).
  - discriminate.
  - apply (bool_decide_unpack _). vm_compute. reflexivity.
Defined.


(** X10: deleting the Vibeathon API key in the configuration panel removes
    the key and every fallback credential with it: the panel then shows no
    key and no fallback keys, no provider has a credential, and
    [fetchVibeathonFallbackKeys] refuses to run, without a request and
    without a write. *)
Theorem handleDeleteApiKey_removes_credentials (env : Env.t)
    (fetch : VibeathonApi.Fetch)
    (meanwhile : Settings.UserSettings -> Settings.UserSettings)
    (settings store : Settings.UserSettings) (provider : string) :
  let store' := VibeathonConfiguration.handleDeleteApiKey settings store in
  VibeathonConfiguration.hasApiKey (Settings.readSettings store') = false /\
  VibeathonConfiguration.hasFallbackKeys (Settings.readSettings store') = false /\
  Settings.fallbackCredential store' provider = None /\
  SettingsHandlers.fetchVibeathonFallbackKeys env fetch meanwhile store'
  = (Throw (VibeathonApi.Error (JS.VStr "Vibeathon API key not configured")),
     store') /\
  Settings.otherSections store' = Settings.otherSections store.
Proof.
  unfold VibeathonConfiguration.handleDeleteApiKey,
    VibeathonConfiguration.updateSettings, Settings.writeSettings.
  cbn zeta. repeat split.
Qed.

(** X11: after [handleSaveApiKey] with a non-empty key the stored key is
    that key, whatever was stored before, and the next
    [fetchVibeathonFallbackKeys] asks the endpoint with exactly that key;
    with an empty input nothing is written. *)
Theorem handleSaveApiKey_key_is_used (env : Env.t)
    (fetch : VibeathonApi.Fetch)
    (meanwhile : Settings.UserSettings -> Settings.UserSettings)
    (trimmedInput : string) (settings store : Settings.UserSettings) :
  let store' :=
    VibeathonConfiguration.handleSaveApiKey trimmedInput settings store in
  if String.eqb trimmedInput "" then store' = store
  else
    (Settings.value <$>
       (Settings.distributionMode store' ≫= Settings.vibeathonApiKey))
    = Some trimmedInput /\
    (SettingsHandlers.fetchVibeathonFallbackKeys env fetch meanwhile store').1
    = match VibeathonApi.fetchFallbackApiKeys env fetch trimmedInput with
      | Ok _ => Ok ()
      | Throw e => Throw e
      end.
Proof.
  unfold VibeathonConfiguration.handleSaveApiKey,
    VibeathonConfiguration.updateSettings, Settings.writeSettings.
  cbn zeta. destruct (String.eqb trimmedInput "") eqn:Hempty; [reflexivity|].
  split; [reflexivity|].
  unfold SettingsHandlers.fetchVibeathonFallbackKeys, Settings.readSettings.
  cbn [Settings.distributionMode Settings.patchDistributionMode
       VibeathonConfiguration.flagsWithDefaults Settings.vibeathonApiKey
       mbind option_bind].
  rewrite Hempty.
  destruct (VibeathonApi.fetchFallbackApiKeys env fetch trimmedInput);
    reflexivity.
Qed.

(** ** Request transformation and validation *)

(** On a model name and a message list the transformation of values of
    type [any] is the typed one. *)
Lemma transformToOpenAIFormatAny_typed (amb : VibeathonApi.Ambient)
    (model : string) (messages : list JS.value) (options : JS.object) :
  Transforms.transformToOpenAIFormatAny amb (JS.VStr model)
    (JS.VArr messages) options
  = Ok (VibeathonApi.transformToOpenAIFormat amb model messages options).
Proof.
  unfold Transforms.transformToOpenAIFormatAny,
    VibeathonApi.transformToOpenAIFormat, VibeathonApi.requestLiteral.
  unfold JS.or.
  destruct (JS.truthy (JS.get options "originalProvider")); reflexivity.
Qed.

(** What a caller reads from a transformed request is what the request
    literal computed. *)
Lemma transformToOpenAIFormat_get (amb : VibeathonApi.Ambient)
    (model : string) (messages : list JS.value) (options : JS.object)
    (k : string) :
  JS.get (VibeathonApi.transformToOpenAIFormat amb model messages options) k
  = JS.get (VibeathonApi.requestLiteral amb model messages options) k.
Proof.
  apply (fromEntries_filter_defined
           (VibeathonApi.requestLiteral amb model messages options) k
           (requestLiteral_keys amb model messages options)).
Qed.

Lemma get_withProp (o : JS.object) (k k' : string) (v : JS.value) :
  JS.get (Transforms.withProp o k v) k'
  = if String.eqb k k' then v else JS.get o k'.
Proof. apply get_set. Qed.

(** X12: [transformAnthropicToOpenAI] turns the [system] prompt of an
    Anthropic request into the first message, before the messages of the
    request in their order; without a system prompt the messages are
    unchanged.  The model is kept and the token limit is read from
    [maxTokens] or [max_tokens]. *)
Theorem transformAnthropicToOpenAI_system_first (amb : VibeathonApi.Ambient)
    (request : JS.object) (model : string) (messages : list JS.value) :
  JS.get request "model" = JS.VStr model ->
  JS.get request "messages" = JS.VArr messages ->
  exists r,
    Transforms.transformAnthropicToOpenAI amb request = Ok r /\
    JS.get r "messages"
    = JS.VArr (if JS.truthy (JS.get request "system")
               then systemMessage (JS.get request "system") :: messages
               else messages) /\
    JS.get r "model" = JS.VStr model /\
    JS.get r "max_tokens"
    = JS.or (JS.get request "maxTokens") (JS.get request "max_tokens").
Proof.
  intros Hmodel Hmessages. unfold Transforms.transformAnthropicToOpenAI.
  rewrite Hmodel, Hmessages.
  destruct (JS.truthy (JS.get request "system")); cbn [Transforms.consSpread];
    rewrite !get_withProp; cbn [String.eqb Ascii.eqb Bool.eqb];
    rewrite transformToOpenAIFormatAny_typed;
    eexists; (split; [reflexivity|]);
    rewrite !transformToOpenAIFormat_get;
    cbn [VibeathonApi.requestLiteral JS.get String.eqb Ascii.eqb Bool.eqb];
    rewrite !get_withProp; cbn [String.eqb Ascii.eqb Bool.eqb];
    repeat split; reflexivity.
Qed.

(** X13: [transformGoogleToOpenAI] takes the temperature from
    [generationConfig] or the default 0.7, so a top-level [temperature] of
    the request is ignored, and takes the token limit from [maxTokens] or
    [maxOutputTokens], so a top-level [max_tokens] is ignored. *)
Theorem transformGoogleToOpenAI_reads_generationConfig
    (amb : VibeathonApi.Ambient) (request : JS.object) (model : string)
    (messages : list JS.value) :
  JS.get request "model" = JS.VStr model ->
  JS.get request "messages" = JS.VArr messages ->
  exists r,
    Transforms.transformGoogleToOpenAI amb request = Ok r /\
    JS.get r "temperature"
    = JS.coalesce
        (Transforms.optProp (JS.get request "generationConfig") "temperature")
        (JS.VNum (7 # 10)) /\
    JS.get r "max_tokens"
    = JS.or (JS.get request "maxTokens") (JS.get request "maxOutputTokens") /\
    JS.get r "messages" = JS.VArr messages.
Proof.
  intros Hmodel Hmessages. unfold Transforms.transformGoogleToOpenAI.
  rewrite Hmodel, Hmessages, transformToOpenAIFormatAny_typed.
  eexists. split; [reflexivity|].
  rewrite !transformToOpenAIFormat_get.
  cbn [VibeathonApi.requestLiteral JS.get String.eqb Ascii.eqb Bool.eqb].
  rewrite !get_withProp. cbn [String.eqb Ascii.eqb Bool.eqb].
  repeat split; reflexivity.
Qed.

Lemma messageErrors_nullish (index : nat) (messages : list JS.value)
    (errors : list string) :
  is_ok (Transforms.messageErrors index messages errors)
  = negb (existsb nullish messages).
Proof.
  revert index errors.
  induction messages as [|message rest IH]; intros index errors; simpl.
  - reflexivity.
  - destruct message; simpl; try reflexivity; apply IH.
Qed.

Lemma messageErrors_extends (index : nat) (messages : list JS.value)
    (errors : list string) :
  existsb nullish messages = false ->
  exists extra,
    Transforms.messageErrors index messages errors = Ok (errors ++ extra) /\
    bool_decide (extra = []) = forallb Transforms.wellFormedMessage messages.
Proof.
  revert index errors.
  induction messages as [|message rest IH]; intros index errors Hnn.
  - exists []. simpl. now rewrite app_nil_r.
  - simpl in Hnn. apply orb_false_elim in Hnn as [Hm Hrest].
    cbn [Transforms.messageErrors forallb].
    destruct (JS.prop message "role") as [role|] eqn:Hrole;
      [|destruct message; discriminate].
    destruct (JS.prop message "content") as [content|] eqn:Hcontent;
      [|destruct message; discriminate].
    assert (Hwf : Transforms.wellFormedMessage message
                  = Transforms.knownRole role && JS.truthy content)
      by (unfold Transforms.wellFormedMessage, Transforms.optProp;
          rewrite Hrole, Hcontent; reflexivity).
    rewrite Hwf. cbv zeta.
    assert (Hknown : Transforms.knownRole role = true -> JS.truthy role = true).
    { destruct role; simpl; try discriminate.
      destruct (String.eqb_spec s ""); [subst; discriminate|reflexivity]. }
    destruct (Transforms.knownRole role) eqn:Hk.
    + rewrite (Hknown eq_refl). cbn [negb orb].
      destruct (JS.truthy content); cbn [negb andb].
      * apply IH. exact Hrest.
      * destruct (IH (S index)
                     (errors ++ ["Missing content for message at index "
                                 +:+ pretty index]) Hrest)
          as (extra & -> & _).
        eexists. rewrite <- app_assoc. split; [reflexivity|].
        apply bool_decide_eq_false. discriminate.
    + rewrite orb_true_r. cbn [andb].
      match goal with
      | |- context [Transforms.messageErrors _ _ ?errs] =>
          destruct (IH (S index) errs Hrest) as (extra & -> & _)
      end.
      destruct (negb (JS.truthy content));
        eexists; rewrite <- ?app_assoc; (split; [reflexivity|]);
        apply bool_decide_eq_false; discriminate.
Qed.

(** X14: [validateOpenAIRequest] throws exactly when [messages] is an
    array that holds [null] or [undefined]; every other defect of a
    request is reported in [errors], not thrown. *)
Theorem validateOpenAIRequest_throws_on_null_message (request : JS.object) :
  is_ok (Transforms.validateOpenAIRequest request)
  = match JS.get request "messages" with
    | JS.VArr messages => negb (existsb nullish messages)
    | _ => true
    end.
Proof.
  unfold Transforms.validateOpenAIRequest. cbv zeta.
  destruct (JS.get request "messages") as [| | | | | |messages|]; try reflexivity.
  pose proof (messageErrors_nullish 0 messages
                (if negb (JS.truthy (JS.get request "model"))
                 then ["Missing required field: model"] else [])) as Hnn.
  destruct (Transforms.messageErrors 0 messages _); simpl in *; exact Hnn.
Qed.

(** X15: a request built by [transformToOpenAIFormat] with the default
    options passes [validateOpenAIRequest] exactly when the model name is
    not empty and every message has a known role and a content; the
    defaults the transformation adds (streaming, temperature 0.7) never
    cause an error. *)
Theorem validate_transformed_request (amb : VibeathonApi.Ambient)
    (model : string) (messages : list JS.value) :
  existsb nullish messages = false ->
  exists v,
    Transforms.validateOpenAIRequest
      (VibeathonApi.transformToOpenAIFormat amb model messages []) = Ok v /\
    Transforms.valid v
    = negb (String.eqb model "")
      && forallb Transforms.wellFormedMessage messages.
Proof.
  intros Hnn. unfold Transforms.validateOpenAIRequest. cbv zeta.
  rewrite !transformToOpenAIFormat_get.
  cbn [VibeathonApi.requestLiteral JS.get String.eqb Ascii.eqb Bool.eqb
       JS.or JS.coalesce JS.truthy].
  destruct (messageErrors_extends 0 messages
              (if negb (negb (String.eqb model ""))
               then ["Missing required field: model"] else []) Hnn)
    as (extra & -> & Hextra).
  eexists. split; [reflexivity|]. cbn [Transforms.valid].
  rewrite <- Hextra.
  destruct (String.eqb model ""); cbn [negb andb app].
  - apply bool_decide_eq_false. discriminate.
  - destruct extra; reflexivity.
Qed.

(** ** Further properties of the feature gate *)

(** X16: [shouldHideFeature] hides a feature only on the word of the
    configuration: when it returns a truthy value there is a distribution
    section in which a hide flag is set, or [hub] or [library] is listed
    for hiding, or the proxy is enabled. *)
Theorem shouldHideFeature_needs_a_flag (settings : Settings.UserSettings)
    (featureKey : string) :
  JS.truthy (FeatureGate.shouldHideFeature settings featureKey) = true ->
  exists config,
    Settings.distributionMode settings = Some config /\
    (Settings.hideCommercialFeatures config = Some true
     \/ Settings.hideProButtons config = Some true
     \/ Settings.hideExternalIntegrations config = Some true
     \/ (exists nav, Settings.hideNavigation config = Some nav
                     /\ ("hub" ∈ nav \/ "library" ∈ nav))
     \/ Settings.proxySettings config ≫= Settings.enabled = Some true).
Proof.
  unfold FeatureGate.shouldHideFeature.
  destruct (Settings.distributionMode settings) as [config|];
    [|discriminate].
  intros Htruthy. exists config. split; [reflexivity|].
  assert (Hfield : forall f, JS.truthy (FeatureGate.ofField f) = true ->
                             f = Some true)
    by (intros [[]|]; simpl; congruence).
  assert (Hor : forall a b, JS.truthy (JS.or a b) = true ->
                            JS.truthy a = true \/ JS.truthy b = true)
    by (intros a b; unfold JS.or; destruct (JS.truthy a) eqn:Ha; auto).
  assert (Hinc : forall xs x, JS.truthy (FeatureGate.includes xs x) = true ->
                              exists nav, xs = Some nav /\ x ∈ nav).
  { intros [nav|] x; simpl; [|discriminate].
    intros Hd. apply bool_decide_eq_true in Hd. eauto. }
  repeat match type of Htruthy with
         | JS.truthy (if ?c then _ else _) = true => destruct c
         end.
  - apply Hor in Htruthy as [H|H]; apply Hfield in H; auto.
  - apply Hfield in Htruthy. auto.
  - apply Hinc in Htruthy as (nav & Hnav & Hin). right. right. right. left.
    eauto.
  - apply Hinc in Htruthy as (nav & Hnav & Hin). right. right. right. left.
    eauto.
  - apply Hfield in Htruthy. auto.
  - apply Hfield in Htruthy. auto.
  - apply Hor in Htruthy as [H|H]; apply Hfield in H; auto 6.
  - discriminate.
Qed.

Lemma shouldHideFeature_needs_a_flag_witness :
  exists config,
    Settings.distributionMode (distributionOf None (Some true) None None)
    = Some config /\
    (Settings.hideCommercialFeatures config = Some true
     \/ Settings.hideProButtons config = Some true
     \/ Settings.hideExternalIntegrations config = Some true
     \/ (exists nav, Settings.hideNavigation config = Some nav
                     /\ ("hub" ∈ nav \/ "library" ∈ nav))
     \/ Settings.proxySettings config ≫= Settings.enabled = Some true).
Proof.
  exact (shouldHideFeature_needs_a_flag
           (distributionOf None (Some true) None None) "pro-banner" eq_refl).
Defined.

(** X17: [isDistributionMode] holds exactly in a distribution build or
    when the settings hide the "more ideas" section. *)
Theorem isDistributionMode_more_ideas (env : Env.t)
    (settings : Settings.UserSettings) :
  FeatureGate.isDistributionMode env settings
  = Telemetry.IS_DISTRIBUTION_BUILD env
    || JS.truthy (FeatureGate.shouldHideFeature settings "more-ideas").
Proof.
  unfold FeatureGate.isDistributionMode, FeatureGate.shouldHideFeature.
  destruct (Settings.distributionMode settings) as [config|]; cbn;
    [|reflexivity].
  destruct (Settings.hideCommercialFeatures config) as [[]|]; reflexivity.
Qed.

(** X18: in a distribution build, once the settings have been initialised,
    the settings navigation lists the Vibeathon key, General, Workflow,
    AI, Tools and the danger zone: neither the model providers nor
    telemetry, integrations or experiments. *)
Theorem settings_navigation_in_distribution_build (env : Env.t)
    (store : Settings.UserSettings) :
  Telemetry.IS_DISTRIBUTION_BUILD env = true ->
  Settings.distributionMode store = None ->
  SettingsList.id <$>
    SettingsList.filteredSections env
      (Some (Settings.readSettings
               (SettingsHandlers.initializeDistributionSettings env store)))
  = [ "vibeathon-api-key"; "general-settings"; "workflow-settings";
      "ai-settings"; "tools-mcp"; "danger-zone" ].
Proof.
  intros Hbuild Hnone.
  unfold SettingsList.filteredSections, SettingsList.SETTINGS_SECTIONS,
    SettingsHandlers.initializeDistributionSettings, Settings.readSettings,
    Settings.writeSettings.
  rewrite Hbuild, Hnone. reflexivity.
Qed.

Lemma settings_navigation_in_distribution_build_witness :
  SettingsList.id <$>
    SettingsList.filteredSections distributionEnv
      (Some (Settings.readSettings
               (SettingsHandlers.initializeDistributionSettings
                  distributionEnv standardSettings)))
  = [ "vibeathon-api-key"; "general-settings"; "workflow-settings";
      "ai-settings"; "tools-mcp"; "danger-zone" ].
Proof.
  apply settings_navigation_in_distribution_build.
  - vm_compute. reflexivity.
  - reflexivity.
Defined.

(** ** The chat mode shortcut *)

Lemma pressShortcut_mode (env : Env.t)
    (st : Settings.UserSettings * Telemetry.backend) :
  JS.truthy (selectedChatMode st.1) = true ->
  selectedChatMode (ChatModeToggle.pressShortcut env st).1
  = JS.VStr (ChatModeToggle.nextMode env (selectedChatMode st.1)) /\
  (ChatModeToggle.pressShortcut env st).2
  = Telemetry.captureEvent env "chat:mode_toggle"
      (JS.VObj [ ("from", selectedChatMode st.1);
                 ("to", JS.VStr (ChatModeToggle.nextMode env
                                   (selectedChatMode st.1)));
                 ("trigger", JS.VStr "keyboard_shortcut") ])
      st.2.
Proof.
  intros Htruthy.
  unfold ChatModeToggle.pressShortcut, ChatModeToggle.toggleChatMode,
    Settings.readSettings, selectedChatMode in *.
  rewrite Htruthy. cbn [negb fst snd].
  unfold VibeathonConfiguration.updateSettings, Settings.writeSettings.
  cbn [Settings.otherSections Settings.patchOtherSections fold_left fst snd].
  rewrite get_set. rewrite String.eqb_refl. auto.
Qed.

Lemma nextMode_truthy (env : Env.t) (current : JS.value) :
  ChatModeToggle.shouldHideBuildMode env = true ->
  JS.truthy (JS.VStr (ChatModeToggle.nextMode env current)) = true.
Proof.
  intros Hhide. unfold ChatModeToggle.nextMode. rewrite Hhide.
  destruct current as [| | | | |s| |]; try reflexivity.
  destruct (String.eqb s "ask"); reflexivity.
Qed.

(** X19: where the build mode is hidden (a distribution build, or
    [DYAD_HIDE_BUILD_MODE]) the shortcut never selects the build mode: the
    first press selects ask or agent, and the next press the other of the
    two. *)
Theorem shortcut_never_selects_build (env : Env.t)
    (st : Settings.UserSettings * Telemetry.backend) :
  ChatModeToggle.shouldHideBuildMode env = true ->
  JS.truthy (selectedChatMode st.1) = true ->
  let once := ChatModeToggle.pressShortcut env st in
  let twice := ChatModeToggle.pressShortcut env once in
  (selectedChatMode once.1 = JS.VStr "ask"
   /\ selectedChatMode twice.1 = JS.VStr "agent")
  \/ (selectedChatMode once.1 = JS.VStr "agent"
      /\ selectedChatMode twice.1 = JS.VStr "ask").
Proof.
  intros Hhide Htruthy once twice. subst twice once.
  destruct (pressShortcut_mode env st Htruthy) as [Honce _].
  assert (Htruthy' : JS.truthy
            (selectedChatMode (ChatModeToggle.pressShortcut env st).1) = true)
    by (rewrite Honce; now apply nextMode_truthy).
  destruct (pressShortcut_mode env _ Htruthy') as [Htwice _].
  rewrite Htwice, Honce.
  unfold ChatModeToggle.nextMode. rewrite Hhide.
  destruct (selectedChatMode st.1) as [| | | | |s| |]; cbn; auto.
  destruct (String.eqb s "ask"); cbn; auto.
Qed.



(** ** The validation cache *)

(** X21: the validation cache never holds a stale mark: starting from the
    empty cache, after any sequence of cache warmings and runs of the
    hook's effect, the cache is either empty or marked valid for a named
    key. *)
Theorem validation_cache_invariant (env : Env.t)
    (validateVibeathonKey : string -> result VibeathonApi.JsError bool)
    (events : list CacheEvent) (view : KeyValidation.View) :
  let cache :=
    (fold_left (cacheStep env validateVibeathonKey) events
       (KeyValidation.emptyCache, view)).1 in
  cache = KeyValidation.emptyCache
  \/ (KeyValidation.isValid cache = true
      /\ is_Some (KeyValidation.apiKey cache)).
Proof.
  cbv zeta.
  assert (Hgen : forall st : KeyValidation.ValidationCache * KeyValidation.View,
             (st.1 = KeyValidation.emptyCache
              \/ (KeyValidation.isValid st.1 = true
                  /\ is_Some (KeyValidation.apiKey st.1))) ->
             let cache :=
               (fold_left (cacheStep env validateVibeathonKey) events st).1 in
             cache = KeyValidation.emptyCache
             \/ (KeyValidation.isValid cache = true
                 /\ is_Some (KeyValidation.apiKey cache))).
  { induction events as [|ev events IH]; intros st Hst; [exact Hst|].
    cbn [fold_left]. apply IH.
    destruct ev as [key now | loading settings now later]; cbn.
    - right. split; [reflexivity|]. eexists; reflexivity.
    - destruct st as [cache v]. unfold KeyValidation.runEffect.
      cbn [fst] in Hst.
      destruct (negb (Telemetry.IS_DISTRIBUTION_BUILD env)); [exact Hst|].
      destruct loading; [exact Hst|].
      destruct (match settings with
                | Some s => Settings.value <$>
                    (Settings.distributionMode s ≫= Settings.vibeathonApiKey)
                | None => None
                end) as [key|]; [|exact Hst].
      destruct (String.eqb key ""); [exact Hst|].
      destruct (_ && _ && _); [exact Hst|].
      destruct (validateVibeathonKey key) as [[|]|]; cbn; auto. }
  apply Hgen. left. reflexivity.
Qed.

(** X22: after the cache has been warmed for a key at time [t], the effect
    of the hook, run in a distribution build on settings that hold this
    key, reports the key valid without asking the handler while less than
    five minutes have passed; from five minutes on it reports what the
    handler answers, and invalid when the handler throws. *)
Theorem warm_cache_spares_validation (env : Env.t)
    (validateVibeathonKey : string -> result VibeathonApi.JsError bool)
    (key : string) (t now later : Z)
    (cache : KeyValidation.ValidationCache) (view : KeyValidation.View) :
  Telemetry.IS_DISTRIBUTION_BUILD env = true ->
  key ≠ "" ->
  KeyValidation.viewIsValid
    (KeyValidation.runEffect env validateVibeathonKey false
       (Some (settingsWithKey key)) now later
       (KeyValidation.warmValidationCache key t cache, view)).2
  = Some (if now - t <? 300000 then true
          else match validateVibeathonKey key with
               | Ok true => true
               | _ => false
               end).
Proof.
  intros Hbuild Hkey. unfold KeyValidation.runEffect,
    KeyValidation.warmValidationCache, settingsWithKey.
  rewrite Hbuild. cbn.
  destruct (String.eqb_spec key ""); [contradiction|].
  rewrite bool_decide_eq_true_2 by reflexivity. cbn.
  change KeyValidation.CACHE_DURATION_MS with 300000.
  destruct (now - t <? 300000); [reflexivity|].
  destruct (validateVibeathonKey key) as [[|]|]; reflexivity.
Qed.

(** X23: [handleSave] of the key section stores a key only when the
    endpoint accepted it, and then warms the cache for it; an empty key, a
    key the endpoint rejects and a failed request leave the store and the
    cache as they were. *)
Theorem handleSave_stores_valid_keys_only (env : Env.t)
    (fetch : VibeathonApi.Fetch) (key : string)
    (settings : option Settings.UserSettings) (now : Z)
    (cache : KeyValidation.ValidationCache) (store : Settings.UserSettings) :
  let out := KeyValidation.handleSave env fetch key settings now
               (cache, store) in
  if negb (String.eqb key "")
     && is_ok (VibeathonApi.fetchFallbackApiKeys env fetch key)
  then
    out.2 = KeyValidation.SavedSuccessfully /\
    (Settings.value <$>
       (Settings.distributionMode out.1.2 ≫= Settings.vibeathonApiKey))
    = Some key /\
    out.1.1 = KeyValidation.warmValidationCache key now cache
  else
    out = (cache, store, KeyValidation.InvalidKey).
Proof.
  unfold KeyValidation.handleSave, KeyValidation.validateVibeathonKeyHandler,
    VibeathonApi.validateVibeathonApiKey.
  cbv zeta. destruct (String.eqb key ""); cbn [negb andb]; [reflexivity|].
  destruct (VibeathonApi.fetchFallbackApiKeys env fetch key); cbn;
    auto.
Qed.

(** ** Seeding of the default prompts *)

Section SeedFacts.
Variable join : string -> string -> string.
Variable readdir : string -> result SeedPrompts.ErrnoException (list string).
Variable readFile : string -> result SeedPrompts.ErrnoException string.
Variable matter :
  string ->
  result SeedPrompts.ErrnoException (SeedPrompts.PromptFrontmatter * string).
Variable trim : string -> string.

Lemma findByTitle_None (db : list SeedPrompts.PromptRow) (t : string) :
  SeedPrompts.findByTitle db t = None <-> t ∉ SeedPrompts.title <$> db.
Proof.
  unfold SeedPrompts.findByTitle. split.
  - intros Hnone Hin.
    apply list_elem_of_fmap in Hin as (row & -> & Hin).
    destruct (list_find (fun row0 => SeedPrompts.title row0
                                     = SeedPrompts.title row) db)
      as [[i r]|] eqn:Hfind; [discriminate|].
    apply list_find_None in Hfind.
    rewrite Forall_forall in Hfind. apply (Hfind row Hin). reflexivity.
  - intros Hnin.
    destruct (list_find (fun row => SeedPrompts.title row = t) db)
      as [[i r]|] eqn:Hfind; [|reflexivity].
    apply list_find_Some in Hfind as (Hlook & Ht & _).
    exfalso. apply Hnin. apply list_elem_of_fmap. exists r.
    split; [auto|]. eapply list_elem_of_lookup_2. exact Hlook.
Qed.

(** The loop appends read-only rows with titles that were not there. *)
Lemma seedFiles_appends (promptsDir : string) (mdFiles : list string)
    (db : list SeedPrompts.PromptRow) :
  exists added,
    (SeedPrompts.seedFiles join readFile matter trim promptsDir mdFiles db).2
    = db ++ added /\
    Forall (fun row => SeedPrompts.isReadOnly row = true) added /\
    (NoDup (SeedPrompts.title <$> db) ->
     NoDup (SeedPrompts.title <$> (db ++ added))).
Proof.
  revert db. induction mdFiles as [|file rest IH]; intros db;
    cbn [SeedPrompts.seedFiles].
  - exists []. rewrite app_nil_r. auto.
  - destruct (readFile (join promptsDir file)) as [fileContent|e];
      [|exists []; rewrite app_nil_r; auto].
    destruct (matter fileContent) as [[frontmatter body]|e];
      [|exists []; rewrite app_nil_r; auto].
    destruct (SeedPrompts.findByTitle db (SeedPrompts.fmTitle frontmatter))
      eqn:Hfind; [apply IH|].
    apply findByTitle_None in Hfind.
    match goal with
    | |- context [SeedPrompts.seedFiles _ _ _ _ _ rest (db ++ [?row])] =>
        destruct (IH (db ++ [row])) as (added & Heq & Hro & Hnd);
        exists (row :: added)
    end.
    rewrite Heq, <- app_assoc. split; [reflexivity|].
    split; [constructor; [reflexivity|exact Hro]|].
    intros Hdb. rewrite <- app_assoc in Hnd. apply Hnd.
    rewrite fmap_app. apply NoDup_app. split; [exact Hdb|].
    split; [|apply NoDup_singleton].
    intros t Ht Hin. cbn in Hin. apply list_elem_of_singleton in Hin. subst t.
    contradiction.
Qed.

(** Once the titles the loop met are in the table, the loop changes
    nothing and ends as before. *)
Lemma seedFiles_again (promptsDir : string) (mdFiles : list string)
    (db db2 : list SeedPrompts.PromptRow) :
  let run := SeedPrompts.seedFiles join readFile matter trim promptsDir
               mdFiles db in
  SeedPrompts.title <$> run.2 ⊆ SeedPrompts.title <$> db2 ->
  SeedPrompts.seedFiles join readFile matter trim promptsDir mdFiles db2
  = (run.1, db2).
Proof.
  revert db. induction mdFiles as [|file rest IH]; intros db;
    cbn [SeedPrompts.seedFiles]; cbv zeta.
  - reflexivity.
  - destruct (readFile (join promptsDir file)) as [fileContent|e];
      [|reflexivity].
    destruct (matter fileContent) as [[frontmatter body]|e]; [|reflexivity].
    assert (Hkeep : forall d,
               SeedPrompts.title <$> d
               ⊆ SeedPrompts.title <$>
                   (SeedPrompts.seedFiles join readFile matter trim
                      promptsDir rest d).2).
    { intros d. destruct (seedFiles_appends promptsDir rest d)
        as (added & -> & _). rewrite fmap_app.
      intros t Ht. apply elem_of_app. auto. }
    destruct (SeedPrompts.findByTitle db (SeedPrompts.fmTitle frontmatter))
      as [existing|] eqn:Hfind.
    + intros Hsub.
      assert (Hin : SeedPrompts.fmTitle frontmatter ∈ SeedPrompts.title <$> db2).
      { apply Hsub, Hkeep.
        destruct (decide (SeedPrompts.fmTitle frontmatter
                          ∈ SeedPrompts.title <$> db)) as [Hd|Hd]; [exact Hd|].
        apply findByTitle_None in Hd. congruence. }
      destruct (SeedPrompts.findByTitle db2 (SeedPrompts.fmTitle frontmatter))
        eqn:Hfind2; [|apply findByTitle_None in Hfind2; contradiction].
      apply IH. exact Hsub.
    + intros Hsub.
      assert (Hin : SeedPrompts.fmTitle frontmatter ∈ SeedPrompts.title <$> db2).
      { apply Hsub, Hkeep. rewrite fmap_app. apply elem_of_app. right.
        cbn. apply list_elem_of_singleton. reflexivity. }
      destruct (SeedPrompts.findByTitle db2 (SeedPrompts.fmTitle frontmatter))
        eqn:Hfind2; [|apply findByTitle_None in Hfind2; contradiction].
      apply IH. exact Hsub.
Qed.

(** X24: seeding the default prompts is idempotent: a second run on the
    same files, on the table the first run left, ends the way the first
    did and leaves the table as it is, so seeding at every start never
    duplicates a prompt. *)
Theorem seedDefaultPrompts_idempotent (resourcesPath : string)
    (db : list SeedPrompts.PromptRow) :
  let first := SeedPrompts.seedDefaultPrompts join readdir readFile matter
                 trim resourcesPath db in
  SeedPrompts.seedDefaultPrompts join readdir readFile matter trim
    resourcesPath first.2
  = first.
Proof.
  unfold SeedPrompts.seedDefaultPrompts. cbv zeta.
  destruct (readdir (join resourcesPath "default-prompts")) as [files|e];
    [|reflexivity].
  pose proof (seedFiles_again (join resourcesPath "default-prompts")
                (filter (fun f => SeedPrompts.endsWith f ".md" = true) files)
                db) as Hagain.
  cbv zeta in Hagain.
  destruct (SeedPrompts.seedFiles join readFile matter trim
              (join resourcesPath "default-prompts")
              (filter (fun f => SeedPrompts.endsWith f ".md" = true) files) db)
    as [r db'] eqn:Hfirst.
  cbn [fst snd] in *. rewrite (Hagain db') by reflexivity. reflexivity.
Qed.

(** X25: seeding only adds: on a table in which no two prompts share a
    title, the rows of the table stay, in place and unchanged, the rows
    added are read-only, and still no two prompts share a title. *)
Theorem seedDefaultPrompts_only_adds (resourcesPath : string)
    (db : list SeedPrompts.PromptRow) :
  NoDup (SeedPrompts.title <$> db) ->
  exists added,
    (SeedPrompts.seedDefaultPrompts join readdir readFile matter trim
       resourcesPath db).2 = db ++ added /\
    Forall (fun row => SeedPrompts.isReadOnly row = true) added /\
    NoDup (SeedPrompts.title <$> (db ++ added)).
Proof.
  intros Hdb. unfold SeedPrompts.seedDefaultPrompts. cbv zeta.
  destruct (readdir (join resourcesPath "default-prompts")) as [files|e].
  - destruct (seedFiles_appends (join resourcesPath "default-prompts")
                (filter (fun f => SeedPrompts.endsWith f ".md" = true) files)
                db) as (added & Heq & Hro & Hnd).
    exists added.
    destruct (SeedPrompts.seedFiles join readFile matter trim _ _ db)
      as [r db']. cbn [snd] in *. auto.
  - exists []. rewrite app_nil_r. cbn. auto.
Qed.

End SeedFacts.

(** ** Failed-request sync *)

Section SyncFacts.
Variable env : Env.t.
Variable fetch : VibeathonApi.Fetch.
Variable stringify : JS.value -> string.

Lemma markAll_cons (requestId : string) (ids : list string)
    (table : list ModelClient.FailedRequestRow) :
  markAll ids (RequestSync.markRequestSynced requestId table)
  = markAll (requestId :: ids) table.
Proof.
  unfold markAll, RequestSync.markRequestSynced. rewrite map_map.
  apply map_ext. intros row.
  destruct (String.eqb_spec (ModelClient.rowId row) requestId) as [Heq|Hne].
  - cbn [RequestSync.setSynced ModelClient.rowId].
    rewrite (bool_decide_eq_true_2 (ModelClient.rowId row ∈ requestId :: ids))
      by (rewrite Heq; apply elem_of_cons; auto).
    destruct (bool_decide (ModelClient.rowId row ∈ ids)); reflexivity.
  - destruct (bool_decide (ModelClient.rowId row ∈ ids)) eqn:Hin.
    + apply bool_decide_eq_true in Hin.
      rewrite bool_decide_eq_true_2 by (apply elem_of_cons; auto).
      reflexivity.
    + apply bool_decide_eq_false in Hin.
      rewrite bool_decide_eq_false_2; [reflexivity|].
      intros Hc. apply elem_of_cons in Hc as [Hc|Hc]; contradiction.
Qed.

Lemma sync_loop_marks (apiKey : string)
    (requests table : list ModelClient.FailedRequestRow) :
  fold_left
    (fun table request =>
       match RequestSync.postFailedRequest env fetch stringify apiKey
               request with
       | Ok _ => RequestSync.markRequestSynced (ModelClient.rowId request) table
       | Throw _ => table
       end)
    requests table
  = markAll (resolvedIds env fetch stringify apiKey requests) table.
Proof.
  revert table. induction requests as [|request rest IH]; intros table.
  - cbn. unfold markAll. rewrite <- (map_id table) at 1. apply map_ext.
    intros row. rewrite bool_decide_eq_false_2; [reflexivity|].
    apply not_elem_of_nil.
  - cbn [fold_left]. rewrite IH. unfold resolvedIds. rewrite filter_cons.
    destruct (RequestSync.postFailedRequest env fetch stringify apiKey request)
      as [response|e]; cbn [is_ok].
    + rewrite decide_True by reflexivity. cbn [fmap list_fmap].
      apply markAll_cons.
    + rewrite decide_False by discriminate. reflexivity.
Qed.

Lemma same_id_same_row (table : list ModelClient.FailedRequestRow)
    (r1 r2 : ModelClient.FailedRequestRow) :
  NoDup (ModelClient.rowId <$> table) ->
  r1 ∈ table -> r2 ∈ table ->
  ModelClient.rowId r1 = ModelClient.rowId r2 -> r1 = r2.
Proof.
  induction table as [|row table IH]; intros Hnd H1 H2 Hid.
  - apply elem_of_nil in H1. contradiction.
  - cbn in Hnd. apply NoDup_cons in Hnd as [Hnin Hnd].
    apply elem_of_cons in H1 as [->|H1]; apply elem_of_cons in H2 as [->|H2].
    + reflexivity.
    + exfalso. apply Hnin. rewrite Hid. apply list_elem_of_fmap. eauto.
    + exfalso. apply Hnin. rewrite <- Hid. apply list_elem_of_fmap. eauto.
    + now apply IH.
Qed.

(** X26: [SyncService.syncFailedRequests] keeps every row of the table and
    changes at most its [synced] mark.  With unique identifiers, a row is
    marked exactly when it was unsynced and the call for it resolved,
    whatever the status of the response (the loop does not look at
    [response.ok]) and whoever the user of the row is (the query does not
    select by user); a row whose call threw stays unsynced and does not
    keep the loop from the rows after it. *)
Theorem syncFailedRequests_marks_resolved (userId apiKey : string)
    (table : list ModelClient.FailedRequestRow) :
  NoDup (ModelClient.rowId <$> table) ->
  RequestSync.syncFailedRequests env fetch stringify userId apiKey table
  = map (fun row =>
           if negb (ModelClient.rowSynced row)
              && is_ok (RequestSync.postFailedRequest env fetch stringify
                          apiKey row)
           then RequestSync.setSynced row
           else row)
        table.
Proof.
  intros Hnd. unfold RequestSync.syncFailedRequests. cbv zeta.
  rewrite sync_loop_marks. unfold markAll.
  apply map_ext_in. intros row Hrow. apply list_elem_of_In in Hrow.
  destruct (bool_decide
              (ModelClient.rowId row
               ∈ resolvedIds env fetch stringify apiKey
                   (RequestSync.getUnsyncedRequests userId table))) eqn:Hin.
  - apply bool_decide_eq_true in Hin. unfold resolvedIds in Hin.
    apply list_elem_of_fmap in Hin as (r' & Hid & Hin).
    apply list_elem_of_filter in Hin as [Hok Hin].
    unfold RequestSync.getUnsyncedRequests in Hin.
    apply list_elem_of_filter in Hin as [Hsynced Hin].
    assert (row = r') as <- by (now apply (same_id_same_row table)).
    rewrite Hsynced, Hok. reflexivity.
  - apply bool_decide_eq_false in Hin.
    destruct (ModelClient.rowSynced row) eqn:Hsynced; [reflexivity|].
    destruct (is_ok (RequestSync.postFailedRequest env fetch stringify apiKey
                       row)) eqn:Hok; [|reflexivity].
    exfalso. apply Hin. unfold resolvedIds. apply list_elem_of_fmap.
    exists row. split; [reflexivity|].
    apply list_elem_of_filter. split; [exact Hok|].
    unfold RequestSync.getUnsyncedRequests. apply list_elem_of_filter.
    auto.
Qed.

(** By contrast [syncFailedRequest] completes only when the request
    resolved with an ok response. *)
Lemma syncFailedRequest_needs_ok (apiKey : string) (syncData : JS.value) :
  is_ok (RequestSync.syncFailedRequest env fetch stringify apiKey syncData)
  = match RequestSync.fetchVibeathonApi env fetch "/sync/failed-request"
            {| RequestSync.initMethod := "POST";
               RequestSync.initHeaders :=
                 [("Authorization", "Bearer " +:+ apiKey)];
               RequestSync.initBody := Some (stringify syncData) |} with
    | Ok response => VibeathonApi.ok response
    | Throw _ => false
    end.
Proof.
  unfold RequestSync.syncFailedRequest.
  destruct (RequestSync.fetchVibeathonApi env fetch _ _) as [response|e];
    [|reflexivity].
  destruct (VibeathonApi.ok response); reflexivity.
Qed.

End SyncFacts.

(** ** Instances *)

Lemma getModelClient_success_keeps_ledger_witness :
  (getModelClientAtNoon proxyUpAtThird gpt4o configuredStoreAfterFetch
     fallbackReadyWorld).1.1 = Ok "vibeathon-proxy" /\
  (getModelClientAtNoon proxyUpAtThird gpt4o configuredStoreAfterFetch
     fallbackReadyWorld).2
  = RetryLogic.backoffTrace [networkDown; networkDown] None /\
  ModelClient.failedRequests
    (getModelClientAtNoon proxyUpAtThird gpt4o configuredStoreAfterFetch
       fallbackReadyWorld).1.2 = [].
Proof.
  pose proof (getModelClient_success_keeps_ledger integerText proxyUpAtThird
                planFallbackClient clearLastFailure (fun _ => noon)
                sampleParseDate
                (fun _ => "2025-09-23T12:00:00.000Z") (fun _ => "req-1")
                (fun _ => "user-1") (fun _ => 3)
                (fun _ _ w => (Ok "standard", w))
                gpt4o configuredStoreAfterFetch fallbackReadyWorld
                [networkDown; networkDown] 2%nat 3%nat "vibeathon-proxy"
                eq_refl eq_refl) as H.
  assert (Hfails : ModelClient.failsWith proxyUpAtThird gpt4o
                     configuredStoreAfterFetch [networkDown; networkDown]
                     (ModelClient.outside fallbackReadyWorld) 2%nat).
  { cbn. repeat (eexists; split; [reflexivity|]). reflexivity. }
  specialize (H Hfails ltac:(unfold RetryLogic.MAX_RETRIES; simpl; lia) eq_refl).
  cbv zeta in H. destruct H as (Hclient & Htrace & Hrows & _).
  split; [exact Hclient|]. split; [exact Htrace|exact Hrows].
Defined.

Lemma getModelClient_silent_after_exhaustion_witness :
  getModelClientAtNoon proxyDown gpt4o
    (ModelClient.store getModelClientWhenDown.1.2)
    (ModelClient.withOutside getModelClientWhenDown.1.2 10%nat)
  = (Ok "openai-direct",
     ModelClient.withOutside getModelClientWhenDown.1.2 11%nat, []).
Proof.
  assert (Hfails : ModelClient.failsWith proxyDown gpt4o
                     configuredStoreAfterFetch
                     (replicate 9 networkDown ++ [networkDown])
                     (ModelClient.outside fallbackReadyWorld) 10%nat).
  { cbn. repeat (eexists; split; [reflexivity|]). reflexivity. }
  pose proof (getModelClient_silent_after_exhaustion integerText proxyDown
                planFallbackClient clearLastFailure (fun _ => noon)
                sampleParseDate
                (fun _ => "2025-09-23T12:00:00.000Z") (fun _ => "req-1")
                (fun _ => "user-1") (fun _ => 3)
                (fun _ _ w => (Ok "standard", w))
                gpt4o fallbackReadyWorld
                (replicate 9 networkDown) networkDown 10%nat "fetch failed"
                10%nat 11%nat networkDown
                eq_refl eq_refl Hfails eq_refl eq_refl
                ltac:(discriminate) eq_refl ltac:(unfold noon; lia) eq_refl)
    as H.
  exact H.
Defined.

Lemma getModelClient_unreadable_rejection_witness :
  (getModelClientAtNoon proxyRejectsWithNull gpt4o configuredStoreAfterFetch
     fallbackReadyWorld).1.1 = Throw ModelClient.TypeError /\
  ModelClient.failedRequests
    (getModelClientAtNoon proxyRejectsWithNull gpt4o configuredStoreAfterFetch
       fallbackReadyWorld).1.2 = [] /\
  Settings.proxySettingsOf
    (ModelClient.store
       (getModelClientAtNoon proxyRejectsWithNull gpt4o
          configuredStoreAfterFetch fallbackReadyWorld).1.2)
    ≫= Settings.lastFailure = None.
Proof.
  assert (Hfails : ModelClient.failsWith proxyRejectsWithNull gpt4o
                     configuredStoreAfterFetch
                     (replicate 9 JS.VNull ++ [JS.VNull])
                     (ModelClient.outside fallbackReadyWorld) 10%nat).
  { cbn. repeat (eexists; split; [reflexivity|]). reflexivity. }
  pose proof (getModelClient_unreadable_rejection integerText
                proxyRejectsWithNull
                planFallbackClient clearLastFailure (fun _ => noon)
                sampleParseDate
                (fun _ => "2025-09-23T12:00:00.000Z") (fun _ => "req-1")
                (fun _ => "user-1") (fun _ => 3)
                (fun _ _ w => (Ok "standard", w))
                gpt4o configuredStoreAfterFetch fallbackReadyWorld
                (replicate 9 JS.VNull) JS.VNull 10%nat
                eq_refl eq_refl Hfails eq_refl eq_refl) as H.
  cbv zeta in H. destruct H as (Hthrow & _ & Hrows & Hlast & _).
  split; [exact Hthrow|]. split; [exact Hrows|exact Hlast].
Defined.

Lemma transformAnthropicToOpenAI_system_first_witness :
  exists r,
    Transforms.transformAnthropicToOpenAI sampleAmbient anthropicRequest
    = Ok r /\
    JS.get r "messages"
    = JS.VArr [systemMessage (JS.VStr "Be brief."); userMessage] /\
    JS.get r "model" = JS.VStr "claude-3-5-sonnet" /\
    JS.get r "max_tokens" = JS.VNum 1024.
Proof.
  exact (transformAnthropicToOpenAI_system_first sampleAmbient
           anthropicRequest "claude-3-5-sonnet" [userMessage]
           eq_refl eq_refl).
Defined.

Lemma transformGoogleToOpenAI_reads_generationConfig_witness :
  exists r,
    Transforms.transformGoogleToOpenAI sampleAmbient googleRequest = Ok r /\
    JS.get r "temperature" = JS.VNum (1 # 5) /\
    JS.get r "max_tokens" = JS.VNum 256 /\
    JS.get r "messages" = JS.VArr [userMessage].
Proof.
  exact (transformGoogleToOpenAI_reads_generationConfig sampleAmbient
           googleRequest "gemini-1.5-pro" [userMessage] eq_refl eq_refl).
Defined.

Lemma validate_transformed_request_witness :
  exists v,
    Transforms.validateOpenAIRequest
      (VibeathonApi.transformToOpenAIFormat sampleAmbient "gpt-4o"
         [userMessage] []) = Ok v /\
    Transforms.valid v = true.
Proof.
  exact (validate_transformed_request sampleAmbient "gpt-4o" [userMessage]
           eq_refl).
Defined.

Lemma shortcut_never_selects_build_witness :
  (selectedChatMode
     (ChatModeToggle.pressShortcut hideBuildEnv (storeInMode "build", [])).1
   = JS.VStr "ask"
   /\ selectedChatMode
        (ChatModeToggle.pressShortcut hideBuildEnv
           (ChatModeToggle.pressShortcut hideBuildEnv
              (storeInMode "build", []))).1
      = JS.VStr "agent")
  \/ (selectedChatMode
        (ChatModeToggle.pressShortcut hideBuildEnv (storeInMode "build", [])).1
      = JS.VStr "agent"
      /\ selectedChatMode
           (ChatModeToggle.pressShortcut hideBuildEnv
              (ChatModeToggle.pressShortcut hideBuildEnv
                 (storeInMode "build", []))).1
         = JS.VStr "ask").
Proof.
  apply (shortcut_never_selects_build hideBuildEnv (storeInMode "build", [])).
  - vm_compute. reflexivity.
  - reflexivity.
Defined.


Lemma warm_cache_spares_validation_witness :
  KeyValidation.viewIsValid
    (KeyValidation.runEffect distributionEnv (fun _ => Ok false) false
       (Some (settingsWithKey "vb-key")) 1060000 1060001
       (KeyValidation.warmValidationCache "vb-key" 1000000
          KeyValidation.emptyCache,
        {| KeyValidation.isValidating := true;
           KeyValidation.viewIsValid := None;
           KeyValidation.navigatedToSettings := false |})).2
  = Some true.
Proof.
  refine (warm_cache_spares_validation distributionEnv (fun _ => Ok false)
            "vb-key" 1000000 1060000 1060001 KeyValidation.emptyCache _ _ _).
  - vm_compute. reflexivity.
  - discriminate.
Defined.

Lemma seedDefaultPrompts_only_adds_witness :
  exists added,
    (SeedPrompts.seedDefaultPrompts (fun a b => a +:+ "/" +:+ b)
       promptsReaddir (fun path => Ok path) promptsMatter (fun s => s)
       "resources" userPrompts).2 = userPrompts ++ added /\
    Forall (fun row => SeedPrompts.isReadOnly row = true) added /\
    NoDup (SeedPrompts.title <$> (userPrompts ++ added)).
Proof.
  apply (seedDefaultPrompts_only_adds (fun a b => a +:+ "/" +:+ b)
           promptsReaddir (fun path => Ok path) promptsMatter (fun s => s)
           "resources" userPrompts).
  apply (bool_decide_unpack _). vm_compute. reflexivity.
Defined.

(** On that table the prompt the user wrote under the title of a default
    one is kept as it is; the other default prompt is added. *)
Lemma seedDefaultPrompts_keeps_user_prompt :
  (SeedPrompts.seedDefaultPrompts (fun a b => a +:+ "/" +:+ b)
     promptsReaddir (fun path => Ok path) promptsMatter (fun s => s)
     "resources" userPrompts).2
  = userPrompts
    ++ [ {| SeedPrompts.title := "Pre-flight Checklist";
            SeedPrompts.description :=
              Some "Creates a comprehensive checklist before starting a feature";
            SeedPrompts.content := "Before we start building this feature";
            SeedPrompts.isReadOnly := true |} ].
Proof. vm_compute. reflexivity. Qed.

(** One file of the directory is a prompt; it is seeded once. *)
Lemma seedDefaultPrompts_example :
  (SeedPrompts.seedDefaultPrompts (fun a b => a +:+ "/" +:+ b)
     sampleReaddir (fun path => Ok path) sampleMatter (fun s => s)
     "resources" []).2
  = [ {| SeedPrompts.title := "Debug Helper";
         SeedPrompts.description := None;
         SeedPrompts.content := "resources/default-prompts/debug-helper.md";
         SeedPrompts.isReadOnly := true |} ].
Proof. vm_compute. reflexivity. Qed.

Lemma syncFailedRequests_marks_resolved_witness :
  RequestSync.syncFailedRequests ∅ serverError (fun _ => "{}") "user-1"
    "vb-key"
    [failedRow "req-1" "user-1" false; failedRow "req-2" "user-2" false]
  = [failedRow "req-1" "user-1" true; failedRow "req-2" "user-2" true].
Proof.
  rewrite (syncFailedRequests_marks_resolved ∅ serverError (fun _ => "{}")
             "user-1" "vb-key"
             [failedRow "req-1" "user-1" false;
              failedRow "req-2" "user-2" false]).
  - vm_compute. reflexivity.
  - apply (bool_decide_unpack _). vm_compute. reflexivity.
Defined.
